(** * Multiple-choice randomizer: variant generation, grading and item analysis

    A shallow embedding of [randomizer.py] (class [TestGeneratorAnalyzer]
    and [main]) together with the properties its specification states.

    Conventions of the embedding

    - Counters are [Z].  A Python number is the rational [Q] it denotes (a
      double denotes a rational).  Two treatments of floating point follow.
      The scores that order the candidates in [select_best_variants] are
      computed through the interface [Float64] of double-precision
      arithmetic, because the order of the candidates depends on the last
      bit of every score; what is proved about the selection holds on
      every implementation of the interface, and an executable binary64
      instance is given besides the exact one.  The grades and the
      statistics of phase 2 are computed in exact arithmetic ([round(x, 2)]
      is rounding to the nearest hundredth, ties to even, of the exact
      value); a double differs from the exact value by a relative error of
      about [10^-16] per operation, so the statements about these numbers
      are ranges and distances with room for that error, never equalities
      between computed fractions.  A division whose divisor may be zero is
      the fallible [truediv].
    - Python strings are [string], sequences of 8-bit characters;
      [str.strip], [str.upper] and [chr] are Python's on ASCII text only
      (Python strips and upper-cases Unicode), and the statements that
      depend on them are about ASCII text.
    - A [dict] whose iteration order is observed ([test_results], the answer
      detail of a student) is an association list with Python's update
      discipline; the dictionaries that are only looked up are [gmap]s.
    - [print] appends a [message] to the standard output of the [world];
      [open(..., "w")] binds a file name in its [files].
    - A raised exception is the [Raise] case of the [py] monad.
    - [random.shuffle], [numpy] and [scipy.stats] are interfaces
      ([RandomSource], [SciLib]); executable instances are given for the
      examples.
    - What [pandas] reads from the spreadsheets, what [json] reads from the
      two JSON files, whether [pylatex] builds the document of a variant
      and whether [pdflatex] produces a PDF are inputs of the two phases
      ([phase1_env], [phase2_env]); the LaTeX source and the reports of
      phase 2 are outside the model. *)

From Stdlib Require Import ZArith QArith Qround Qabs Lqa String Ascii.
From stdpp Require Import gmap strings list sorting pretty.

(** ** Python primitives *)

Module Py.

Inductive exn :=
| ZeroDivisionError
| ValueError
| FileNotFoundError
| RuntimeError
| TypeError.

Inductive py (A : Type) :=
| Ok (a : A)
| Raise (e : exn).
Arguments Ok {A} a.
Arguments Raise {A} e.

#[global] Instance py_ret : MRet py := λ A a, Ok a.
#[global] Instance py_bind : MBind py := λ A B k m,
  match m with
  | Ok a => k a
  | Raise e => Raise e
  end.

(** [l[:stop]] *)
Definition slice_to {A} (stop : Z) (l : list A) : list A :=
  if (0 <=? stop)%Z then take (Z.to_nat stop) l
  else take (Z.to_nat (Z.of_nat (length l) + stop)) l.

(** [l[-k:]] for [k >= 1] *)
Definition slice_last {A} (k : Z) (l : list A) : list A :=
  drop (Z.to_nat (Z.of_nat (length l) - k)) l.

(** [str.isspace] on one ASCII character *)
Definition isspace (c : ascii) : bool :=
  let n := nat_of_ascii c in
  ((9 <=? n) && (n <=? 13) || (28 <=? n) && (n <=? 32))%nat.

Fixpoint lstrip (s : string) : string :=
  match s with
  | EmptyString => EmptyString
  | String c s' => if isspace c then lstrip s' else s
  end.

(** [str.strip] on ASCII text: the white space of ASCII is removed at
    both ends (Python also removes the white space of Unicode, such as
    the no-break space). *)
Definition strip (s : string) : string :=
  String.rev (lstrip (String.rev (lstrip s))).

Definition upper_ascii (c : ascii) : ascii :=
  let n := nat_of_ascii c in
  if ((97 <=? n) && (n <=? 122))%nat then ascii_of_nat (n - 32) else c.

(** [str.upper] on ASCII text: the letters a to z are raised (Python
    also raises the letters of Unicode). *)
Fixpoint upper (s : string) : string :=
  match s with
  | EmptyString => EmptyString
  | String c s' => String (upper_ascii c) (upper s')
  end.

(** [chr(ord(base) + i)] as a one-character string, for a code point
    below 256 (an 8-bit character cannot hold the code points that
    Python gives beyond). *)
Definition chr_from (base : nat) (i : nat) : string :=
  String (ascii_of_nat (base + i)) EmptyString.

(** [str(n)] for an int *)
Definition str_int (n : Z) : string := pretty n.

(** [round(x)] to an integer, ties to even *)
Definition round_half_even (x : Q) : Z :=
  let f := Qfloor x in
  match (x - inject_Z f) ?= (1 # 2) with
  | Lt => f
  | Gt => (f + 1)%Z
  | Eq => if Z.even f then f else (f + 1)%Z
  end%Q.

(** [round(x, 2)] *)
Definition round2 (x : Q) : Q :=
  inject_Z (round_half_even (x * 100)) / 100.

Definition Qsum (l : list Q) : Q := foldr Qplus 0%Q l.

Definition Qlen {A} (l : list A) : Q := inject_Z (Z.of_nat (length l)).

(** [max(l)] and [min(l)] of a non-empty list, given its head *)
Definition Qmax_list (x : Q) (l : list Q) : Q :=
  foldl (λ m y, if Qle_bool m y then y else m) x l.
Definition Qmin_list (x : Q) (l : list Q) : Q :=
  foldl (λ m y, if Qle_bool y m then y else m) x l.

(** [next((i for i, x in enumerate(l) if p(x)), 0)] *)
Fixpoint index_where {A} (p : A → bool) (l : list A) : option nat :=
  match l with
  | [] => None
  | x :: l' => if p x then Some 0%nat else S <$> index_where p l'
  end.

(** An insertion-ordered [dict] with string keys: [d[k] = v] replaces the
    value of an existing key in place and appends a new key. *)
Fixpoint dict_set {V} (k : string) (v : V) (d : list (string * V))
  : list (string * V) :=
  match d with
  | [] => [(k, v)]
  | (k', v') :: d' =>
      if String.eqb k' k then (k, v) :: d' else (k', v') :: dict_set k v d'
  end.

Fixpoint dict_get {V} (k : string) (d : list (string * V)) : option V :=
  match d with
  | [] => None
  | (k', v') :: d' => if String.eqb k' k then Some v' else dict_get k d'
  end.

(** [list.sort(key=..., reverse=True)]: the stable sort by decreasing key.
    An element is placed in front of the elements that follow it in the
    input and whose key is not greater. *)
Fixpoint insert_desc {A} (key : A → Q) (x : A) (l : list A) : list A :=
  match l with
  | [] => [x]
  | y :: l' =>
      if Qle_bool (key y) (key x) then x :: y :: l'
      else y :: insert_desc key x l'
  end.

Definition sort_desc {A} (key : A → Q) (l : list A) : list A :=
  foldr (insert_desc key) [] l.

(** The ascending sort of numbers *)
Fixpoint insert_asc (x : Q) (l : list Q) : list Q :=
  match l with
  | [] => [x]
  | y :: l' => if Qle_bool x y then x :: y :: l' else y :: insert_asc x l'
  end.

Definition sort_asc (l : list Q) : list Q := foldr insert_asc [] l.

(** [x < y] *)
Definition Qlt_bool (x y : Q) : bool := negb (Qle_bool y x).

(** [x / y]: Python raises on a zero divisor (numpy gives [inf] or [nan]
    with a warning: the same fault, not a quotient). *)
Definition truediv (x y : Q) : py Q :=
  if Qeq_bool y 0 then Raise ZeroDivisionError else Ok (x / y)%Q.

(** The value of an expression that does not raise; [d] stands for the
    case that is shown not to occur. *)
Definition returned {A} (d : A) (m : py A) : A :=
  match m with
  | Ok a => a
  | Raise _ => d
  end.

End Py.

Import Py.

(** ** External interfaces *)

(** [random]: [shuffle l g] is [random.shuffle(l)] run from the generator
    state [g]; it returns the shuffled list and the next state. *)
Class RandomSource := {
  Rng : Type;
  shuffle : ∀ A : Type, list A → Rng → list A * Rng
}.
Arguments shuffle {_ A} l g.

(** [numpy] and [scipy.stats] as they compute: [np.std(a)],
    [np.percentile(a, q)] and [stats.percentileofscore(a, score)]. *)
Class SciLib := {
  np_std : list Q → Q;
  np_percentile : list Q → Q → Q;
  percentileofscore : list Q → Q → Q
}.

(** Double-precision arithmetic.  [fl x] is the double the machine stores
    for the exact result [x] of one operation on doubles or ints: IEEE 754
    addition, subtraction, multiplication and division, and Python's true
    division of ints, are correctly rounded.  [np_mean64 l] is
    [np.mean(l)] as numpy computes it on doubles, whatever its order of
    summation. *)
Class Float64 := {
  fl : Q → Q;
  np_mean64 : list Q → Q
}.

(** [np.mean] of a non-empty sequence, in exact arithmetic *)
Definition np_mean (l : list Q) : Q := (Qsum l / Qlen l)%Q.

Section Numpy.
Context `{SciLib}.

(** [np.median] *)
Definition np_median (l : list Q) : Q := np_percentile l 50.
End Numpy.

(** ** Data model *)

Record answer := {
  text : string;
  is_correct : bool
}.

Record question := {
  question_text : string;
  sheet_name : string;
  num_columns_alternatives : Z;
  answers : list answer;
  punteggio_corretta : option Q;
  punteggio_errata : option Q;
  punteggio_non_data : option Q
}.

Definition with_answers (q : question) (a : list answer) : question :=
  {| question_text := question_text q;
     sheet_name := sheet_name q;
     num_columns_alternatives := num_columns_alternatives q;
     answers := a;
     punteggio_corretta := punteggio_corretta q;
     punteggio_errata := punteggio_errata q;
     punteggio_non_data := punteggio_non_data q |}.

Record variant := {
  variant_id : string;
  questions : list question
}.

(** The keys of [config.json] that the modelled code reads; an absent key
    is [None]. *)
Record config := {
  cfg_default_correct_score : option Q;
  cfg_default_wrong_score : option Q;
  cfg_default_no_answer_score : option Q;
  cfg_passing_threshold : option Q;
  cfg_num_variants : option Z;
  cfg_num_potential_variants_for_randomness_check : option Z;
  cfg_choice_label_format : option string
}.

(** One cell of the submission spreadsheet: empty ([NaN]) or a value, given
    by its [str()]. *)
Inductive cell :=
| NaN
| Text (s : string).

Definition str_cell (c : cell) : string :=
  match c with
  | NaN => "nan"
  | Text s => s
  end.

Definition isna (c : option cell) : bool :=
  match c with
  | None | Some NaN => true
  | Some (Text _) => false
  end.

(** A row of [student_responses]: the two identifying columns and, in
    column order, the remaining (answer) columns. *)
Record row := {
  student_id : string;
  row_variant_id : string;
  cells : list (string * cell)
}.

(** [row.get(col)] on an answer column *)
Definition row_get (r : row) (col : string) : option cell :=
  dict_get col (cells r).

(** The entry of [student_answers] for one question: keys ["sheet"],
    ["response"], ["correct"], ["points"]. *)
Record answer_detail := {
  ans_sheet : string;
  ans_response : string;
  ans_correct : string;
  ans_points : Q
}.

(** One entry of [test_results]; the last three keys are added by
    [analyze_results]. *)
Record result := {
  correct_count : Z;
  wrong_count : Z;
  blank_count : Z;
  correct_score : Q;
  wrong_score : Q;
  blank_score : Q;
  total_score : Q;
  max_possible_score : Q;
  percentage : Q;
  res_answers : list (string * answer_detail);
  res_variant_id : string;
  z_score : option Q;
  percentile : option Q;
  stanine : option string
}.

(** One entry of [question_analytics]: the tallies ["correct"], ["wrong"],
    ["blank"] of [correct_tests] and the keys added by
    [analyze_questions]. *)
Record qstats := {
  st_correct : Z;
  st_wrong : Z;
  st_blank : Z;
  st_total_answers : option Z;
  st_correct_pct : option Q;
  st_wrong_pct : option Q;
  st_blank_pct : option Q;
  st_difficulty : option Q;
  st_discrimination : option Q
}.

(** [analysis_results] *)
Record analysis := {
  num_students : Z;
  average_score : Q;
  median_score : Q;
  std_deviation : Q;
  min_score : Q;
  max_score : Q;
  quartiles : list Q;
  an_passing_threshold : Q;
  pass_rate : Q;
  avg_correct_score : Q;
  avg_wrong_score : Q;
  avg_blank_score : Q;
  avg_correct_count : Q;
  avg_wrong_count : Q;
  avg_blank_count : Q
}.

(** The attributes of a [TestGeneratorAnalyzer] instance *)
Record TestGeneratorAnalyzer := {
  self_config : config;
  questions_data : list question;
  original_questions_order : list string;
  variants : list variant;
  variant_answer_keys : gmap string (gmap string string);
  variant_question_mappings : gmap string (gmap string string);
  student_responses : option (list row);
  test_results : list (string * result);
  analysis_results : option analysis;
  default_correct_score : Q;
  default_wrong_score : Q;
  default_no_answer_score : Q;
  passing_threshold : Q;
  question_analytics : gmap string qstats
}.

(** [self.questions_data = qs] *)
Definition set_questions_data (self : TestGeneratorAnalyzer) (qs : list question)
  : TestGeneratorAnalyzer :=
  {| self_config := self_config self;
     questions_data := qs;
     original_questions_order := original_questions_order self;
     variants := variants self;
     variant_answer_keys := variant_answer_keys self;
     variant_question_mappings := variant_question_mappings self;
     student_responses := student_responses self;
     test_results := test_results self;
     analysis_results := analysis_results self;
     default_correct_score := default_correct_score self;
     default_wrong_score := default_wrong_score self;
     default_no_answer_score := default_no_answer_score self;
     passing_threshold := passing_threshold self;
     question_analytics := question_analytics self |}.

(** [self.original_questions_order = o] *)
Definition set_original_questions_order (self : TestGeneratorAnalyzer) (o : list string)
  : TestGeneratorAnalyzer :=
  {| self_config := self_config self;
     questions_data := questions_data self;
     original_questions_order := o;
     variants := variants self;
     variant_answer_keys := variant_answer_keys self;
     variant_question_mappings := variant_question_mappings self;
     student_responses := student_responses self;
     test_results := test_results self;
     analysis_results := analysis_results self;
     default_correct_score := default_correct_score self;
     default_wrong_score := default_wrong_score self;
     default_no_answer_score := default_no_answer_score self;
     passing_threshold := passing_threshold self;
     question_analytics := question_analytics self |}.

(** [self.variants = vs] *)
Definition set_variants (self : TestGeneratorAnalyzer) (vs : list variant)
  : TestGeneratorAnalyzer :=
  {| self_config := self_config self;
     questions_data := questions_data self;
     original_questions_order := original_questions_order self;
     variants := vs;
     variant_answer_keys := variant_answer_keys self;
     variant_question_mappings := variant_question_mappings self;
     student_responses := student_responses self;
     test_results := test_results self;
     analysis_results := analysis_results self;
     default_correct_score := default_correct_score self;
     default_wrong_score := default_wrong_score self;
     default_no_answer_score := default_no_answer_score self;
     passing_threshold := passing_threshold self;
     question_analytics := question_analytics self |}.

(** [self.variant_answer_keys = keys] and [self.variant_question_mappings = maps] *)
Definition set_mappings (self : TestGeneratorAnalyzer) (keys maps : gmap string (gmap string string))
  : TestGeneratorAnalyzer :=
  {| self_config := self_config self;
     questions_data := questions_data self;
     original_questions_order := original_questions_order self;
     variants := variants self;
     variant_answer_keys := keys;
     variant_question_mappings := maps;
     student_responses := student_responses self;
     test_results := test_results self;
     analysis_results := analysis_results self;
     default_correct_score := default_correct_score self;
     default_wrong_score := default_wrong_score self;
     default_no_answer_score := default_no_answer_score self;
     passing_threshold := passing_threshold self;
     question_analytics := question_analytics self |}.

(** [self.student_responses = rs] *)
Definition set_student_responses (self : TestGeneratorAnalyzer) (rs : option (list row))
  : TestGeneratorAnalyzer :=
  {| self_config := self_config self;
     questions_data := questions_data self;
     original_questions_order := original_questions_order self;
     variants := variants self;
     variant_answer_keys := variant_answer_keys self;
     variant_question_mappings := variant_question_mappings self;
     student_responses := rs;
     test_results := test_results self;
     analysis_results := analysis_results self;
     default_correct_score := default_correct_score self;
     default_wrong_score := default_wrong_score self;
     default_no_answer_score := default_no_answer_score self;
     passing_threshold := passing_threshold self;
     question_analytics := question_analytics self |}.

(** [self.test_results = tr] *)
Definition set_test_results (self : TestGeneratorAnalyzer) (tr : list (string * result))
  : TestGeneratorAnalyzer :=
  {| self_config := self_config self;
     questions_data := questions_data self;
     original_questions_order := original_questions_order self;
     variants := variants self;
     variant_answer_keys := variant_answer_keys self;
     variant_question_mappings := variant_question_mappings self;
     student_responses := student_responses self;
     test_results := tr;
     analysis_results := analysis_results self;
     default_correct_score := default_correct_score self;
     default_wrong_score := default_wrong_score self;
     default_no_answer_score := default_no_answer_score self;
     passing_threshold := passing_threshold self;
     question_analytics := question_analytics self |}.

(** [self.analysis_results = a] *)
Definition set_analysis_results (self : TestGeneratorAnalyzer) (a : option analysis)
  : TestGeneratorAnalyzer :=
  {| self_config := self_config self;
     questions_data := questions_data self;
     original_questions_order := original_questions_order self;
     variants := variants self;
     variant_answer_keys := variant_answer_keys self;
     variant_question_mappings := variant_question_mappings self;
     student_responses := student_responses self;
     test_results := test_results self;
     analysis_results := a;
     default_correct_score := default_correct_score self;
     default_wrong_score := default_wrong_score self;
     default_no_answer_score := default_no_answer_score self;
     passing_threshold := passing_threshold self;
     question_analytics := question_analytics self |}.

(** [self.question_analytics = qa] *)
Definition set_question_analytics (self : TestGeneratorAnalyzer) (qa : gmap string qstats)
  : TestGeneratorAnalyzer :=
  {| self_config := self_config self;
     questions_data := questions_data self;
     original_questions_order := original_questions_order self;
     variants := variants self;
     variant_answer_keys := variant_answer_keys self;
     variant_question_mappings := variant_question_mappings self;
     student_responses := student_responses self;
     test_results := test_results self;
     analysis_results := analysis_results self;
     default_correct_score := default_correct_score self;
     default_wrong_score := default_wrong_score self;
     default_no_answer_score := default_no_answer_score self;
     passing_threshold := passing_threshold self;
     question_analytics := qa |}.

(** The four scoring attributes *)
Definition set_default_scores (self : TestGeneratorAnalyzer) (c w b t : Q)
  : TestGeneratorAnalyzer :=
  {| self_config := self_config self;
     questions_data := questions_data self;
     original_questions_order := original_questions_order self;
     variants := variants self;
     variant_answer_keys := variant_answer_keys self;
     variant_question_mappings := variant_question_mappings self;
     student_responses := student_responses self;
     test_results := test_results self;
     analysis_results := analysis_results self;
     default_correct_score := c;
     default_wrong_score := w;
     default_no_answer_score := b;
     passing_threshold := t;
     question_analytics := question_analytics self |}.

(** ** The process environment *)

(** The lines written by [print] *)
Inductive message :=
| MsgQuestionsLoaded (n : Z)
| MsgLoadError
| MsgNoQuestionsLoaded
| MsgVariantsGenerated (n : Z)
| MsgRandomnessMetrics (question_order answer_order combined : Q)
| MsgVariantsSelected (n : Z)
| MsgPdfError (variant_id : string)
| MsgPdfsDone
| MsgAnswerKeysReportDone
| MsgMappingsSaved
| MsgTemplateCreated
| MsgPhase1Done
| MsgPhase1Error (e : exn)
| MsgResponsesLoaded
| MsgResponsesError
| MsgNoStudentResponses
| MsgVariantNotFound (variant_id student_id : string)
| MsgCorrectionDone
| MsgStudentResult (student_id : string) (total max pct : Q)
| MsgNoResults
| MsgAnalysisDone (average std pass : Q)
| MsgNoQuestionStats
| MsgQuestionAnalysisDone
| MsgReportsDone
| MsgPhase2Done
| MsgPhase2Error (e : exn).

(** One line of [answer_keys_report.txt]: the variant and, per question
    number, the key and the sheet. *)
Definition report_line : Type := string * list (string * string * string).

(** The files the process writes, by what they hold *)
Inductive file :=
| AnswerKeysReport (lines : list report_line)
| QuestionMappings (keys maps : gmap string (gmap string string))
| AnswersTemplate (cols : list string)
| TexFile (v : variant)
| PdfFile (v : variant).

Record world := {
  files : gmap string file;
  stdout : list message
}.

Definition print (m : message) (w : world) : world :=
  {| files := files w; stdout := stdout w ++ [m] |}.

Definition prints (ms : list message) (w : world) : world :=
  {| files := files w; stdout := stdout w ++ ms |}.

Definition write_file (name : string) (f : file) (w : world) : world :=
  {| files := <[name := f]> (files w); stdout := stdout w |}.

(** ** Construction and loading *)

(** The assignments of [_load_config]: the scoring attributes read from the
    configuration, with their fall-backs. *)
Definition _load_config (self : TestGeneratorAnalyzer) (c : config)
  : TestGeneratorAnalyzer * config :=
  (set_default_scores self
     (default 4%Q (cfg_default_correct_score c))
     (default 0%Q (cfg_default_wrong_score c))
     (default 1%Q (cfg_default_no_answer_score c))
     (default (58 # 100)%Q (cfg_passing_threshold c)),
   c).

(** [__init__]: [self.config = self._load_config(config_file)] runs first;
    the assignments of the literal scores come after it. *)
Definition init (c : config) : TestGeneratorAnalyzer :=
  let blank :=
    {| self_config := c;
       questions_data := [];
       original_questions_order := [];
       variants := [];
       variant_answer_keys := ∅;
       variant_question_mappings := ∅;
       student_responses := None;
       test_results := [];
       analysis_results := None;
       default_correct_score := 0;
       default_wrong_score := 0;
       default_no_answer_score := 0;
       passing_threshold := 0;
       question_analytics := ∅ |} in
  let '(self, cfg) := _load_config blank c in
  set_default_scores self 4 0 1 (58 # 100).

(** What [load_questions_from_excel] leaves behind: the questions appended
    to [questions_data], and whether the loop over the sheets completed
    (otherwise the exception is caught and
    [original_questions_order] is not assigned). *)
Inductive load_outcome :=
| Loaded (qs : list question)
| LoadFailed (partial : list question).

Definition load_questions_from_excel (self : TestGeneratorAnalyzer)
    (o : load_outcome) : TestGeneratorAnalyzer * list message :=
  match o with
  | Loaded qs =>
      (set_original_questions_order (set_questions_data self qs)
         (map question_text qs),
       [MsgQuestionsLoaded (Z.of_nat (length qs))])
  | LoadFailed partial => (set_questions_data self partial, [MsgLoadError])
  end.

(** ** Variant generation *)

Section Generation.
Context `{RandomSource}.

(** [for question in variant_questions: random.shuffle(question["answers"])] *)
Fixpoint shuffle_answers (qs : list question) (g : Rng)
  : list question * Rng :=
  match qs with
  | [] => ([], g)
  | q :: qs' =>
      let '(a, g1) := shuffle (answers q) g in
      let '(rest, g2) := shuffle_answers qs' g1 in
      (with_answers q a :: rest, g2)
  end.

(** The body of the loop [for i in range(num_variants)], from index [i],
    for [count] more rounds. *)
Fixpoint generate_loop (bank : list question) (i count : nat) (g : Rng)
  : list variant * Rng :=
  match count with
  | O => ([], g)
  | S count' =>
      let '(variant_questions, g1) := shuffle bank g in
      let '(variant_questions, g2) := shuffle_answers variant_questions g1 in
      let v := {| variant_id := str_int (Z.of_nat i + 1);
                  questions := variant_questions |} in
      let '(rest, g3) := generate_loop bank (S i) count' g2 in
      (v :: rest, g3)
  end.

Definition generate_test_variants (self : TestGeneratorAnalyzer)
    (num_variants : Z) (g : Rng) : list variant * Rng * list message :=
  match questions_data self with
  | [] => ([], g, [MsgNoQuestionsLoaded])
  | _ :: _ =>
      let '(vs, g') :=
        generate_loop (questions_data self) 0 (Z.to_nat num_variants) g in
      (vs, g', [MsgVariantsGenerated num_variants])
  end.
End Generation.

(** ** Randomness scoring and selection *)

(** [next((i for i, ans in enumerate(question["answers"])
          if ans.get("is_correct", False)), 0)] *)
Definition correct_index (q : question) : nat :=
  default 0%nat (index_where is_correct (answers q)).

(** [sum(1 for orig, var in zip(original, variant_order) if orig != var)] *)
Definition diff_count (original variant_order : list string) : Z :=
  Z.of_nat (length (List.filter (λ p, negb (String.eqb p.1 p.2))
                      (zip original variant_order))).

Definition variant_order (v : variant) : list string :=
  map question_text (questions v).

Section Scoring.
Context `{Float64}.

(** The per-question term of [answer_scores]:
    [(correct_index / (n_alternatives - 1)) if n_alternatives > 1 else 0] *)
Definition answer_score (q : question) : Q :=
  let n_alternatives := Z.of_nat (length (answers q)) in
  if (1 <? n_alternatives)%Z
  then fl (inject_Z (Z.of_nat (correct_index q))
           / inject_Z (n_alternatives - 1))%Q
  else 0%Q.

(** [np.mean(answer_scores) if answer_scores else 0] *)
Definition answer_order_score (v : variant) : Q :=
  match map answer_score (questions v) with
  | [] => 0%Q
  | answer_scores => np_mean64 answer_scores
  end.

(** [diff_count / len(self.original_questions_order)] *)
Definition question_order_score (original : list string) (v : variant) : Q :=
  fl (inject_Z (diff_count original (variant_order v)) / Qlen original).

(** The value of [variant_score] when the division is defined:
    [(question_order_score + answer_order_score) / 2] *)
Definition score_of (original : list string) (v : variant) : Q :=
  fl (fl (question_order_score original v + answer_order_score v) / 2).

(** [variant_score]; the division by [len(self.original_questions_order)]
    raises on an empty list. *)
Definition variant_score (original : list string) (v : variant) : py Q :=
  match original with
  | [] => Raise ZeroDivisionError
  | _ :: _ => Ok (score_of original v)
  end.

(** The loop that fills [scores] *)
Fixpoint score_variants (original : list string) (vs : list variant)
  : py (list (Q * variant)) :=
  match vs with
  | [] => Ok []
  | v :: vs' =>
      s ← variant_score original v;
      rest ← score_variants original vs';
      Ok ((s, v) :: rest)
  end.

(** [scores.sort(key=lambda x: x[0], reverse=True)] compares the doubles
    by their values; [selected = [v for score, v in scores[:num_variants]]] *)
Definition select_best_variants (self : TestGeneratorAnalyzer)
    (potential_variants : list variant) (num_variants : Z)
  : py (list variant * list message) :=
  scores ← score_variants (original_questions_order self) potential_variants;
  let scores := sort_desc fst scores in
  Ok (map snd (slice_to num_variants scores),
      [MsgVariantsSelected num_variants]).
End Scoring.

(** [evaluate_randomness_of_variants]: informational only; its result is
    printed and passed, unused, to [select_best_variants]. *)
Section Randomness.
Context `{SciLib}.

(** [answer_positions[q_text].append(correct_index)] *)
Definition record_position (d : list (string * list nat)) (q : question)
  : list (string * list nat) :=
  let q_text := question_text q in
  dict_set q_text (default [] (dict_get q_text d) ++ [correct_index q]) d.

Definition answer_positions (vs : list variant)
  : list (string * list nat) :=
  foldl (λ d v, foldl record_position d (questions v)) [] vs.

(** [next((len(q["answers"]) for variant in variants
          for q in variant["questions"] if q["question_text"] == q_text), 1)] *)
Definition n_alternatives_of (vs : list variant) (q_text : string) : Z :=
  match List.filter (λ q, String.eqb (question_text q) q_text)
          (concat (map questions vs)) with
  | [] => 1
  | q :: _ => Z.of_nat (length (answers q))
  end.

Definition normalized_std (vs : list variant) (e : string * list nat) : Q :=
  let arr := map (λ n, inject_Z (Z.of_nat n)) e.2 in
  match arr with
  | x :: _ :: _ =>
      if Qle_bool (Qmax_list x arr - Qmin_list x arr) 0 then 0%Q
      else
        let n_alternatives := n_alternatives_of vs e.1 in
        if (1 <? n_alternatives)%Z
        then (np_std arr / inject_Z (n_alternatives - 1))%Q
        else 0%Q
  | _ => 0%Q
  end.

Definition evaluate_randomness_of_variants (self : TestGeneratorAnalyzer)
    (vs : list variant) : (Q * Q * Q) * list message :=
  match vs, original_questions_order self with
  | [], _ | _, [] => ((0, 0, 0)%Q, [])
  | _ :: _, _ :: _ =>
      let original := original_questions_order self in
      let question_order_scores :=
        map (λ v, inject_Z (diff_count original (variant_order v))
                  / Qlen original)%Q vs in
      let question_order_randomness := np_mean question_order_scores in
      let normalized_stds :=
        map (normalized_std vs) (answer_positions vs) in
      let answer_order_randomness :=
        match normalized_stds with
        | [] => 0%Q
        | _ :: _ => np_mean normalized_stds
        end in
      let combined_randomness :=
        ((question_order_randomness + answer_order_randomness) / 2)%Q in
      let metrics :=
        (round2 question_order_randomness, round2 answer_order_randomness,
         round2 combined_randomness) in
      (metrics,
       [MsgRandomnessMetrics metrics.1.1 metrics.1.2 metrics.2])
  end.
End Randomness.

(** ** Rendering and the answer-key registry *)

Definition tex_name (v : variant) : string :=
  "tests_tex/test_variant_" +:+ variant_id v +:+ ".tex".
Definition pdf_name (v : variant) : string :=
  "tests_pdf/test_variant_" +:+ variant_id v +:+ ".pdf".

(** The loop of [generate_test_pdfs].  [generate_latex v] is
    [self._generate_latex_for_variant(variant)], called outside any [try]:
    what it raises ends the loop and reaches [main].  [pdflatex v] tells
    whether compiling the document of [v] leaves a PDF behind; a failure
    is reported twice, by [compile_latex_to_pdf] and by the loop, and the
    loop goes on. *)
Fixpoint generate_test_pdfs_loop (generate_latex : variant → py unit)
    (pdflatex : variant → bool) (vs : list variant) (w : world)
  : py unit * world :=
  match vs with
  | [] => (Ok (), w)
  | v :: vs' =>
      match generate_latex v with
      | Raise e => (Raise e, w)
      | Ok _ =>
          let w := write_file (tex_name v) (TexFile v) w in
          let w :=
            if pdflatex v then write_file (pdf_name v) (PdfFile v) w
            else prints [MsgPdfError (variant_id v); MsgPdfError (variant_id v)] w in
          generate_test_pdfs_loop generate_latex pdflatex vs' w
      end
  end.

Definition generate_test_pdfs (self : TestGeneratorAnalyzer)
    (generate_latex : variant → py unit) (pdflatex : variant → bool)
    (w : world) : py unit * world :=
  match generate_test_pdfs_loop generate_latex pdflatex (variants self) w with
  | (Ok _, w) => (Ok (), print MsgPdfsDone w)
  | (Raise e, w) => (Raise e, w)
  end.

(** The label of the correct answer under [choice_label_format] *)
Definition key_label (label_style : string) (correct_idx : nat) : string :=
  if String.eqb label_style "letters_upper" then chr_from 65 correct_idx
  else if String.eqb label_style "letters_lower" then chr_from 97 correct_idx
  else str_int (Z.of_nat correct_idx + 1).

(** The two dictionaries [key_mapping] and [question_mapping] of a variant *)
Definition variant_mappings (label_style : string) (v : variant)
  : gmap string string * gmap string string :=
  foldl (λ (acc : gmap string string * gmap string string)
           (e : nat * question),
       let question_num := str_int (Z.of_nat e.1 + 1) in
       (<[question_num := key_label label_style (correct_index e.2)]> acc.1,
        <[question_num := sheet_name e.2]> acc.2))
    (∅, ∅) (imap pair (questions v)).

(** The report line of a variant: its question numbers in increasing order *)
Definition variant_report_line (v : variant)
    (key_mapping question_mapping : gmap string string) : report_line :=
  (variant_id v,
   map (λ i, let qnum := str_int (Z.of_nat i + 1) in
             (qnum, default "" (key_mapping !! qnum),
              default "" (question_mapping !! qnum)))
     (seq 0 (size key_mapping))).

Definition generate_answer_keys_report (self : TestGeneratorAnalyzer)
    (w : world) : TestGeneratorAnalyzer * world :=
  let label_style :=
    default "letters_upper" (cfg_choice_label_format (self_config self)) in
  let '(keys, maps, report_lines) :=
    foldl (λ (acc : gmap string (gmap string string)
                    * gmap string (gmap string string) * list report_line)
             (v : variant),
         let '(key_mapping, question_mapping) :=
           variant_mappings label_style v in
         (<[variant_id v := key_mapping]> acc.1.1,
          <[variant_id v := question_mapping]> acc.1.2,
          acc.2 ++ [variant_report_line v key_mapping question_mapping]))
      (variant_answer_keys self, variant_question_mappings self, [])
      (variants self) in
  let self := set_mappings self keys maps in
  let w := write_file "answer_keys_report.txt" (AnswerKeysReport report_lines) w in
  let w := write_file "question_mappings.json" (QuestionMappings keys maps) w in
  (self, prints [MsgAnswerKeysReportDone; MsgMappingsSaved] w).

(** ** Phase 1 *)

(** What phase 1 finds on the machine: the configuration, the two checks
    of [main], what [pandas] loads, whether [pylatex] builds the document
    of a variant ([_generate_latex_for_variant] returns or raises) and
    whether [pdflatex] compiles it. *)
Record phase1_env := {
  p1_config_json : py config;
  p1_questions_xlsx_exists : bool;
  p1_pdflatex_found : bool;
  p1_load : load_outcome;
  p1_generate_latex : variant → py unit;
  p1_pdflatex : variant → bool
}.

(** [max([len(variant["questions"]) for variant in generator.variants])] *)
Definition max_questions (vs : list variant) : py nat :=
  match vs with
  | [] => Raise ValueError
  | v :: vs' =>
      Ok (foldl Nat.max (length (questions v))
            (map (λ v, length (questions v)) vs'))
  end.

Section Phase1.
Context `{RandomSource} `{SciLib} `{Float64}.

(** The [try] block of phase 1; an exception leaves the world as it is at
    the [raise]. *)
Definition phase1_try (env : phase1_env) (g : Rng) (w : world)
  : py unit * world :=
  match p1_config_json env with
  | Raise e => (Raise e, w)
  | Ok c =>
      let generator := init c in
      if negb (p1_questions_xlsx_exists env) then (Raise FileNotFoundError, w)
      else if negb (p1_pdflatex_found env) then (Raise RuntimeError, w)
      else
        let '(generator, ms) :=
          load_questions_from_excel generator (p1_load env) in
        let w := prints ms w in
        let num_potential_variants :=
          default 10%Z (cfg_num_potential_variants_for_randomness_check
                          (self_config generator)) in
        let '(potential_variants, _, ms) :=
          generate_test_variants generator num_potential_variants g in
        let w := prints ms w in
        let '(randomness_metrics, ms) :=
          evaluate_randomness_of_variants generator potential_variants in
        let w := prints ms w in
        let num_variants :=
          default 1%Z (cfg_num_variants (self_config generator)) in
        match select_best_variants generator potential_variants num_variants with
        | Raise e => (Raise e, w)
        | Ok (selected_variants, ms) =>
            let w := prints ms w in
            let generator := set_variants generator selected_variants in
            match generate_test_pdfs generator (p1_generate_latex env)
                    (p1_pdflatex env) w with
            | (Raise e, w) => (Raise e, w)
            | (Ok _, w) =>
                let '(generator, w) :=
                  generate_answer_keys_report generator w in
                match max_questions (variants generator) with
                | Raise e => (Raise e, w)
                | Ok n =>
                    let cols :=
                      ["student_id"; "variant_id"]
                      ++ map (λ i, str_int (Z.of_nat i + 1)) (seq 0 n) in
                    let w := write_file "student_answers.xlsx"
                               (AnswersTemplate cols) w in
                    (Ok (), prints [MsgTemplateCreated; MsgPhase1Done] w)
                end
            end
        end
  end.

(** [main] with [--phase 1] *)
Definition main_phase1 (env : phase1_env) (g : Rng) : world :=
  match phase1_try env g {| files := ∅; stdout := [] |} with
  | (Ok _, w) => w
  | (Raise e, w) => print (MsgPhase1Error e) w
  end.
End Phase1.

(** ** Grading *)

Inductive outcome :=
| Blank
| Correct
| Wrong.

(** [student_ans = str(row.get(col, "")).strip()] *)
Definition student_ans (r : row) (col : string) : string :=
  strip (match row_get r col with
         | Some c => str_cell c
         | None => ""
         end).

(** The three-way test of [correct_tests] on one answer column *)
Definition classify (r : row) (col correct_letter : string) : outcome :=
  if isna (row_get r col) || String.eqb (student_ans r col) "" then Blank
  else if String.eqb (upper (student_ans r col)) (upper correct_letter)
       then Correct
       else Wrong.

(** [answer_cols] *)
Definition answer_cols (r : row) : list string :=
  List.filter
    (λ col, negb (String.eqb col "student_id" || String.eqb col "variant_id"))
    (map fst (cells r)).

(** [question_data_map], built from the first variant of [self.variants]
    with the given id (none: no questions). *)
Definition question_data_map (self : TestGeneratorAnalyzer)
    (vid : string) : gmap string question :=
  let variant_questions :=
    match List.filter (λ v, String.eqb (variant_id v) vid) (variants self) with
    | [] => []
    | v :: _ => questions v
    end in
  foldl (λ m q, <[sheet_name q := q]> m) ∅ variant_questions.

(** [punto_corretta], [punto_errata] and [punto_non_data] for the question
    data found (or not) under a sheet name. *)
Definition punto_corretta (self : TestGeneratorAnalyzer)
    (question_data : option question) : Q :=
  default (default_correct_score self) (question_data ≫= punteggio_corretta).
Definition punto_errata (self : TestGeneratorAnalyzer)
    (question_data : option question) : Q :=
  default (default_wrong_score self) (question_data ≫= punteggio_errata).
Definition punto_non_data (self : TestGeneratorAnalyzer)
    (question_data : option question) : Q :=
  default (default_no_answer_score self) (question_data ≫= punteggio_non_data).

(** [defaultdict(lambda: {"correct": 0, "wrong": 0, "blank": 0})] *)
Definition fresh_stats : qstats :=
  {| st_correct := 0; st_wrong := 0; st_blank := 0;
     st_total_answers := None; st_correct_pct := None; st_wrong_pct := None;
     st_blank_pct := None; st_difficulty := None; st_discrimination := None |}.

Definition count_outcome (o : outcome) (st : qstats) : qstats :=
  {| st_correct := match o with Correct => st_correct st + 1 | _ => st_correct st end;
     st_wrong := match o with Wrong => st_wrong st + 1 | _ => st_wrong st end;
     st_blank := match o with Blank => st_blank st + 1 | _ => st_blank st end;
     st_total_answers := st_total_answers st;
     st_correct_pct := st_correct_pct st;
     st_wrong_pct := st_wrong_pct st;
     st_blank_pct := st_blank_pct st;
     st_difficulty := st_difficulty st;
     st_discrimination := st_discrimination st |}%Z.

(** [question_stats[sheet_name][o] += 1] *)
Definition tally_outcome (o : outcome) (sheet : string)
    (question_stats : gmap string qstats) : gmap string qstats :=
  <[sheet := count_outcome o (default fresh_stats (question_stats !! sheet))]>
    question_stats.

(** The local counters of one student, with the shared [question_stats] *)
Record tally := {
  t_correct_count : Z;
  t_wrong_count : Z;
  t_blank_count : Z;
  t_correct_score : Q;
  t_wrong_score : Q;
  t_blank_score : Q;
  t_max_possible_score : Q;
  t_student_answers : list (string * answer_detail);
  t_question_stats : gmap string qstats
}.

Definition start_tally (question_stats : gmap string qstats) : tally :=
  {| t_correct_count := 0; t_wrong_count := 0; t_blank_count := 0;
     t_correct_score := 0; t_wrong_score := 0; t_blank_score := 0;
     t_max_possible_score := 0;
     t_student_answers := [];
     t_question_stats := question_stats |}.

(** The body of [for col in answer_cols] *)
Definition grade_column (self : TestGeneratorAnalyzer) (r : row)
    (key_mapping question_mapping : gmap string string)
    (qdm : gmap string question) (t : tally) (col : string) : tally :=
  match key_mapping !! col, question_mapping !! col with
  | Some correct_letter, Some sheet =>
      let question_data := qdm !! sheet in
      let pc := punto_corretta self question_data in
      let pe := punto_errata self question_data in
      let pn := punto_non_data self question_data in
      let o := classify r col correct_letter in
      let points := match o with Blank => pn | Correct => pc | Wrong => pe end in
      let response :=
        match o with Blank => "blank" | _ => student_ans r col end in
      {| t_correct_count :=
           match o with Correct => t_correct_count t + 1 | _ => t_correct_count t end;
         t_wrong_count :=
           match o with Wrong => t_wrong_count t + 1 | _ => t_wrong_count t end;
         t_blank_count :=
           match o with Blank => t_blank_count t + 1 | _ => t_blank_count t end;
         t_correct_score :=
           match o with Correct => t_correct_score t + pc | _ => t_correct_score t end;
         t_wrong_score :=
           match o with Wrong => t_wrong_score t + pe | _ => t_wrong_score t end;
         t_blank_score :=
           match o with Blank => t_blank_score t + pn | _ => t_blank_score t end;
         t_max_possible_score := t_max_possible_score t + pc;
         t_student_answers :=
           dict_set col
             {| ans_sheet := sheet; ans_response := response;
                ans_correct := correct_letter; ans_points := points |}
             (t_student_answers t);
         t_question_stats := tally_outcome o sheet (t_question_stats t) |}
  | _, _ => t
  end.

(** [round((total_score / max_possible_score) * 100, 2)
     if max_possible_score > 0 else 0] *)
Definition percentage_of (total_score max_possible_score : Q) : py Q :=
  if Qlt_bool 0 max_possible_score
  then q ← truediv total_score max_possible_score; Ok (round2 (q * 100))
  else Ok 0%Q.

Definition result_of_tally (t : tally) (vid : string) : result :=
  let total := (t_correct_score t + t_wrong_score t + t_blank_score t)%Q in
  {| correct_count := t_correct_count t;
     wrong_count := t_wrong_count t;
     blank_count := t_blank_count t;
     correct_score := t_correct_score t;
     wrong_score := t_wrong_score t;
     blank_score := t_blank_score t;
     total_score := total;
     max_possible_score := t_max_possible_score t;
     percentage := returned 0%Q (percentage_of total (t_max_possible_score t));
     res_answers := t_student_answers t;
     res_variant_id := vid;
     z_score := None;
     percentile := None;
     stanine := None |}.

(** What the loop over the rows carries: [self.test_results],
    [question_stats] and the lines printed so far. *)
Record grading := {
  g_test_results : list (string * result);
  g_question_stats : gmap string qstats;
  g_stdout : list message
}.

(** Whether the registry knows the variant of a row, and under which id *)
Definition row_vid (r : row) : string := strip (row_variant_id r).

Definition known_variant (self : TestGeneratorAnalyzer) (r : row) : bool :=
  bool_decide (is_Some (variant_answer_keys self !! row_vid r))
  && bool_decide (is_Some (variant_question_mappings self !! row_vid r)).

(** The body of [for index, row in self.student_responses.iterrows()] *)
Definition grade_row (self : TestGeneratorAnalyzer) (acc : grading) (r : row)
  : grading :=
  let vid := row_vid r in
  match variant_answer_keys self !! vid, variant_question_mappings self !! vid with
  | Some key_mapping, Some question_mapping =>
      let qdm := question_data_map self vid in
      let t :=
        foldl (grade_column self r key_mapping question_mapping qdm)
          (start_tally (g_question_stats acc)) (answer_cols r) in
      {| g_test_results :=
           dict_set (student_id r) (result_of_tally t vid) (g_test_results acc);
         g_question_stats := t_question_stats t;
         g_stdout := g_stdout acc |}
  | _, _ =>
      {| g_test_results := g_test_results acc;
         g_question_stats := g_question_stats acc;
         g_stdout := g_stdout acc ++ [MsgVariantNotFound vid (student_id r)] |}
  end.

Definition grade_rows (self : TestGeneratorAnalyzer) (rows : list row)
  : grading :=
  foldl (grade_row self)
    {| g_test_results := test_results self;
       g_question_stats := ∅;
       g_stdout := [] |}
    rows.

Definition correct_tests (self : TestGeneratorAnalyzer) (w : world)
  : TestGeneratorAnalyzer * world :=
  match student_responses self with
  | None => (self, print MsgNoStudentResponses w)
  | Some rows =>
      let acc := grade_rows self rows in
      let self :=
        set_question_analytics (set_test_results self (g_test_results acc))
          (g_question_stats acc) in
      (self,
       prints (g_stdout acc ++ [MsgCorrectionDone]
               ++ map (λ e : string * result,
                         MsgStudentResult e.1 (total_score e.2)
                           (max_possible_score e.2) (percentage e.2))
                    (test_results self)) w)
  end.

(** ** Psychometric analysis *)

(** The chain of comparisons against [stanine_boundaries] *)
Definition stanine_of (total : Q) (stanine_boundaries : list Q) : string :=
  let below i := Qlt_bool total (default 0%Q (stanine_boundaries !! i)) in
  if below 0%nat then "F-"
  else if below 1%nat then "F"
  else if below 2%nat then "E"
  else if below 3%nat then "D"
  else if below 4%nat then "C"
  else if below 5%nat then "B"
  else if below 6%nat then "A"
  else if below 7%nat then "S"
  else "S+".

(** [self.test_results[student_id].update({...})] *)
Definition with_student_metrics (r : result) (z p : Q) (s : string) : result :=
  {| correct_count := correct_count r;
     wrong_count := wrong_count r;
     blank_count := blank_count r;
     correct_score := correct_score r;
     wrong_score := wrong_score r;
     blank_score := blank_score r;
     total_score := total_score r;
     max_possible_score := max_possible_score r;
     percentage := percentage r;
     res_answers := res_answers r;
     res_variant_id := res_variant_id r;
     z_score := Some z;
     percentile := Some p;
     stanine := Some s |}.

Section Analysis.
Context `{SciLib}.

(** [(result["total_score"] - avg_score) / std_dev if std_dev != 0 else 0] *)
Definition z_score_of (total avg_score std_dev : Q) : py Q :=
  if Qeq_bool std_dev 0 then Ok 0%Q
  else truediv (total - avg_score) std_dev.

(** The three metrics attached to one student *)
Definition student_metrics (scores : list Q) (r : result) : result :=
  let avg_score := np_mean scores in
  let std_dev := np_std scores in
  let z := returned 0%Q (z_score_of (total_score r) avg_score std_dev) in
  let pct := percentileofscore scores (total_score r) in
  let stanine_boundaries :=
    map (np_percentile scores) [4; 11; 23; 40; 60; 77; 89; 96]%Q in
  with_student_metrics r (round2 z) (round2 pct)
    (stanine_of (total_score r) stanine_boundaries).

Definition results_analysis (self : TestGeneratorAnalyzer) : analysis :=
  let results := map snd (test_results self) in
  let scores := map total_score results in
  let percentages := map percentage results in
  let threshold := (passing_threshold self * 100)%Q in
  let passed := List.filter (λ p, Qle_bool threshold p) percentages in
  let mean_of (f : result → Q) := round2 (np_mean (map f results)) in
  let count_of (f : result → Z) :=
    round2 (np_mean (map (λ r, inject_Z (f r)) results)) in
  {| num_students := Z.of_nat (length scores);
     average_score := round2 (np_mean scores);
     median_score := round2 (np_median scores);
     std_deviation := round2 (np_std scores);
     min_score := round2 (Qmin_list (default 0%Q (head scores)) scores);
     max_score := round2 (Qmax_list (default 0%Q (head scores)) scores);
     quartiles := map (λ q, round2 (np_percentile scores q)) [25; 50; 75]%Q;
     an_passing_threshold := threshold;
     pass_rate :=
       match percentages with
       | [] => 0%Q
       | _ :: _ => round2 (Qlen passed / Qlen percentages * 100)
       end;
     avg_correct_score := mean_of correct_score;
     avg_wrong_score := mean_of wrong_score;
     avg_blank_score := mean_of blank_score;
     avg_correct_count := count_of correct_count;
     avg_wrong_count := count_of wrong_count;
     avg_blank_count := count_of blank_count |}.

(** The loop over [self.test_results.items()]; [scores] was computed
    before it. *)
Definition with_student_analytics (tr : list (string * result))
  : list (string * result) :=
  let scores := map (λ e : string * result, total_score e.2) tr in
  map (λ e : string * result, (e.1, student_metrics scores e.2)) tr.

Definition analyze_results (self : TestGeneratorAnalyzer) (w : world)
  : TestGeneratorAnalyzer * world :=
  match test_results self with
  | [] => (self, print MsgNoResults w)
  | _ :: _ =>
      let a := results_analysis self in
      let self := set_analysis_results self (Some a) in
      let self :=
        set_test_results self (with_student_analytics (test_results self)) in
      (self,
       print (MsgAnalysisDone (average_score a) (std_deviation a) (pass_rate a)) w)
  end.
End Analysis.

(** [ans_data["sheet"] == sheet_name and ans_data["response"] != "blank"
     and ans_data["response"].upper() == ans_data["correct"].upper()] *)
Definition answered_correctly (sheet : string) (a : answer_detail) : bool :=
  String.eqb (ans_sheet a) sheet
  && negb (String.eqb (ans_response a) "blank")
  && String.eqb (upper (ans_response a)) (upper (ans_correct a)).

(** The number of students of a group with a correct answer to the question
    of a sheet *)
Definition group_correct (sheet : string) (group : list (string * result)) : Z :=
  Z.of_nat
    (length
       (List.filter
          (λ e : string * result,
             existsb (λ a : string * answer_detail, answered_correctly sheet a.2)
               (res_answers e.2))
          group)).

(** [max(1, int(n * 0.27))] *)
Definition group_size (n : nat) : Z := Z.max 1 (27 * Z.of_nat n / 100).

(** [difficulty], before rounding *)
Definition difficulty_index (st : qstats) : Q :=
  let total_answers := (st_correct st + st_wrong st + st_blank st)%Z in
  1 - inject_Z (st_correct st) / inject_Z total_answers.

(** [discrimination], before rounding *)
Definition discrimination_index (test_results : list (string * result))
    (sheet : string) : Q :=
  let student_scores := sort_desc (λ e : string * result, total_score e.2)
                          test_results in
  let n := length student_scores in
  let upper_n := group_size n in
  let lower_n := group_size n in
  let upper_group := slice_to upper_n student_scores in
  let lower_group := slice_last lower_n student_scores in
  let p_upper := (inject_Z (group_correct sheet upper_group) / inject_Z upper_n)%Q in
  let p_lower := (inject_Z (group_correct sheet lower_group) / inject_Z lower_n)%Q in
  p_upper - p_lower.

(** The body of the loop of [analyze_questions] for one sheet *)
Definition question_metrics (test_results : list (string * result))
    (sheet : string) (st : qstats) : qstats :=
  let total_answers := (st_correct st + st_wrong st + st_blank st)%Z in
  if (total_answers =? 0)%Z then st
  else
    let pct (k : Z) := round2 (inject_Z k / inject_Z total_answers * 100) in
    {| st_correct := st_correct st;
       st_wrong := st_wrong st;
       st_blank := st_blank st;
       st_total_answers := Some total_answers;
       st_correct_pct := Some (pct (st_correct st));
       st_wrong_pct := Some (pct (st_wrong st));
       st_blank_pct := Some (pct (st_blank st));
       st_difficulty := Some (round2 (difficulty_index st));
       st_discrimination :=
         Some (round2 (discrimination_index test_results sheet)) |}.

Definition analyze_questions (self : TestGeneratorAnalyzer) (w : world)
  : TestGeneratorAnalyzer * world :=
  if bool_decide (question_analytics self = ∅)
  then (self, print MsgNoQuestionStats w)
  else
    (set_question_analytics self
       (map_imap (λ sheet st, Some (question_metrics (test_results self) sheet st))
          (question_analytics self)),
     print MsgQuestionAnalysisDone w).

(** ** Phase 2 *)

(** What [pd.read_excel] makes of the submission spreadsheet: it raises,
    or it returns the rows, with or without the two required columns.
    The rows are given as [correct_tests] reads them: [variant_id] already
    converted when the columns are there; a missing [student_id] reads as
    [None] and a missing [variant_id] as the text of [None]. *)
Inductive responses_outcome :=
| ReadFailed
| ColumnsMissing (rs : list row)
| Responses (rs : list row).

(** What phase 2 finds on the machine: the configuration, the two required
    files (the registry as phase 1 serialized it, and whether the
    submission spreadsheet exists), and what the two loaders return. *)
Record phase2_env := {
  p2_config_json : py config;
  p2_student_answers_exists : bool;
  p2_question_mappings_json : option file;
  p2_load : load_outcome;
  p2_student_responses : responses_outcome
}.

(** [self.student_responses] is assigned as soon as the sheet is read: the
    check of the columns comes after, and its failure is caught and
    printed, so the rows stay and [correct_tests] grades them. *)
Definition load_student_answers_from_excel (self : TestGeneratorAnalyzer)
    (o : responses_outcome) : TestGeneratorAnalyzer * list message :=
  match o with
  | Responses rs => (set_student_responses self (Some rs), [MsgResponsesLoaded])
  | ColumnsMissing rs =>
      (set_student_responses self (Some rs), [MsgResponsesError])
  | ReadFailed => (self, [MsgResponsesError])
  end.

Section Phase2.
Context `{SciLib}.

(** The [try] block of phase 2, up to the analyses (the reports that
    follow only read the state). *)
Definition phase2_try (env : phase2_env) (w : world)
  : py TestGeneratorAnalyzer * world :=
  match p2_config_json env with
  | Raise e => (Raise e, w)
  | Ok c =>
      let generator := init c in
      if negb (p2_student_answers_exists env) then (Raise FileNotFoundError, w)
      else
        match p2_question_mappings_json env with
        | None => (Raise FileNotFoundError, w)
        | Some (QuestionMappings keys maps) =>
            let generator := set_mappings generator keys maps in
            let '(generator, ms) :=
              load_questions_from_excel generator (p2_load env) in
            let w := prints ms w in
            let '(generator, ms) :=
              load_student_answers_from_excel generator
                (p2_student_responses env) in
            let w := prints ms w in
            let '(generator, w) := correct_tests generator w in
            let '(generator, w) := analyze_results generator w in
            let '(generator, w) := analyze_questions generator w in
            (Ok generator, w)
        | Some _ => (Raise ValueError, w)
        end
  end.

(** [main] with [--phase 2]: the final state of the generator (when no
    exception reached [main]) and the world. *)
Definition main_phase2 (env : phase2_env)
  : option TestGeneratorAnalyzer * world :=
  match phase2_try env {| files := ∅; stdout := [] |} with
  | (Ok generator, w) => (Some generator, print MsgPhase2Done w)
  | (Raise e, w) => (None, print (MsgPhase2Error e) w)
  end.
End Phase2.

(** ** Executable instances of the interfaces *)

Module Exact.

(** A deterministic stand-in for [random.shuffle]: the generator state is
    a counter, and a list is rotated by the current state. *)
#[export] Instance counter_source : RandomSource := {|
  Rng := nat;
  shuffle := λ A l g, (rotate (S g) l, S g)
|}.

(** A six-decimal lower approximation of the square root *)
Definition sqrt6 (x : Q) : Q :=
  inject_Z (Z.sqrt (Qfloor (x * 1000000000000))) / 1000000.

(** [np.std]: the population standard deviation, from the exact mean *)
Definition std6 (l : list Q) : Q :=
  let m := np_mean l in
  sqrt6 (np_mean (map (λ x, (x - m) * (x - m)) l))%Q.

(** [np.percentile(a, q)] with the default linear interpolation *)
Definition percentile_linear (a : list Q) (q : Q) : Q :=
  let s := sort_asc a in
  let pos := ((Qlen a - 1) * q / 100)%Q in
  let lo := Z.to_nat (Qfloor pos) in
  let x := default 0%Q (s !! lo) in
  let y := default x (s !! S lo) in
  x + (y - x) * (pos - inject_Z (Qfloor pos)).

(** [stats.percentileofscore(a, score)] with the default kind ["rank"] *)
Definition percentileofscore_rank (a : list Q) (score : Q) : Q :=
  let left := length (List.filter (λ x, Qlt_bool x score) a) in
  let right := length (List.filter (λ x, Qle_bool x score) a) in
  let plus1 := if (left <? right)%nat then 1%nat else 0%nat in
  inject_Z (Z.of_nat (left + right + plus1)) * (50 / Qlen a).

#[export] Instance scilib : SciLib := {|
  np_std := std6;
  np_percentile := percentile_linear;
  percentileofscore := percentileofscore_rank
|}.

(** Arithmetic without rounding *)
#[export] Instance exact_float : Float64 := {|
  fl := λ x, x;
  np_mean64 := np_mean
|}.

End Exact.

(** Binary64 arithmetic, to run the scoring as the machine does.  Overflow
    is left out: the scores lie between 0 and 1. *)
Module Binary64.

(** The integer part of the binary logarithm of a positive rational *)
Definition ilog2 (x : Q) : Z :=
  let l := (Z.log2 (Qnum x) - Z.log2 (Z.pos (Qden x)))%Z in
  if Qle_bool (2 ^ l) x then l else (l - 1)%Z.

(** Rounding to the nearest double, ties to even: 53 significant bits,
    and the spacing [2^-1074] of the subnormal numbers at the bottom. *)
Definition round64 (x : Q) : Q :=
  if Qeq_bool x 0 then 0%Q
  else
    let a := Qabs x in
    let e := Z.max (ilog2 a - 52) (-1074) in
    let r := (inject_Z (round_half_even (a / 2 ^ e)) * 2 ^ e)%Q in
    Qred (if Qle_bool 0 x then r else - r).

(** [np.mean] of doubles: numpy adds the sum of the others, taken from
    left to right, to the first value (its order for up to nine values;
    longer arrays are added in blocks, which this does not follow), and
    divides by the count. *)
Definition mean64 (l : list Q) : Q :=
  match l with
  | [] => 0%Q
  | x :: rest =>
      let others := foldl (λ s y, round64 (s + y)) 0%Q rest in
      round64 (round64 (x + others) / Qlen l)
  end.

Definition float64 : Float64 := {|
  fl := round64;
  np_mean64 := mean64
|}.

(** [round(x, 2)] on a double [x]: the double nearest to the exact value
    of [x] rounded to the nearest hundredth, ties to even. *)
Definition round2 (x : Q) : Q := round64 (Py.round2 x).

End Binary64.

(** ** Vocabulary of the properties *)

(** Decreasing order of a key *)
Definition desc {A} (key : A → Q) (a b : A) : Prop := (key b <= key a)%Q.

(** The number of elements of [l[:stop]] for a list of [n] elements *)
Definition slice_len (stop : Z) (n : nat) : nat :=
  if (0 <=? stop)%Z then Z.to_nat stop `min` n
  else Z.to_nat (Z.of_nat n + stop).

(** A question of a variant is a question of the bank whose answers were
    rearranged. *)
Definition reshuffled (q q' : question) : Prop :=
  ∃ a, q' = with_answers q a ∧ a ≡ₚ answers q.

(** The questions a load leaves in [questions_data] *)
Definition loaded_bank (o : load_outcome) : list question :=
  match o with
  | Loaded qs => qs
  | LoadFailed partial => partial
  end.

(** Strings made of characters that satisfy a test *)
Fixpoint all_chars (p : ascii → bool) (s : string) : bool :=
  match s with
  | EmptyString => true
  | String c s' => p c && all_chars p s'
  end.

(** ASCII text, on which [strip] and [upper] are Python's *)
Definition is_ascii (s : string) : bool :=
  all_chars (λ c, (nat_of_ascii c <? 128)%nat) s.

Definition ascii_cell (c : cell) : bool :=
  match c with
  | NaN => true
  | Text s => is_ascii s
  end.

(** The cell of an answer column is empty: the row has no such cell, or
    the cell is not-a-number (an empty cell of the spreadsheet), or it
    holds white space only. *)
Definition is_blank (r : row) (col : string) : bool :=
  match row_get r col with
  | None | Some NaN => true
  | Some (Text s) => all_chars isspace s
  end.

(** The stripped answer is the key up to case. *)
Definition matches_key (r : row) (col letter : string) : bool :=
  String.eqb (upper (student_ans r col)) (upper letter).

Definition outcome_eqb (a b : outcome) : bool :=
  match a, b with
  | Blank, Blank | Correct, Correct | Wrong, Wrong => true
  | _, _ => false
  end.

(** How many of the columns the registry knows (under both dictionaries)
    and satisfy [p], a test on the column and its key *)
Definition count_registered (p : string → string → bool)
    (km qm : gmap string string) (cols : list string) : Z :=
  Z.of_nat (length (List.filter
    (λ col, match km !! col, qm !! col with
            | Some letter, Some _ => p col letter
            | _, _ => false
            end) cols)).

(** The sheet and the outcome of a column the registry knows *)
Definition col_outcome (km qm : gmap string string) (r : row) (col : string)
  : option (string * outcome) :=
  match km !! col, qm !! col with
  | Some letter, Some sheet => Some (sheet, classify r col letter)
  | _, _ => None
  end.

(** How many of the columns are known to the registry with a sheet and an
    outcome that satisfy [p] *)
Definition count_cols (p : string → outcome → bool)
    (km qm : gmap string string) (r : row) (cols : list string) : Z :=
  Z.of_nat (length (List.filter
    (λ col, match col_outcome km qm r col with
            | Some (sheet, o) => p sheet o
            | None => false
            end) cols)).

Definition tally_count (o : outcome) (t : tally) : Z :=
  match o with
  | Blank => t_blank_count t
  | Correct => t_correct_count t
  | Wrong => t_wrong_count t
  end.

Definition stats_count (o : outcome) (st : qstats) : Z :=
  match o with
  | Blank => st_blank st
  | Correct => st_correct st
  | Wrong => st_wrong st
  end.

(** The tally of an outcome for a sheet in [question_stats] *)
Definition sheet_tally (o : outcome) (sheet : string)
    (qs : gmap string qstats) : Z :=
  stats_count o (default fresh_stats (qs !! sheet)).

Definition forget_stats (t : tally) : tally :=
  {| t_correct_count := t_correct_count t;
     t_wrong_count := t_wrong_count t;
     t_blank_count := t_blank_count t;
     t_correct_score := t_correct_score t;
     t_wrong_score := t_wrong_score t;
     t_blank_score := t_blank_score t;
     t_max_possible_score := t_max_possible_score t;
     t_student_answers := t_student_answers t;
     t_question_stats := ∅ |}.

(** The detail recorded for a column the registry knows *)
Definition detail_of (self : TestGeneratorAnalyzer) (r : row)
    (qdm : gmap string question) (col letter sheet : string) : answer_detail :=
  let o := classify r col letter in
  {| ans_sheet := sheet;
     ans_response := match o with Blank => "blank" | _ => student_ans r col end;
     ans_correct := letter;
     ans_points :=
       match o with
       | Blank => punto_non_data self (qdm !! sheet)
       | Correct => punto_corretta self (qdm !! sheet)
       | Wrong => punto_errata self (qdm !! sheet)
       end |}.

(** The grading of one row taken by itself *)
Definition row_tally (self : TestGeneratorAnalyzer) (r : row)
    (km qm : gmap string string) : tally :=
  foldl (grade_column self r km qm (question_data_map self (row_vid r)))
    (start_tally ∅) (answer_cols r).

Definition row_result (self : TestGeneratorAnalyzer) (r : row)
    (km qm : gmap string string) : result :=
  result_of_tally (row_tally self r km qm) (row_vid r).

(** The registry entries of the variant a row names *)
Definition row_maps (self : TestGeneratorAnalyzer) (r : row)
  : option (gmap string string * gmap string string) :=
  match variant_answer_keys self !! row_vid r,
        variant_question_mappings self !! row_vid r with
  | Some km, Some qm => Some (km, qm)
  | _, _ => None
  end.

(** What a row contributes: the result of its student, and its share of
    the tally of a sheet *)
Definition row_entry (self : TestGeneratorAnalyzer) (r : row) : option result :=
  (λ m, row_result self r m.1 m.2) <$> row_maps self r.

Definition row_sheet_count (self : TestGeneratorAnalyzer) (o : outcome)
    (sheet : string) (r : row) : Z :=
  match row_maps self r with
  | Some (km, qm) =>
      count_cols (λ s o', String.eqb s sheet && outcome_eqb o' o) km qm r
        (answer_cols r)
  | None => 0
  end.

Definition Zsum (l : list Z) : Z := foldr Z.add 0%Z l.

(** The line printed for a row whose variant the registry does not know *)
Definition warning_of (r : row) : message :=
  MsgVariantNotFound (row_vid r) (student_id r).

(** Two results with the same grades: they agree on every key that
    [correct_tests] writes. *)
Definition same_grades (r1 r2 : result) : Prop :=
  correct_count r1 = correct_count r2
  ∧ wrong_count r1 = wrong_count r2
  ∧ blank_count r1 = blank_count r2
  ∧ correct_score r1 = correct_score r2
  ∧ wrong_score r1 = wrong_score r2
  ∧ blank_score r1 = blank_score r2
  ∧ total_score r1 = total_score r2
  ∧ max_possible_score r1 = max_possible_score r2
  ∧ percentage r1 = percentage r2
  ∧ res_answers r1 = res_answers r2
  ∧ res_variant_id r1 = res_variant_id r2.

Definition same_graded_set (tr1 tr2 : list (string * result)) : Prop :=
  Forall2 (λ e1 e2, e1.1 = e2.1 ∧ same_grades e1.2 e2.2) tr1 tr2.

(** The generator of phase 2 when [correct_tests] is called *)
Definition phase2_ready (env : phase2_env) (c : config)
    (keys maps : gmap string (gmap string string)) : TestGeneratorAnalyzer :=
  (load_student_answers_from_excel
     (load_questions_from_excel (set_mappings (init c) keys maps)
        (p2_load env)).1
     (p2_student_responses env)).1.

(** ** Pieces of the reports *)

(** [generate_student_excel_report]: the percentage on a scale of 10,
    [round(percent_x10 * 4) / 4]. *)
Definition rounded_percent (percentage : Q) : Q :=
  let percent_x10 := (percentage * 10 / 100)%Q in
  (inject_Z (round_half_even (percent_x10 * 4)) / 4)%Q.

(** [generate_student_reports]: the status printed beside an answer, NON
    DATA ([Blank]), CORRETTA ([Correct]) or ERRATA ([Wrong]). *)
Definition report_status (a : answer_detail) : outcome :=
  if String.eqb (ans_response a) "blank" then Blank
  else if String.eqb (upper (ans_response a)) (upper (ans_correct a))
       then Correct
       else Wrong.

(** ** Vocabulary of the further properties *)

(** The number of answers of a question marked as correct *)
Definition correct_answers (q : question) : nat :=
  length (List.filter is_correct (answers q)).

(** The question numbers of a test of [n] questions: [str(1)], ..., [str(n)] *)
Definition question_nums (n : nat) : list string :=
  map (λ i, str_int (Z.of_nat i + 1)) (seq 0 n).

(** The exception that stops phase 1 before it writes a file, if any: the
    configuration cannot be read, a required file or the compiler is
    missing, or the load of the questions failed half way and left
    questions without an original order to score candidates against. *)
Definition phase1_stops (env : phase1_env) : option exn :=
  match p1_config_json env with
  | Raise e => Some e
  | Ok c =>
      if negb (p1_questions_xlsx_exists env) then Some FileNotFoundError
      else if negb (p1_pdflatex_found env) then Some RuntimeError
      else
        match p1_load env with
        | LoadFailed (_ :: _) =>
            if (0 <? default 10%Z
                       (cfg_num_potential_variants_for_randomness_check c))%Z
            then Some ZeroDivisionError
            else None
        | _ => None
        end
  end.

(** The sheet of a student who gives, for every question of a variant, the
    label of its correct answer *)
Definition answer_sheet (label_style sid : string) (v : variant) : row :=
  {| student_id := sid;
     row_variant_id := variant_id v;
     cells := imap (λ i q, (str_int (Z.of_nat i + 1),
                            Text (key_label label_style (correct_index q))))
                (questions v) |}.

(** A result whose scores are its counts weighted by three fixed scores *)
Definition weighted_by (dc dw db : Q) (res : result) : Prop :=
  (correct_score res == dc * inject_Z (correct_count res))%Q
  ∧ (wrong_score res == dw * inject_Z (wrong_count res))%Q
  ∧ (blank_score res == db * inject_Z (blank_count res))%Q
  ∧ (max_possible_score res
     == dc * inject_Z (correct_count res + wrong_count res + blank_count res))%Q
  ∧ (total_score res
     == dc * inject_Z (correct_count res) + dw * inject_Z (wrong_count res)
        + db * inject_Z (blank_count res))%Q.

(** The same of the running tally of a row *)
Definition tally_weighted (dc dw db : Q) (t : tally) : Prop :=
  (t_correct_score t == dc * inject_Z (t_correct_count t))%Q
  ∧ (t_wrong_score t == dw * inject_Z (t_wrong_count t))%Q
  ∧ (t_blank_score t == db * inject_Z (t_blank_count t))%Q
  ∧ (t_max_possible_score t
     == dc * inject_Z (t_correct_count t + t_wrong_count t + t_blank_count t))%Q.

(** Tallies that count something: no negative count, at least one answer *)
Definition sound_stats (st : qstats) : Prop :=
  (0 <= st_correct st ∧ 0 <= st_wrong st ∧ 0 <= st_blank st
   ∧ 0 < st_correct st + st_wrong st + st_blank st)%Z.


(** The bands of [analyze_results], from the lowest to the highest *)
Definition stanine_bands : list string :=
  ["F-"; "F"; "E"; "D"; "C"; "B"; "A"; "S"; "S+"].

(** The position of a band in [stanine_bands] *)
Definition stanine_rank (s : string) : nat :=
  default 0%nat (index_where (String.eqb s) stanine_bands).

(** The ten digits *)
Definition is_digit (c : ascii) : bool :=
  let n := nat_of_ascii c in ((48 <=? n) && (n <=? 57))%nat.
(** ** A small exam, used in the examples *)

Import Exact.

Module Demo.

Definition mk_question (t s : string) (distractors : list string)
    (pc : option Q) : question :=
  {| question_text := t;
     sheet_name := s;
     num_columns_alternatives := 1;
     answers := {| text := "right"; is_correct := true |}
                :: map (λ d, {| text := d; is_correct := false |}) distractors;
     punteggio_corretta := pc;
     punteggio_errata := None;
     punteggio_non_data := None |}.

(** Three sheets; the row of the first carries ["Punteggio corretta"] 10. *)
Definition bank : list question :=
  [ mk_question "Q1" "S1" ["u"; "v"] (Some 10%Q);
    mk_question "Q2" "S2" ["u"; "v"; "w"] None;
    mk_question "Q3" "S3" ["u"] None ].

(** [config.json] sets the default score of a correct answer to 5 and asks
    for 2 variants out of 4 candidates. *)
Definition cfg : config :=
  {| cfg_default_correct_score := Some 5%Q;
     cfg_default_wrong_score := None;
     cfg_default_no_answer_score := None;
     cfg_passing_threshold := None;
     cfg_num_variants := Some 2%Z;
     cfg_num_potential_variants_for_randomness_check := Some 4%Z;
     cfg_choice_label_format := None |}.

Definition env1 (o : load_outcome) : phase1_env :=
  {| p1_config_json := Ok cfg;
     p1_questions_xlsx_exists := true;
     p1_pdflatex_found := true;
     p1_load := o;
     p1_generate_latex := λ _, Ok ();
     p1_pdflatex := λ _, true |}.

(** The generator of phase 1 once the bank is loaded *)
Definition loaded : TestGeneratorAnalyzer :=
  (load_questions_from_excel (init cfg) (Loaded bank)).1.

(** The four candidates of phase 1 *)
Definition generated : list variant :=
  (generate_test_variants loaded 4 (0%nat : Rng)).1.1.

(** One candidate: the bank in its original order *)
Definition plain_variant : variant :=
  {| variant_id := "1"; questions := bank |}.

Definition first_generated : variant := default plain_variant (head generated).

(** The registry of one variant with keys A, B, C *)
Definition key1 : gmap string string :=
  {[ "1" := "A"; "2" := "B"; "3" := "C" ]}.
Definition sheet1 : gmap string string :=
  {[ "1" := "S1"; "2" := "S2"; "3" := "S3" ]}.
Definition keys : gmap string (gmap string string) := {[ "1" := key1 ]}.
Definition maps : gmap string (gmap string string) := {[ "1" := sheet1 ]}.

Definition anna : row :=
  {| student_id := "anna"; row_variant_id := "1";
     cells := [("1", Text "a"); ("2", NaN); ("3", Text "x"); ("4", Text "A")] |}.
Definition bob : row :=
  {| student_id := "bob"; row_variant_id := "1";
     cells := [("1", Text "B"); ("2", Text "c"); ("3", Text "  ")] |}.
Definition carl : row :=
  {| student_id := "carl"; row_variant_id := " 1 ";
     cells := [("1", Text "C"); ("2", Text " b "); ("3", Text "C")] |}.
(** A submission for a variant the registry does not hold *)
Definition dora : row :=
  {| student_id := "dora"; row_variant_id := "9";
     cells := [("1", Text "A"); ("2", Text "B"); ("3", Text "C")] |}.
(** A second row for anna *)
Definition anna_again : row :=
  {| student_id := "anna"; row_variant_id := "1";
     cells := [("1", Text "A"); ("2", Text "B"); ("3", Text "C")] |}.

Definition rows : list row := [anna; bob; dora; carl].
Definition rows_twice : list row := [anna; bob; anna_again].

(** The tallies of sheet S1 after grading [rows]: one correct answer
    (anna) out of three *)
Definition s1_stats : qstats :=
  {| st_correct := 1; st_wrong := 2; st_blank := 0;
     st_total_answers := None; st_correct_pct := None;
     st_wrong_pct := None; st_blank_pct := None;
     st_difficulty := None; st_discrimination := None |}.

Definition env2 (rs : list row) : phase2_env :=
  {| p2_config_json := Ok cfg;
     p2_student_answers_exists := true;
     p2_question_mappings_json := Some (QuestionMappings keys maps);
     p2_load := Loaded bank;
     p2_student_responses := Responses rs |}.

(** The generator of phase 2 when [correct_tests] is called *)
Definition ready (rs : list row) : TestGeneratorAnalyzer :=
  set_student_responses
    (load_questions_from_excel (set_mappings (init cfg) keys maps)
       (Loaded bank)).1
    (Some rs).

Definition nowhere : world := {| files := ∅; stdout := [] |}.

(** A bank whose second question lays its answers out on two columns *)
Definition bank_two_columns : list question :=
  [ mk_question "Q1" "S1" ["u"; "v"] None;
    {| question_text := "Q2"; sheet_name := "S2";
       num_columns_alternatives := 2;
       answers := [ {| text := "right"; is_correct := true |};
                    {| text := "u"; is_correct := false |} ];
       punteggio_corretta := None;
       punteggio_errata := None;
       punteggio_non_data := None |} ].

(** A document builder that raises on an answer layout of more than one
    column, where [_generate_latex_for_variant] calls [Multicols] *)
Definition multicols_raises (v : variant) : py unit :=
  if existsb (λ q, (1 <? num_columns_alternatives q)%Z) (questions v)
  then Raise TypeError
  else Ok ().

(** A question of six answers with the correct one at index [i] *)
Definition six (t : string) (i : nat) : question :=
  {| question_text := t;
     sheet_name := t;
     num_columns_alternatives := 1;
     answers := imap (λ j a, {| text := a; is_correct := bool_decide (j = i) |})
                  ["a"; "b"; "c"; "d"; "e"; "f"];
     punteggio_corretta := None;
     punteggio_errata := None;
     punteggio_non_data := None |}.

(** Two candidates in the original order, with the correct answers at
    indices 0 and 3, and 1 and 2: both have the score 3/20. *)
Definition tie1 : variant :=
  {| variant_id := "1"; questions := [six "Q1" 0; six "Q2" 3] |}.
Definition tie2 : variant :=
  {| variant_id := "2"; questions := [six "Q1" 1; six "Q2" 2] |}.
Definition tied : TestGeneratorAnalyzer :=
  (load_questions_from_excel (init cfg)
     (Loaded [six "Q1" 0; six "Q2" 0])).1.

(** The loop of [correct_tests] before its first row *)
Definition start (self : TestGeneratorAnalyzer) : grading :=
  {| g_test_results := test_results self;
     g_question_stats := ∅;
     g_stdout := [] |}.

End Demo.

(** * Properties *)

(** ** The stable descending sort *)

Section SortDesc.
Context {A : Type} (key : A → Q).

Lemma insert_desc_perm x l : insert_desc key x l ≡ₚ x :: l.
Proof.
  induction l as [|y l IH]; simpl; [done|].
  destruct (Qle_bool (key y) (key x)); [done|].
  rewrite IH. apply Permutation_swap.
Qed.

Lemma sort_desc_perm l : sort_desc key l ≡ₚ l.
Proof.
  induction l as [|x l IH]; simpl; [done|].
  rewrite insert_desc_perm. by rewrite IH.
Qed.

Lemma sort_desc_length l : length (sort_desc key l) = length l.
Proof. by rewrite sort_desc_perm. Qed.

Lemma insert_desc_sorted x l :
  StronglySorted (desc key) l → StronglySorted (desc key) (insert_desc key x l).
Proof.
  induction 1 as [|y l Hl IH Hy]; simpl.
  - repeat constructor.
  - destruct (Qle_bool (key y) (key x)) eqn:E.
    + apply Qle_bool_iff in E.
      constructor; [by constructor|].
      constructor; [done|].
      eapply Forall_impl; [exact Hy|].
      intros z Hz. unfold desc in *. by apply Qle_trans with (key y).
    + constructor; [done|].
      rewrite insert_desc_perm. constructor; [|done].
      unfold desc. destruct (Qlt_le_dec (key x) (key y)) as [Hlt|Hle].
      * by apply Qlt_le_weak.
      * apply Qle_bool_iff in Hle. congruence.
Qed.

Lemma sort_desc_sorted l : StronglySorted (desc key) (sort_desc key l).
Proof.
  induction l as [|x l IH]; simpl; [constructor|].
  by apply insert_desc_sorted.
Qed.

(** Stability: the elements of any one key value keep their input order. *)
Lemma insert_desc_stable q x l :
  List.filter (λ a, Qeq_bool (key a) q) (insert_desc key x l)
  = List.filter (λ a, Qeq_bool (key a) q) (x :: l).
Proof.
  induction l as [|y l IH]; [done|].
  cbn [insert_desc]. destruct (Qle_bool (key y) (key x)) eqn:E; [done|].
  cbn [List.filter] in *. rewrite IH.
  destruct (Qeq_bool (key x) q) eqn:Ex, (Qeq_bool (key y) q) eqn:Ey; try done.
  apply Qeq_bool_iff in Ex, Ey.
  assert (Qle_bool (key y) (key x) = true); [|congruence].
  apply Qle_bool_iff. rewrite Ex, Ey. apply Qle_refl.
Qed.

Lemma sort_desc_stable q l :
  List.filter (λ a, Qeq_bool (key a) q) (sort_desc key l)
  = List.filter (λ a, Qeq_bool (key a) q) l.
Proof.
  induction l as [|x l IH]; [done|].
  cbn [sort_desc foldr]. rewrite insert_desc_stable.
  cbn [List.filter]. fold (sort_desc key l). by rewrite IH.
Qed.
End SortDesc.

Lemma insert_desc_map {A B} (key : B → Q) (h : A → B) x l :
  insert_desc key (h x) (map h l) = map h (insert_desc (key ∘ h) x l).
Proof.
  induction l as [|y l IH]; [done|]. simpl.
  destruct (Qle_bool (key (h y)) (key (h x))); [done|]. by rewrite IH.
Qed.

Lemma sort_desc_map {A B} (key : B → Q) (h : A → B) l :
  sort_desc key (map h l) = map h (sort_desc (key ∘ h) l).
Proof.
  induction l as [|x l IH]; [done|].
  cbn [map sort_desc foldr]. fold (sort_desc key (map h l)).
  fold (sort_desc (key ∘ h) l). by rewrite IH, insert_desc_map.
Qed.

(** ** Slices *)

Lemma slice_to_take {A} (stop : Z) (l : list A) :
  slice_to stop l = take (slice_len stop (length l)) l.
Proof.
  unfold slice_to, slice_len. destruct (0 <=? stop)%Z; [|done].
  destruct (decide (Z.to_nat stop ≤ length l)).
  - by rewrite Nat.min_l.
  - rewrite Nat.min_r by lia. rewrite !take_ge; [done|lia..].
Qed.

Lemma slice_to_length {A} (stop : Z) (l : list A) :
  length (slice_to stop l) = slice_len stop (length l).
Proof.
  rewrite slice_to_take, length_take. unfold slice_len.
  destruct (0 <=? stop)%Z eqn:E; lia.
Qed.

Lemma slice_to_map {A B} (f : A → B) (stop : Z) (l : list A) :
  slice_to stop (map f l) = map f (slice_to stop l).
Proof.
  unfold slice_to. rewrite length_map.
  destruct (0 <=? stop)%Z; by rewrite <- fmap_take.
Qed.

Lemma slice_to_nil {A} (stop : Z) : slice_to stop (@nil A) = [].
Proof. unfold slice_to. rewrite !take_nil. by destruct (0 <=? stop)%Z. Qed.

(** ** Dictionaries *)

Lemma dict_get_set_eq {V} k (v : V) d : dict_get k (dict_set k v d) = Some v.
Proof.
  induction d as [|[k' v'] d IH]; simpl.
  - by rewrite String.eqb_refl.
  - destruct (String.eqb k' k) eqn:E; simpl; [by rewrite String.eqb_refl|].
    by rewrite E.
Qed.

Lemma dict_get_set_ne {V} k k' (v : V) d :
  k ≠ k' → dict_get k' (dict_set k v d) = dict_get k' d.
Proof.
  intros Hne. induction d as [|[k0 v0] d IH]; simpl.
  - destruct (String.eqb_spec k k'); done.
  - destruct (String.eqb_spec k0 k) as [->|]; simpl.
    + destruct (String.eqb_spec k k'); done.
    + by rewrite IH.
Qed.

Lemma dict_get_set {V} k k' (v : V) d :
  dict_get k' (dict_set k v d)
  = if String.eqb k k' then Some v else dict_get k' d.
Proof.
  destruct (String.eqb_spec k k') as [->|Hne].
  - apply dict_get_set_eq.
  - by apply dict_get_set_ne.
Qed.

Lemma dict_set_elem {V} k (v : V) d e :
  e ∈ dict_set k v d → e = (k, v) ∨ e ∈ d.
Proof.
  induction d as [|[k0 v0] d IH]; simpl.
  - intros ->%list_elem_of_singleton. by left.
  - destruct (String.eqb k0 k).
    + intros [->|?]%elem_of_cons; [by left|right; by right].
    + intros [->|?]%elem_of_cons; [right; by left|].
      destruct IH as [?|?]; [done|by left|right; by right].
Qed.

Lemma dict_get_elem {V} k (v : V) d : dict_get k d = Some v → (k, v) ∈ d.
Proof.
  induction d as [|[k0 v0] d IH]; simpl; [done|].
  destruct (String.eqb_spec k0 k) as [->|].
  - intros [= ->]. by left.
  - intros. right. by apply IH.
Qed.

(** ** Strings *)

Lemma all_chars_impl (p q : ascii → bool) s :
  (∀ c, p c = true → q c = true) → all_chars p s = true → all_chars q s = true.
Proof.
  intros Hpq. induction s as [|c s IH]; [done|]. cbn.
  intros [Hc Hs]%andb_true_iff. by rewrite (Hpq c Hc), IH.
Qed.

Lemma lstrip_plain s :
  all_chars (λ c, negb (isspace c)) s = true → lstrip s = s.
Proof.
  destruct s as [|c s]; [done|]. cbn.
  intros [Hc _]%andb_true_iff. apply negb_true_iff in Hc. by rewrite Hc.
Qed.

Lemma rev_app_all_chars_eq p s t :
  all_chars p (String.rev_app s t) = all_chars p s && all_chars p t.
Proof.
  revert t. induction s as [|c s IH]; intros t; [done|]. cbn.
  rewrite IH. cbn. by destruct (p c), (all_chars p s), (all_chars p t).
Qed.

Lemma rev_app_all_chars p s t :
  all_chars p s = true → all_chars p t = true →
  all_chars p (String.rev_app s t) = true.
Proof. intros Hs Ht. by rewrite rev_app_all_chars_eq, Hs, Ht. Qed.

Lemma rev_app_rev_app s t u :
  String.rev_app (String.rev_app s t) u = String.rev_app t (s +:+ u).
Proof.
  revert t u. induction s as [|c s IH]; intros t u; [done|].
  cbn. by rewrite IH.
Qed.

Lemma string_app_empty s : s +:+ "" = s.
Proof.
  induction s as [|c s IH]; [done|].
  change (String c s +:+ EmptyString) with (String c (s +:+ EmptyString)).
  by rewrite IH.
Qed.

Lemma strip_plain s :
  all_chars (λ c, negb (isspace c)) s = true → strip s = s.
Proof.
  intros Hs. unfold strip. rewrite (lstrip_plain s Hs).
  rewrite lstrip_plain by (by apply rev_app_all_chars).
  unfold String.rev. rewrite rev_app_rev_app. apply string_app_empty.
Qed.

Lemma lstrip_spaces s : all_chars isspace s = true → lstrip s = "".
Proof.
  induction s as [|c s IH]; [done|]. cbn.
  intros [Hc Hs]%andb_true_iff. rewrite Hc. by apply IH.
Qed.

Lemma lstrip_head s :
  all_chars isspace s = false →
  ∃ c t, lstrip s = String c t ∧ isspace c = false.
Proof.
  induction s as [|c s IH]; [done|]. cbn.
  destruct (isspace c) eqn:Hc; cbn; [exact IH|]. intros _. by exists c, s.
Qed.

Lemma rev_app_nonempty s t : t ≠ "" → String.rev_app s t ≠ "".
Proof.
  revert t. induction s as [|c s IH]; intros t Ht; [done|].
  cbn. by apply IH.
Qed.

(** [strip] leaves nothing exactly of the strings of white space. *)
Lemma strip_blank s : String.eqb (strip s) "" = all_chars isspace s.
Proof.
  destruct (all_chars isspace s) eqn:Hs.
  - unfold strip. by rewrite (lstrip_spaces s Hs).
  - apply String.eqb_neq. unfold strip.
    destruct (lstrip_head s Hs) as (c & t & -> & Hc).
    assert (Hrev : all_chars isspace (String.rev (String c t)) = false).
    { unfold String.rev. rewrite rev_app_all_chars_eq. cbn. rewrite Hc.
      by destruct (all_chars isspace t). }
    destruct (lstrip_head _ Hrev) as (c' & t' & -> & _).
    unfold String.rev. cbn. by apply rev_app_nonempty.
Qed.

(** ** Rounding *)

Lemma round_half_even_bound x :
  (Qabs (inject_Z (round_half_even x) - x) <= 1 # 2)%Q.
Proof.
  unfold round_half_even.
  pose proof (Qfloor_le x) as Hlo. pose proof (Qlt_floor x) as Hhi.
  rewrite inject_Z_plus in Hhi. change (inject_Z 1) with 1%Q in Hhi.
  apply Qabs_Qle_condition.
  destruct (x - inject_Z (Qfloor x) ?= 1 # 2)%Q eqn:E.
  - apply Qeq_alt in E. destruct (Z.even (Qfloor x));
      rewrite ?inject_Z_plus; change (inject_Z 1) with 1%Q; split; lra.
  - apply Qlt_alt in E. split; lra.
  - apply Qgt_alt in E. rewrite inject_Z_plus. change (inject_Z 1) with 1%Q.
    split; lra.
Qed.


(** ** Fractions and means *)

Lemma Qlen_nonneg {A} (l : list A) : (0 <= Qlen l)%Q.
Proof.
  unfold Qlen. change 0%Q with (inject_Z 0). rewrite <- Zle_Qle. lia.
Qed.

Lemma Qlen_cons_pos {A} (x : A) (l : list A) : (0 < Qlen (x :: l))%Q.
Proof.
  unfold Qlen. change 0%Q with (inject_Z 0). rewrite <- Zlt_Qlt. simpl. lia.
Qed.

(** A quotient of two integers [0 <= a <= b], [0 < b] lies in the unit
    interval. *)
Lemma unit_fraction (a b : Z) :
  (0 ≤ a ≤ b)%Z → (0 < b)%Z → (0 <= inject_Z a / inject_Z b <= 1)%Q.
Proof.
  intros [Ha Hab] Hb.
  assert (0 < inject_Z b)%Q
    by (change 0%Q with (inject_Z 0); by rewrite <- Zlt_Qlt).
  split.
  - apply Qle_shift_div_l; [done|]. rewrite Qmult_0_l.
    change 0%Q with (inject_Z 0). by rewrite <- Zle_Qle.
  - apply Qle_shift_div_r; [done|]. rewrite Qmult_1_l. by rewrite <- Zle_Qle.
Qed.

Lemma Qsum_unit (l : list Q) :
  Forall (λ x, 0 <= x <= 1)%Q l → (0 <= Qsum l <= Qlen l)%Q.
Proof.
  unfold Qlen. induction 1 as [|x l [Hx0 Hx1] _ [IH0 IH1]].
  - change (0 <= 0 <= 0)%Q. lra.
  - cbn [Qsum foldr length]. fold (Qsum l).
    rewrite Nat2Z.inj_succ, <- Z.add_1_r, inject_Z_plus.
    change (inject_Z 1) with 1%Q. lra.
Qed.

Lemma np_mean_unit (l : list Q) :
  l ≠ [] → Forall (λ x, 0 <= x <= 1)%Q l → (0 <= np_mean l <= 1)%Q.
Proof.
  intros Hne Hl. destruct (Qsum_unit l Hl) as [H0 H1].
  assert (0 < Qlen l)%Q by (destruct l; [done|apply Qlen_cons_pos]).
  unfold np_mean. split.
  - apply Qle_shift_div_l; [done|]. lra.
  - apply Qle_shift_div_r; [done|]. lra.
Qed.

Lemma Qsum_const (l : list Q) c :
  Forall (λ x, x == c)%Q l → (Qsum l == c * Qlen l)%Q.
Proof.
  unfold Qlen. induction 1 as [|x l Hx _ IH].
  - change (0 == c * 0)%Q. lra.
  - cbn [Qsum foldr length]. fold (Qsum l).
    rewrite IH, Hx, Nat2Z.inj_succ, <- Z.add_1_r, inject_Z_plus.
    change (inject_Z 1) with 1%Q. lra.
Qed.

Lemma Qlen_pos {A} (l : list A) : l ≠ [] → (0 < Qlen l)%Q.
Proof.
  intros Hl. unfold Qlen. change 0%Q with (inject_Z 0).
  rewrite <- Zlt_Qlt. destruct l; [done|]. simpl. lia.
Qed.

Lemma np_mean_const (l : list Q) c :
  l ≠ [] → Forall (λ x, x == c)%Q l → (np_mean l == c)%Q.
Proof.
  intros Hl Hc. unfold np_mean. rewrite (Qsum_const l c Hc).
  pose proof (Qlen_pos l Hl). field. lra.
Qed.

(** Rounding to an integer does not cross an integer bound. *)
Lemma round_half_even_le x n :
  (x <= inject_Z n)%Q → (round_half_even x ≤ n)%Z.
Proof.
  intros Hx. unfold round_half_even.
  pose proof (Qfloor_le x) as Hlo.
  pose proof (Qfloor_resp_le _ _ Hx) as Hfl. rewrite Qfloor_Z in Hfl.
  destruct (decide (Qfloor x = n)) as [He|Hne].
  - rewrite He in *.
    destruct (x - inject_Z n ?= 1 # 2)%Q eqn:E; [| lia |].
    + apply Qeq_alt in E. lra.
    + apply Qgt_alt in E. lra.
  - destruct (x - inject_Z (Qfloor x) ?= 1 # 2)%Q; [destruct (Z.even _)|..];
      lia.
Qed.

Lemma round_half_even_ge x n :
  (inject_Z n <= x)%Q → (n ≤ round_half_even x)%Z.
Proof.
  intros Hx. unfold round_half_even.
  pose proof (Qfloor_resp_le _ _ Hx) as Hfl. rewrite Qfloor_Z in Hfl.
  destruct (x - inject_Z (Qfloor x) ?= 1 # 2)%Q; [destruct (Z.even _)|..]; lia.
Qed.

Lemma round2_range x (a b : Z) :
  (inject_Z a <= x <= inject_Z b)%Q → (inject_Z a <= round2 x <= inject_Z b)%Q.
Proof.
  intros [Ha Hb]. unfold round2.
  assert (H1 : (a * 100 ≤ round_half_even (x * 100))%Z).
  { apply round_half_even_ge. rewrite inject_Z_mult.
    change (inject_Z 100) with 100%Q. lra. }
  assert (H2 : (round_half_even (x * 100) ≤ b * 100)%Z).
  { apply round_half_even_le. rewrite inject_Z_mult.
    change (inject_Z 100) with 100%Q. lra. }
  rewrite Zle_Qle, inject_Z_mult in H1, H2.
  change (inject_Z 100) with 100%Q in *.
  unfold Qdiv. change (/ 100)%Q with (1 # 100)%Q.
  split; lra.
Qed.



(** ** Variant generation *)

Section GenerationProps.
Context `{RandomSource}.

(** The contract of [random.shuffle]: the list is rearranged in place. *)
Hypothesis shuffle_perm :
  ∀ (A : Type) (l : list A) (g : Rng), (shuffle l g).1 ≡ₚ l.

Lemma shuffle_answers_reshuffled qs g :
  Forall2 reshuffled qs (shuffle_answers qs g).1.
Proof.
  revert g. induction qs as [|q qs IH]; intros g; simpl; [constructor|].
  pose proof (shuffle_perm _ (answers q) g) as Hq.
  destruct (shuffle (answers q) g) as [a g1]. simpl in Hq.
  specialize (IH g1). destruct (shuffle_answers qs g1) as [rest g2].
  simpl in *. constructor; [by exists a|done].
Qed.

Lemma generate_loop_elem bank i count g v :
  v ∈ (generate_loop bank i count g).1 →
  ∃ p, p ≡ₚ bank ∧ Forall2 reshuffled p (questions v).
Proof.
  revert i g. induction count as [|count IH]; intros i g; simpl.
  - by intros ?%elem_of_nil.
  - pose proof (shuffle_perm _ bank g) as Hp.
    destruct (shuffle bank g) as [p g1]. simpl in Hp.
    pose proof (shuffle_answers_reshuffled p g1) as Hq.
    destruct (shuffle_answers p g1) as [qs g2]. simpl in Hq.
    specialize (IH (S i) g2).
    destruct (generate_loop bank (S i) count g2) as [rest g3]. simpl in *.
    intros [->|Hin]%elem_of_cons; [by exists p|by apply IH].
Qed.

Lemma generate_loop_length bank i count g :
  length (generate_loop bank i count g).1 = count.
Proof.
  revert i g. induction count as [|count IH]; intros i g; simpl; [done|].
  destruct (shuffle bank g) as [p g1].
  destruct (shuffle_answers p g1) as [qs g2].
  specialize (IH (S i) g2).
  destruct (generate_loop bank (S i) count g2) as [rest g3].
  simpl in *. by rewrite IH.
Qed.

Lemma reshuffled_map {B} (f : question → B) p qs :
  (∀ q a, f (with_answers q a) = f q) →
  Forall2 reshuffled p qs → map f qs = map f p.
Proof.
  intros Hf. induction 1 as [|q q' p qs (a & -> & _) _ IH]; [done|].
  simpl. by rewrite Hf, IH.
Qed.

Lemma generate_test_variants_elem self num_variants g v :
  v ∈ (generate_test_variants self num_variants g).1.1 →
  ∃ p, p ≡ₚ questions_data self ∧ Forall2 reshuffled p (questions v).
Proof.
  unfold generate_test_variants.
  destruct (questions_data self) as [|q0 bank] eqn:E; simpl.
  - by intros ?%elem_of_nil.
  - destruct (generate_loop (q0 :: bank) 0 (Z.to_nat num_variants) g)
      as [vs g'] eqn:El. simpl. intros Hin.
    apply (generate_loop_elem (q0 :: bank) 0 (Z.to_nat num_variants) g).
    by rewrite El.
Qed.

(** A non-empty bank yields as many variants as were asked for. *)
Lemma generate_test_variants_count self num_variants g :
  questions_data self ≠ [] →
  length (generate_test_variants self num_variants g).1.1
  = Z.to_nat num_variants.
Proof.
  unfold generate_test_variants.
  destruct (questions_data self) as [|q0 bank]; [done|]. intros _.
  pose proof (generate_loop_length (q0 :: bank) 0 (Z.to_nat num_variants) g).
  by destruct (generate_loop (q0 :: bank) 0 (Z.to_nat num_variants) g).
Qed.

(** C8. Every variant that [generate_test_variants] returns holds the
    questions of the bank, each once and in some order: it has as many
    questions as the bank, its sheet names are the bank's sheet names
    with the same multiplicities (so each exactly once when the bank has
    one question per sheet), and apart from the order of their answers
    its questions are the bank's questions. *)
Theorem generate_test_variants_permutation self num_variants g v :
  v ∈ (generate_test_variants self num_variants g).1.1 →
  length (questions v) = length (questions_data self)
  ∧ map sheet_name (questions v) ≡ₚ map sheet_name (questions_data self)
  ∧ (NoDup (map sheet_name (questions_data self)) →
     NoDup (map sheet_name (questions v)))
  ∧ map (λ q, with_answers q []) (questions v)
    ≡ₚ map (λ q, with_answers q []) (questions_data self).
Proof.
  intros (p & Hp & Hq)%generate_test_variants_elem.
  assert (Hs : map sheet_name (questions v)
               ≡ₚ map sheet_name (questions_data self)).
  { rewrite (reshuffled_map sheet_name p) by done. by rewrite Hp. }
  split_and!.
  - apply Forall2_length in Hq. by rewrite <- Hq, Hp.
  - done.
  - intros Hnd. by rewrite Hs.
  - rewrite (reshuffled_map _ p) by done. by rewrite Hp.
Qed.
End GenerationProps.

(** The rotation of the demonstration source rearranges. *)
Lemma counter_source_perm (A : Type) (l : list A) (g : Rng) :
  (shuffle l g).1 ≡ₚ l.
Proof.
  simpl. unfold rotate.
  rewrite Permutation_app_comm. by rewrite take_drop.
Qed.

(** C8: an instance, on the first of four candidates of the demonstration
    bank. *)
Lemma generate_test_variants_permutation_witness :
  let v := Demo.first_generated in
  length (questions v) = length (questions_data Demo.loaded)
  ∧ map sheet_name (questions v) ≡ₚ map sheet_name (questions_data Demo.loaded)
  ∧ (NoDup (map sheet_name (questions_data Demo.loaded)) →
     NoDup (map sheet_name (questions v)))
  ∧ map (λ q, with_answers q []) (questions v)
    ≡ₚ map (λ q, with_answers q []) (questions_data Demo.loaded).
Proof.
  apply (generate_test_variants_permutation (H := counter_source)
           counter_source_perm Demo.loaded 4%Z (0%nat : @Rng counter_source)
           Demo.first_generated).
  vm_compute. apply list_elem_of_here.
Defined.


(** ** Selection of the best variants *)

Section Selection.
Context `{Float64}.

Lemma score_variants_ok original vs :
  original ≠ [] →
  score_variants original vs = Ok (map (λ v, (score_of original v, v)) vs).
Proof.
  intros Ho. induction vs as [|v vs IH]; [done|].
  cbn [score_variants]. rewrite IH.
  unfold variant_score. by destruct original.
Qed.

Lemma select_best_variants_ok self pool N :
  original_questions_order self ≠ [] →
  select_best_variants self pool N
  = Ok (slice_to N (sort_desc (score_of (original_questions_order self)) pool),
        [MsgVariantsSelected N]).
Proof.
  intros Ho. unfold select_best_variants.
  rewrite score_variants_ok by done. cbn [mbind py_bind].
  rewrite sort_desc_map, slice_to_map, map_map. simpl.
  by rewrite map_id.
Qed.

(** C3 (amended). On every implementation of double-precision
    arithmetic: the score of a candidate is the half of the sum of the
    fraction of positions whose question text differs from the original
    order and of the mean, over the questions, of the index of the
    correct answer divided by the number of answers minus one (0 for a
    single answer), each operation rounded to a double.  With [P]
    candidates, [select_best_variants] returns the first [k] candidates
    of the pool rearranged by decreasing computed score, where [k] is
    [min N P] for [N >= 0] (and [max 0 (P + N)] for a negative [N], as
    Python slices): the selected candidates followed by the others are a
    permutation of the pool, in decreasing order of the computed score,
    in which candidates of equal computed score keep their order of
    generation; so no candidate left out has a greater computed score
    than a selected one. *)
Theorem select_best_variants_top self pool N :
  original_questions_order self ≠ [] →
  let original := original_questions_order self in
  let score := score_of original in
  (∀ q, answer_score q
        = if (1 <? Z.of_nat (length (answers q)))%Z
          then fl (inject_Z (Z.of_nat (correct_index q))
                   / inject_Z (Z.of_nat (length (answers q)) - 1))
          else 0%Q)
  ∧ (∀ v, score v
          = fl (fl (fl (inject_Z (diff_count original
                                    (map question_text (questions v)))
                        / inject_Z (Z.of_nat (length original)))
                    + match map answer_score (questions v) with
                      | [] => 0%Q
                      | answer_scores => np_mean64 answer_scores
                      end)
                / 2))
  ∧ ∃ selected rest ms,
      select_best_variants self pool N = Ok (selected, ms)
      ∧ length selected = slice_len N (length pool)
      ∧ selected ++ rest ≡ₚ pool
      ∧ StronglySorted (desc score) (selected ++ rest)
      ∧ (∀ q, List.filter (λ v, Qeq_bool (score v) q) (selected ++ rest)
              = List.filter (λ v, Qeq_bool (score v) q) pool)
      ∧ (∀ a b, a ∈ selected → b ∈ rest → (score b <= score a)%Q).
Proof.
  intros Ho original score.
  split; [done|]. split; [done|].
  set (sorted := sort_desc score pool).
  set (k := slice_len N (length pool)).
  assert (Hk : k = slice_len N (length sorted)).
  { unfold sorted. by rewrite sort_desc_length. }
  exists (take k sorted), (drop k sorted), [MsgVariantsSelected N].
  rewrite take_drop.
  pose proof (sort_desc_sorted score pool) as Hs. fold sorted in Hs.
  split_and!.
  - rewrite select_best_variants_ok by done. fold original score sorted.
    by rewrite slice_to_take, <- Hk.
  - rewrite Hk at 1. by rewrite <- slice_to_take, slice_to_length, <- Hk.
  - apply sort_desc_perm.
  - exact Hs.
  - intros q. apply sort_desc_stable.
  - intros a b Ha Hb. rewrite <- (take_drop k sorted) in Hs.
    by apply (StronglySorted_app_1_elem_of _ _ _ a b Hs).
Qed.
End Selection.

(** C3: an instance in binary64 arithmetic, selecting 1 of 2 candidates
    whose scores differ in the last bit. *)
Lemma select_best_variants_top_witness :
  let score := score_of (H := Binary64.float64)
                 (original_questions_order Demo.tied) in
  ∃ selected rest ms,
    select_best_variants (H := Binary64.float64) Demo.tied
      [Demo.tie1; Demo.tie2] 1 = Ok (selected, ms)
    ∧ length selected = 1%nat
    ∧ selected ++ rest ≡ₚ [Demo.tie1; Demo.tie2]
    ∧ StronglySorted (desc score) (selected ++ rest)
    ∧ (∀ a b, a ∈ selected → b ∈ rest → (score b <= score a)%Q).
Proof.
  intros score.
  destruct (select_best_variants_top (H := Binary64.float64) Demo.tied
              [Demo.tie1; Demo.tie2] 1)
    as (_ & _ & selected & rest & ms & Hsel & Hlen & Hperm & Hsorted & _ & Htop).
  - vm_compute. discriminate.
  - exists selected, rest, ms. split_and!; done.
Defined.

(** The two candidates of the instance have the same exact score, 3/20.
    The doubles are 0.15 and 0.15000000000000002: binary64 arithmetic
    selects the second candidate, exact arithmetic the first. *)
Lemma select_best_variants_last_bit :
  let original := original_questions_order Demo.tied in
  (score_of (H := Exact.exact_float) original Demo.tie1 == 3 # 20)%Q
  ∧ (score_of (H := Exact.exact_float) original Demo.tie2 == 3 # 20)%Q
  ∧ (score_of (H := Binary64.float64) original Demo.tie1
     < score_of (H := Binary64.float64) original Demo.tie2)%Q
  ∧ select_best_variants (H := Binary64.float64) Demo.tied
      [Demo.tie1; Demo.tie2] 1
    = Ok ([Demo.tie2], [MsgVariantsSelected 1])
  ∧ select_best_variants (H := Exact.exact_float) Demo.tied
      [Demo.tie1; Demo.tie2] 1
    = Ok ([Demo.tie1], [MsgVariantsSelected 1]).
Proof. vm_compute. split_and!; reflexivity. Qed.

(** C3: asked for 2 variants out of a pool of one candidate,
    [select_best_variants] returns that one candidate, not two. *)
Lemma select_best_variants_short_pool :
  select_best_variants Demo.loaded [Demo.plain_variant] 2
  = Ok ([Demo.plain_variant], [MsgVariantsSelected 2])
  ∧ length [Demo.plain_variant] ≠ 2%nat.
Proof. split; [vm_compute; reflexivity|]. simpl. lia. Qed.

(** ** Phase 1 and the answer-key file *)

Lemma load_questions_from_excel_fields self o :
  let gen := (load_questions_from_excel self o).1 in
  self_config gen = self_config self
  ∧ variants gen = variants self
  ∧ variant_answer_keys gen = variant_answer_keys self
  ∧ variant_question_mappings gen = variant_question_mappings self
  ∧ questions_data gen = loaded_bank o
  ∧ (∀ qs, o = Loaded qs → original_questions_order gen = map question_text qs).
Proof. destruct o; simpl; split_and!; try done; by intros ? [= ->]. Qed.

(** Loading the questions leaves the scores and the results alone. *)
Lemma load_questions_from_excel_scores self o :
  let gen := (load_questions_from_excel self o).1 in
  test_results gen = test_results self
  ∧ default_correct_score gen = default_correct_score self
  ∧ default_wrong_score gen = default_wrong_score self
  ∧ default_no_answer_score gen = default_no_answer_score self.
Proof. by destruct o. Qed.

(** Without variants the report step still writes the registry file, with
    the dictionaries as they are. *)
Lemma generate_answer_keys_report_no_variants self w :
  variants self = [] →
  files (generate_answer_keys_report self w).2 !! "question_mappings.json"
  = Some (QuestionMappings (variant_answer_keys self)
            (variant_question_mappings self))
  ∧ variants (generate_answer_keys_report self w).1 = [].
Proof.
  intros Hv. unfold generate_answer_keys_report. rewrite Hv. simpl.
  by rewrite lookup_insert_eq.
Qed.

Section Phase1Props.
Context `{RandomSource} `{SciLib} `{Float64}.

Lemma select_nothing self N n g :
  questions_data self = [] ∨ (original_questions_order self ≠ [] ∧ N = 0%Z) →
  ∃ ms, select_best_variants self (generate_test_variants self n g).1.1 N
        = Ok ([], ms).
Proof.
  intros [Hb|[Ho ->]].
  - unfold generate_test_variants. rewrite Hb. simpl.
    unfold select_best_variants. simpl. rewrite slice_to_nil. by eexists.
  - rewrite select_best_variants_ok by done. by eexists.
Qed.

(** C2 (amended). When phase 1 passes its checks and ends up with no
    variant, because no question was loaded or because the configuration
    asks for zero variants of a loaded bank, [generate_answer_keys_report]
    still runs and [question_mappings.json] is written: it holds an empty
    answer-key dictionary and an empty question dictionary. *)
Theorem phase1_no_variants_registry env g c :
  p1_config_json env = Ok c →
  p1_questions_xlsx_exists env = true →
  p1_pdflatex_found env = true →
  loaded_bank (p1_load env) = []
  ∨ (∃ qs, p1_load env = Loaded qs ∧ cfg_num_variants c = Some 0%Z) →
  files (main_phase1 env g) !! "question_mappings.json"
  = Some (QuestionMappings ∅ ∅).
Proof.
  intros Hc Hx Hp Hno. unfold main_phase1, phase1_try.
  rewrite Hc, Hx, Hp. cbn [negb].
  pose proof (load_questions_from_excel_fields (init c) (p1_load env))
    as (Hcfg & _ & Hk1 & Hk2 & Hqd & Hor).
  destruct (load_questions_from_excel (init c) (p1_load env)) as [gen ms].
  cbn [fst] in *. rewrite Hcfg.
  cbn [init _load_config self_config set_default_scores].
  set (n := default 10%Z _).
  pose proof (select_nothing gen (default 1%Z (cfg_num_variants c)) n g)
    as Hsel.
  destruct (generate_test_variants gen n g) as [[pot g'] ms'] eqn:Eg.
  destruct (evaluate_randomness_of_variants gen pot) as [metrics ms''].
  cbn [fst] in Hsel. destruct Hsel as [ms3 ->].
  { destruct Hno as [Hb|(qs & Hq & Hn)]; [left; congruence|].
    destruct qs as [|q qs]; [left; by rewrite Hqd, Hq|right].
    rewrite (Hor _ Hq), Hn. done. }
  unfold generate_test_pdfs.
  cbn [variants set_variants generate_test_pdfs_loop].
  set (w := print MsgPdfsDone _).
  pose proof (generate_answer_keys_report_no_variants
                (set_variants gen []) w eq_refl) as [Hrep Hv].
  destruct (generate_answer_keys_report (set_variants gen []) w)
    as [gen' w'].
  cbn [fst snd] in *. rewrite Hv. cbn. rewrite Hrep. cbn.
  by rewrite Hk1, Hk2.
Qed.
End Phase1Props.

(** C2: an instance of the amended statement, on an empty question bank. *)
Lemma phase1_no_variants_registry_witness :
  files (main_phase1 (Demo.env1 (Loaded [])) (0%nat : Rng))
    !! "question_mappings.json"
  = Some (QuestionMappings ∅ ∅).
Proof.
  apply (phase1_no_variants_registry (H := counter_source) (H0 := scilib)
           (Demo.env1 (Loaded [])) 0%nat Demo.cfg);
    [reflexivity | reflexivity | reflexivity | left; reflexivity].
Defined.

(** C2: with an empty question bank phase 1 generates no variant, and the
    answer-key file is written all the same. *)
Lemma phase1_empty_bank_writes_registry :
  let env := Demo.env1 (Loaded []) in
  let g : Rng := 0%nat in
  (generate_test_variants (load_questions_from_excel (init Demo.cfg) (p1_load env)).1
     4 g).1.1 = []
  ∧ files (main_phase1 env g) !! "question_mappings.json" ≠ None.
Proof. split; [reflexivity|]. vm_compute. discriminate. Qed.

(** ** Grading one row *)

Lemma outcome_eqb_eq a b : outcome_eqb a b = true ↔ a = b.
Proof. destruct a, b; simpl; split; congruence. Qed.

(** [classify] is the three-way test on [is_blank] and [matches_key]. *)
Lemma classify_cases r col letter :
  classify r col letter
  = if is_blank r col then Blank
    else if matches_key r col letter then Correct else Wrong.
Proof.
  unfold classify, is_blank, matches_key, student_ans.
  destruct (row_get r col) as [[|s]|]; cbn [isna orb str_cell]; try done.
  by rewrite strip_blank.
Qed.

Lemma count_registered_ext p q km qm cols :
  (∀ col letter, km !! col = Some letter → p col letter = q col letter) →
  count_registered p km qm cols = count_registered q km qm cols.
Proof.
  intros Hpq. unfold count_registered. do 2 f_equal.
  induction cols as [|col cols IH]; [done|]. cbn [List.filter]. rewrite IH.
  destruct (km !! col) as [letter|] eqn:Ek; [|done].
  destruct (qm !! col); [|done]. by rewrite (Hpq _ _ Ek).
Qed.

Lemma count_cols_registered o km qm r cols :
  count_cols (λ _ o', outcome_eqb o' o) km qm r cols
  = count_registered (λ col letter, outcome_eqb (classify r col letter) o)
      km qm cols.
Proof.
  unfold count_cols, count_registered, col_outcome. do 2 f_equal.
  induction cols as [|col cols IH]; [done|]. cbn [List.filter]. rewrite IH.
  by destruct (km !! col), (qm !! col).
Qed.

(** The three outcomes split the registered columns. *)
Lemma count_registered_split km qm r cols :
  (count_registered (λ col _, is_blank r col) km qm cols
   + count_registered
       (λ col letter, negb (is_blank r col) && matches_key r col letter)
       km qm cols
   + count_registered
       (λ col letter, negb (is_blank r col) && negb (matches_key r col letter))
       km qm cols
   = count_registered (λ _ _, true) km qm cols)%Z.
Proof.
  unfold count_registered.
  induction cols as [|col cols IH]; [done|]. cbn [List.filter].
  destruct (km !! col) as [letter|], (qm !! col); try exact IH.
  destruct (is_blank r col), (matches_key r col letter); cbn [negb andb length];
    lia.
Qed.

Section Grading.
Context (self : TestGeneratorAnalyzer) (r : row)
        (km qm : gmap string string) (qdm : gmap string question).

Local Abbreviation step := (grade_column self r km qm qdm).

Lemma grade_column_forget t col :
  forget_stats (step t col) = forget_stats (step (forget_stats t) col).
Proof.
  unfold grade_column. destruct (km !! col), (qm !! col); done.
Qed.

Lemma foldl_grade_column_forget cols t :
  forget_stats (foldl step t cols)
  = forget_stats (foldl step (forget_stats t) cols).
Proof.
  revert t. induction cols as [|col cols IH]; intros t; [done|].
  simpl. rewrite IH, grade_column_forget, <- IH. done.
Qed.

Lemma count_cols_cons p col cols :
  count_cols p km qm r (col :: cols)
  = (count_cols p km qm r [col] + count_cols p km qm r cols)%Z.
Proof.
  unfold count_cols. simpl.
  destruct (col_outcome km qm r col) as [[s o]|]; simpl;
    [destruct (p s o)|]; simpl; lia.
Qed.

Lemma grade_column_count o t col :
  tally_count o (step t col)
  = (tally_count o t
     + count_cols (λ _ o', outcome_eqb o' o) km qm r [col])%Z.
Proof.
  unfold grade_column, count_cols, col_outcome. simpl.
  destruct (km !! col) as [letter|], (qm !! col) as [sheet|]; simpl; try lia.
  destruct (classify r col letter), o; simpl; lia.
Qed.

Lemma foldl_grade_column_count o cols t :
  tally_count o (foldl step t cols)
  = (tally_count o t
     + count_cols (λ _ o', outcome_eqb o' o) km qm r cols)%Z.
Proof.
  revert t. induction cols as [|col cols IH]; intros t; simpl.
  - unfold count_cols. simpl. lia.
  - rewrite IH, grade_column_count, (count_cols_cons _ col cols). lia.
Qed.

Lemma grade_column_stats o sheet t col :
  sheet_tally o sheet (t_question_stats (step t col))
  = (sheet_tally o sheet (t_question_stats t)
     + count_cols (λ s o', String.eqb s sheet && outcome_eqb o' o)
         km qm r [col])%Z.
Proof.
  unfold grade_column, count_cols, col_outcome, sheet_tally. simpl.
  destruct (km !! col) as [letter|], (qm !! col) as [s|]; simpl; try lia.
  unfold tally_outcome.
  destruct (String.eqb_spec s sheet) as [->|Hne]; simpl.
  - rewrite lookup_insert_eq. simpl.
    destruct (classify r col letter), o; simpl; lia.
  - rewrite lookup_insert_ne by done. lia.
Qed.

Lemma foldl_grade_column_stats o sheet cols t :
  sheet_tally o sheet (t_question_stats (foldl step t cols))
  = (sheet_tally o sheet (t_question_stats t)
     + count_cols (λ s o', String.eqb s sheet && outcome_eqb o' o)
         km qm r cols)%Z.
Proof.
  revert t. induction cols as [|col cols IH]; intros t; simpl.
  - unfold count_cols. simpl. lia.
  - rewrite IH, grade_column_stats, (count_cols_cons _ col cols). lia.
Qed.

Lemma foldl_grade_column_answers cols t col :
  dict_get col (t_student_answers (foldl step t cols))
  = match km !! col, qm !! col with
    | Some letter, Some sheet =>
        if bool_decide (col ∈ cols)
        then Some (detail_of self r qdm col letter sheet)
        else dict_get col (t_student_answers t)
    | _, _ => dict_get col (t_student_answers t)
    end.
Proof.
  revert t. induction cols as [|c cols IH]; intros t.
  - simpl. by destruct (km !! col), (qm !! col).
  - cbn [foldl]. rewrite IH.
    destruct (decide (c = col)) as [->|Hne].
    + destruct (km !! col) as [letter|] eqn:Ek,
               (qm !! col) as [sheet|] eqn:Eq;
        try (unfold grade_column; rewrite Ek, ?Eq; done).
      rewrite (bool_decide_eq_true_2 (col ∈ col :: cols)) by left.
      unfold grade_column. rewrite Ek, Eq.
      case_bool_decide; [done|]. cbn. by rewrite dict_get_set_eq.
    + assert (dict_get col (t_student_answers (step t c))
              = dict_get col (t_student_answers t)) as ->.
      { unfold grade_column. destruct (km !! c), (qm !! c); try done.
        cbn. by rewrite dict_get_set_ne. }
      destruct (km !! col), (qm !! col); try done.
      rewrite !bool_decide_decide.
      destruct (decide (col ∈ cols)) as [Hin|Hnin],
               (decide (col ∈ c :: cols)) as [Hin'|Hnin']; try done.
      * exfalso. apply Hnin'. by right.
      * by apply elem_of_cons in Hin' as [->|?].
Qed.
End Grading.

Lemma known_variant_maps self r :
  known_variant self r = true ↔ is_Some (row_maps self r).
Proof.
  unfold known_variant, row_maps.
  destruct (variant_answer_keys self !! row_vid r),
           (variant_question_mappings self !! row_vid r); simpl;
    rewrite ?bool_decide_eq_true_2, ?bool_decide_eq_false_2
      by (by apply is_Some_None || by eexists); simpl;
    split; (done || by intros [? ?] || by eexists).
Qed.

Lemma grade_row_known self acc r km qm :
  row_maps self r = Some (km, qm) →
  g_test_results (grade_row self acc r)
  = dict_set (student_id r) (row_result self r km qm) (g_test_results acc)
  ∧ g_stdout (grade_row self acc r) = g_stdout acc
  ∧ ∀ o sheet,
      sheet_tally o sheet (g_question_stats (grade_row self acc r))
      = (sheet_tally o sheet (g_question_stats acc)
         + row_sheet_count self o sheet r)%Z.
Proof.
  intros Hm. unfold row_sheet_count. rewrite Hm.
  unfold row_maps in Hm. unfold grade_row.
  destruct (variant_answer_keys self !! row_vid r) as [km'|]; [|done].
  destruct (variant_question_mappings self !! row_vid r) as [qm'|]; [|done].
  injection Hm as -> ->. cbn [g_test_results g_stdout g_question_stats].
  split_and!; [|done|].
  - f_equal. unfold row_result, row_tally.
    set (step := grade_column self r km qm _).
    set (t := foldl step (start_tally (g_question_stats acc)) _).
    change (result_of_tally t (row_vid r))
      with (result_of_tally (forget_stats t) (row_vid r)).
    unfold t, step. rewrite foldl_grade_column_forget.
    change (forget_stats (start_tally (g_question_stats acc)))
      with (start_tally ∅).
    done.
  - intros o sheet. by rewrite foldl_grade_column_stats.
Qed.

Lemma grade_row_unknown self acc r :
  row_maps self r = None →
  g_test_results (grade_row self acc r) = g_test_results acc
  ∧ g_question_stats (grade_row self acc r) = g_question_stats acc
  ∧ g_stdout (grade_row self acc r) = g_stdout acc ++ [warning_of r].
Proof.
  unfold row_maps, grade_row.
  by destruct (variant_answer_keys self !! row_vid r),
              (variant_question_mappings self !! row_vid r).
Qed.

(** C4. On ASCII text (cells and keys), for a row whose variant the
    registry knows, the body of the loop over the rows records one detail
    per answer column that the registry holds, under exactly one of three
    cases: blank when the cell is empty ([is_blank]: no cell, an empty
    cell of the spreadsheet, or white space only), correct when the
    stripped answer is the key up to case, wrong otherwise; the three
    counters count the registered columns of each case, and add up to the
    number of registered columns. A column the registry does not hold gets
    no detail and enters no counter. *)
Theorem grade_row_classification self acc r km qm :
  variant_answer_keys self !! row_vid r = Some km →
  variant_question_mappings self !! row_vid r = Some qm →
  Forall (λ e : string * cell, ascii_cell e.2 = true) (cells r) →
  map_Forall (λ _ letter, is_ascii letter = true) km →
  let qdm := question_data_map self (row_vid r) in
  let registered p := count_registered p km qm (answer_cols r) in
  ∃ res,
    dict_get (student_id r) (g_test_results (grade_row self acc r)) = Some res
    ∧ (∀ col letter sheet,
         col ∈ answer_cols r → km !! col = Some letter → qm !! col = Some sheet →
         ∃ a, dict_get col (res_answers res) = Some a
              ∧ ans_sheet a = sheet ∧ ans_correct a = letter
              ∧ if is_blank r col
                then ans_response a = "blank"
                     ∧ ans_points a = punto_non_data self (qdm !! sheet)
                else ans_response a = student_ans r col
                     ∧ ans_points a
                       = if matches_key r col letter
                         then punto_corretta self (qdm !! sheet)
                         else punto_errata self (qdm !! sheet))
    ∧ (∀ col, km !! col = None ∨ qm !! col = None →
              dict_get col (res_answers res) = None)
    ∧ blank_count res = registered (λ col _, is_blank r col)
    ∧ correct_count res
      = registered (λ col letter,
                      negb (is_blank r col) && matches_key r col letter)
    ∧ wrong_count res
      = registered (λ col letter,
                      negb (is_blank r col) && negb (matches_key r col letter))
    ∧ (blank_count res + correct_count res + wrong_count res
       = registered (λ _ _, true))%Z.
Proof.
  intros Hk Hq _ _ qdm registered.
  assert (Hm : row_maps self r = Some (km, qm))
    by (unfold row_maps; by rewrite Hk, Hq).
  destruct (grade_row_known self acc r km qm Hm) as (Hres & _ & _).
  exists (row_result self r km qm).
  assert (Hb : blank_count (row_result self r km qm)
               = registered (λ col _, is_blank r col)).
  { change (blank_count (row_result self r km qm))
      with (tally_count Blank (row_tally self r km qm)).
    unfold row_tally. rewrite foldl_grade_column_count, count_cols_registered.
    cbn [tally_count start_tally t_blank_count]. rewrite Z.add_0_l.
    apply count_registered_ext. intros col letter _.
    rewrite classify_cases.
    by destruct (is_blank r col), (matches_key r col letter). }
  assert (Hc : correct_count (row_result self r km qm)
               = registered (λ col letter,
                   negb (is_blank r col) && matches_key r col letter)).
  { change (correct_count (row_result self r km qm))
      with (tally_count Correct (row_tally self r km qm)).
    unfold row_tally. rewrite foldl_grade_column_count, count_cols_registered.
    cbn [tally_count start_tally t_correct_count]. rewrite Z.add_0_l.
    apply count_registered_ext. intros col letter _.
    rewrite classify_cases.
    by destruct (is_blank r col), (matches_key r col letter). }
  assert (Hw : wrong_count (row_result self r km qm)
               = registered (λ col letter,
                   negb (is_blank r col) && negb (matches_key r col letter))).
  { change (wrong_count (row_result self r km qm))
      with (tally_count Wrong (row_tally self r km qm)).
    unfold row_tally. rewrite foldl_grade_column_count, count_cols_registered.
    cbn [tally_count start_tally t_wrong_count]. rewrite Z.add_0_l.
    apply count_registered_ext. intros col letter _.
    rewrite classify_cases.
    by destruct (is_blank r col), (matches_key r col letter). }
  split_and!.
  - rewrite Hres. apply dict_get_set_eq.
  - intros col letter sheet Hin Hkc Hqc.
    exists (detail_of self r qdm col letter sheet).
    change (res_answers (row_result self r km qm))
      with (t_student_answers (row_tally self r km qm)).
    unfold row_tally. rewrite foldl_grade_column_answers, Hkc, Hqc.
    rewrite bool_decide_eq_true_2 by done.
    split; [done|]. unfold detail_of. rewrite classify_cases. cbn.
    by destruct (is_blank r col), (matches_key r col letter).
  - intros col Hnone.
    change (res_answers (row_result self r km qm))
      with (t_student_answers (row_tally self r km qm)).
    unfold row_tally. rewrite foldl_grade_column_answers.
    destruct Hnone as [-> | ->]; [done|]. by destruct (km !! col).
  - exact Hb.
  - exact Hc.
  - exact Hw.
  - rewrite Hb, Hc, Hw. apply count_registered_split.
Qed.

(** C4: an instance, on the row of anna: of her four columns, the first
    holds the key in lower case (correct), the second is an empty cell
    (blank), the third holds another letter (wrong), and the fourth is not
    in the registry (no detail, no count). *)
Lemma grade_row_classification_witness :
  ∃ res,
    dict_get "anna"
      (g_test_results
         (grade_row (Demo.ready Demo.rows) (Demo.start (Demo.ready Demo.rows))
            Demo.anna))
    = Some res
    ∧ blank_count res = 1%Z ∧ correct_count res = 1%Z ∧ wrong_count res = 1%Z
    ∧ dict_get "4" (res_answers res) = None.
Proof.
  destruct (grade_row_classification (Demo.ready Demo.rows)
              (Demo.start (Demo.ready Demo.rows)) Demo.anna
              Demo.key1 Demo.sheet1)
    as (res & Hres & _ & Hnone & Hb & Hc & Hw & _).
  - vm_compute. reflexivity.
  - vm_compute. reflexivity.
  - vm_compute. repeat constructor.
  - unfold Demo.key1.
    repeat (apply map_Forall_insert_2; [reflexivity|]).
    apply map_Forall_empty.
  - exists res. rewrite Hb, Hc, Hw. split; [exact Hres|].
    split_and!; [vm_compute; reflexivity..|].
    apply Hnone. left. vm_compute. reflexivity.
Defined.

(** ** Grading all the rows *)

Section GradeRows.
Context (self : TestGeneratorAnalyzer).

Local Abbreviation run := (foldl (grade_row self)).

Lemma row_entry_known r :
  known_variant self r = true ↔ is_Some (row_entry self r).
Proof. unfold row_entry. rewrite fmap_is_Some. apply known_variant_maps. Qed.

Lemma row_entry_unknown r :
  known_variant self r = false ↔ row_entry self r = None.
Proof.
  rewrite <- not_true_iff_false, row_entry_known, <- eq_None_not_Some. done.
Qed.

Lemma grade_row_results acc r :
  g_test_results (grade_row self acc r)
  = match row_entry self r with
    | Some res => dict_set (student_id r) res (g_test_results acc)
    | None => g_test_results acc
    end.
Proof.
  unfold row_entry. destruct (row_maps self r) as [[km qm]|] eqn:Hm; simpl.
  - by apply grade_row_known.
  - by apply grade_row_unknown.
Qed.

Lemma grade_row_sheet_tally acc r o sheet :
  sheet_tally o sheet (g_question_stats (grade_row self acc r))
  = (sheet_tally o sheet (g_question_stats acc)
     + row_sheet_count self o sheet r)%Z.
Proof.
  destruct (row_maps self r) as [[km qm]|] eqn:Hm.
  - by apply (grade_row_known self acc r km qm).
  - destruct (grade_row_unknown self acc r Hm) as (_ & -> & _).
    unfold row_sheet_count. rewrite Hm. lia.
Qed.

Lemma grade_row_stdout acc r :
  g_stdout (grade_row self acc r)
  = g_stdout acc ++ (if known_variant self r then [] else [warning_of r]).
Proof.
  destruct (row_maps self r) as [[km qm]|] eqn:Hm.
  - destruct (grade_row_known self acc r km qm Hm) as (_ & -> & _).
    rewrite (proj2 (known_variant_maps self r)) by (by rewrite Hm).
    by rewrite app_nil_r.
  - destruct (grade_row_unknown self acc r Hm) as (_ & _ & ->).
    destruct (known_variant self r) eqn:Hk; [|done].
    apply known_variant_maps in Hk. rewrite Hm in Hk. by destruct Hk.
Qed.

(** The tallies add up over all the rows. *)
Lemma grade_rows_sheet_tally rows acc o sheet :
  sheet_tally o sheet (g_question_stats (run acc rows))
  = (sheet_tally o sheet (g_question_stats acc)
     + Zsum (map (row_sheet_count self o sheet) rows))%Z.
Proof.
  revert acc. induction rows as [|r rows IH]; intros acc; simpl; [lia|].
  rewrite IH, grade_row_sheet_tally. lia.
Qed.

Lemma grade_rows_stdout rows acc :
  g_stdout (run acc rows)
  = g_stdout acc
    ++ map warning_of (List.filter (λ r, negb (known_variant self r)) rows).
Proof.
  revert acc. induction rows as [|r rows IH]; intros acc; simpl.
  - by rewrite app_nil_r.
  - rewrite IH, grade_row_stdout.
    destruct (known_variant self r); simpl; by rewrite <- app_assoc.
Qed.

(** Rows of an unknown variant leave the grades as they are. *)
Lemma grade_rows_filter rows acc acc' :
  g_test_results acc = g_test_results acc' →
  g_question_stats acc = g_question_stats acc' →
  g_test_results (run acc rows)
  = g_test_results (run acc' (List.filter (known_variant self) rows))
  ∧ g_question_stats (run acc rows)
    = g_question_stats (run acc' (List.filter (known_variant self) rows)).
Proof.
  revert acc acc'.
  induction rows as [|r rows IH]; intros acc acc' Ht Hq; [done|].
  cbn [foldl List.filter].
  destruct (row_maps self r) as [[km qm]|] eqn:Hm.
  - rewrite (proj2 (known_variant_maps self r)) by (by rewrite Hm).
    cbn [foldl]. apply IH.
    + rewrite !grade_row_results. by rewrite Ht.
    + unfold grade_row. unfold row_maps in Hm.
      destruct (variant_answer_keys self !! row_vid r); [|done].
      destruct (variant_question_mappings self !! row_vid r); [|done].
      cbn. by rewrite Hq.
  - destruct (known_variant self r) eqn:Hk.
    { apply known_variant_maps in Hk. rewrite Hm in Hk. by destruct Hk. }
    destruct (grade_row_unknown self acc r Hm) as (Ht' & Hq' & _).
    apply IH; congruence.
Qed.

(** Only the rows of a student with a known variant touch the entry of
    that student. *)
Lemma grade_rows_untouched id rows acc :
  (∀ r, r ∈ rows → student_id r = id → known_variant self r = false) →
  dict_get id (g_test_results (run acc rows))
  = dict_get id (g_test_results acc).
Proof.
  revert acc. induction rows as [|r rows IH]; intros acc Hrows; [done|].
  cbn [foldl]. rewrite IH by (intros; apply Hrows; [by right|done]).
  rewrite grade_row_results.
  destruct (row_entry self r) as [res|] eqn:He; [|done].
  rewrite dict_get_set.
  destruct (String.eqb_spec (student_id r) id) as [Heq|]; [|done].
  assert (known_variant self r = false) as Hk by (apply Hrows; [left|done]).
  apply row_entry_unknown in Hk. congruence.
Qed.

(** The last row of a student with a known variant decides the entry. *)
Lemma grade_rows_last rows1 r rows2 acc res :
  row_entry self r = Some res →
  (∀ r', r' ∈ rows2 → student_id r' = student_id r →
         known_variant self r' = false) →
  dict_get (student_id r) (g_test_results (run acc (rows1 ++ r :: rows2)))
  = Some res.
Proof.
  intros He Hlast. rewrite foldl_app. cbn [foldl].
  rewrite grade_rows_untouched by done.
  rewrite grade_row_results, He. apply dict_get_set_eq.
Qed.

Lemma grade_rows_persist id rows acc :
  is_Some (dict_get id (g_test_results acc)) →
  is_Some (dict_get id (g_test_results (run acc rows))).
Proof.
  revert acc. induction rows as [|r rows IH]; intros acc Hs; [done|].
  cbn [foldl]. apply IH. rewrite grade_row_results.
  destruct (row_entry self r); [|done].
  rewrite dict_get_set. by destruct (String.eqb _ _).
Qed.

Lemma grade_rows_has_entry rows acc r :
  r ∈ rows → known_variant self r = true →
  is_Some (dict_get (student_id r) (g_test_results (run acc rows))).
Proof.
  intros Hin Hk. revert acc.
  induction rows as [|r0 rows IH]; intros acc; [by apply elem_of_nil in Hin|].
  cbn [foldl]. apply elem_of_cons in Hin as [<-|Hin]; [|by apply IH].
  apply grade_rows_persist. rewrite grade_row_results.
  apply row_entry_known in Hk as [res ->].
  by rewrite dict_get_set_eq.
Qed.

(** Every entry of the results is an earlier entry or the grading of a
    row. *)
Lemma grade_rows_origin rows acc e :
  e ∈ g_test_results (run acc rows) →
  e ∈ g_test_results acc
  ∨ ∃ r, r ∈ rows ∧ e.1 = student_id r ∧ row_entry self r = Some e.2.
Proof.
  revert acc. induction rows as [|r rows IH]; intros acc; [by left|].
  cbn [foldl]. intros [Hacc|(r' & Hin & Hid & He)]%IH.
  - rewrite grade_row_results in Hacc.
    destruct (row_entry self r) as [res|] eqn:Hr; [|by left].
    apply dict_set_elem in Hacc as [->|?]; [|by left].
    right. exists r. split_and!; [left|done|done].
  - right. exists r'. split_and!; [by right|done|done].
Qed.
End GradeRows.

Lemma correct_tests_fields self w rows :
  student_responses self = Some rows →
  test_results (correct_tests self w).1 = g_test_results (grade_rows self rows)
  ∧ question_analytics (correct_tests self w).1
    = g_question_stats (grade_rows self rows)
  ∧ ∃ ms, stdout (correct_tests self w).2
          = stdout w ++ g_stdout (grade_rows self rows) ++ ms.
Proof.
  intros Hr. unfold correct_tests. rewrite Hr. cbn.
  split_and!; [done|done|]. by eexists.
Qed.

(** C5. [correct_tests] goes through every row. A row whose variant is not
    in the registry adds the warning to the output and nothing to the
    results: results and tallies are those of the same run without these
    rows, every row with a known variant has its student in the results, and
    a student who appears only in rows of unknown variants has no other
    entry than the one (if any) held before the run. *)
Theorem correct_tests_skips_unknown_variants self w rows :
  student_responses self = Some rows →
  let known := List.filter (known_variant self) rows in
  let self' := (correct_tests self w).1 in
  let alone := (correct_tests (set_student_responses self (Some known)) w).1 in
  test_results self' = test_results alone
  ∧ question_analytics self' = question_analytics alone
  ∧ (∀ r, r ∈ rows → known_variant self r = false →
          MsgVariantNotFound (row_vid r) (student_id r)
          ∈ stdout (correct_tests self w).2)
  ∧ (∀ r, r ∈ rows → known_variant self r = true →
          is_Some (dict_get (student_id r) (test_results self')))
  ∧ (∀ id, (∀ r, r ∈ rows → student_id r = id → known_variant self r = false) →
           dict_get id (test_results self') = dict_get id (test_results self)).
Proof.
  intros Hr known self' alone.
  destruct (correct_tests_fields self w rows Hr) as (Ht & Hq & ms & Hout).
  destruct (correct_tests_fields (set_student_responses self (Some known))
              w known eq_refl) as (Ht' & Hq' & _).
  pose proof (grade_rows_filter self rows
                {| g_test_results := test_results self;
                   g_question_stats := ∅; g_stdout := [] |}
                {| g_test_results := test_results self;
                   g_question_stats := ∅; g_stdout := [] |}
                eq_refl eq_refl) as [Hf1 Hf2].
  split_and!.
  - unfold self', alone. rewrite Ht, Ht'. exact Hf1.
  - unfold self', alone. rewrite Hq, Hq'. exact Hf2.
  - intros r Hin Hk. rewrite Hout. unfold grade_rows.
    rewrite grade_rows_stdout. cbn [g_stdout app].
    apply elem_of_app. right. apply elem_of_app. left.
    apply (list_elem_of_fmap_2 warning_of).
    apply list_elem_of_In, filter_In. split; [by apply list_elem_of_In|].
    by rewrite Hk.
  - intros r Hin Hk. unfold self'. rewrite Ht.
    by apply grade_rows_has_entry.
  - intros id Hid. unfold self'. rewrite Ht. unfold grade_rows.
    by rewrite grade_rows_untouched.
Qed.

(** C5: an instance, on four rows of which dora names variant 9. *)
Lemma correct_tests_skips_unknown_variants_witness :
  let self := Demo.ready Demo.rows in
  let out := correct_tests self Demo.nowhere in
  MsgVariantNotFound "9" "dora" ∈ stdout out.2
  ∧ dict_get "dora" (test_results out.1) = None
  ∧ is_Some (dict_get "carl" (test_results out.1)).
Proof.
  destruct (correct_tests_skips_unknown_variants (Demo.ready Demo.rows)
              Demo.nowhere Demo.rows eq_refl)
    as (_ & _ & Hwarn & Hin & Hout).
  split_and!.
  - apply (Hwarn Demo.dora); [|vm_compute; reflexivity].
    do 2 apply list_elem_of_further. apply list_elem_of_here.
  - rewrite (Hout "dora"); [reflexivity|].
    intros r Hr Hid. unfold Demo.rows in Hr.
    repeat (apply elem_of_cons in Hr as [->|Hr]); try discriminate Hid;
      [vm_compute; reflexivity | by apply elem_of_nil in Hr].
  - apply (Hin Demo.carl); [|vm_compute; reflexivity].
    do 3 apply list_elem_of_further. apply list_elem_of_here.
Defined.

(** C10. When several rows carry the same student id, the entry of that
    student in the results is the grading of the last of them whose variant
    the registry knows, while the tally of every outcome for every sheet is
    the sum of the contributions of all the rows, the overwritten ones
    included. *)
Theorem correct_tests_duplicate_student self w rows rows1 r rows2 res :
  student_responses self = Some rows →
  rows = rows1 ++ r :: rows2 →
  row_entry self r = Some res →
  (∀ r', r' ∈ rows2 → student_id r' = student_id r →
         known_variant self r' = false) →
  let self' := (correct_tests self w).1 in
  dict_get (student_id r) (test_results self') = Some res
  ∧ ∀ o sheet,
      stats_count o (default fresh_stats (question_analytics self' !! sheet))
      = Zsum (map (row_sheet_count self o sheet) rows).
Proof.
  intros Hr -> He Hlast self'.
  destruct (correct_tests_fields self w _ Hr) as (Ht & Hq & _).
  unfold self'. rewrite Ht, Hq. unfold grade_rows. split.
  - by apply grade_rows_last.
  - intros o sheet.
    pose proof (grade_rows_sheet_tally self (rows1 ++ r :: rows2)
                  {| g_test_results := test_results self;
                     g_question_stats := ∅; g_stdout := [] |} o sheet) as Hs.
    unfold sheet_tally in Hs at 1 2. rewrite Hs.
    cbn [g_question_stats]. rewrite lookup_empty. cbn.
    by destruct o.
Qed.

(** C10: an instance, on two rows of anna around one of bob: the second row
    of anna (three correct answers) is the one kept, and sheet S1 counts two
    correct answers and one wrong, from the three rows. *)
Lemma correct_tests_duplicate_student_witness :
  let self := Demo.ready Demo.rows_twice in
  let self' := (correct_tests self Demo.nowhere).1 in
  (correct_count <$> dict_get "anna" (test_results self')) = Some 3%Z
  ∧ length (test_results self') = 2%nat
  ∧ stats_count Correct (default fresh_stats (question_analytics self' !! "S1"))
    = 2%Z
  ∧ stats_count Wrong (default fresh_stats (question_analytics self' !! "S1"))
    = 1%Z.
Proof.
  destruct (correct_tests_duplicate_student (Demo.ready Demo.rows_twice)
              Demo.nowhere Demo.rows_twice [Demo.anna; Demo.bob]
              Demo.anna_again []
              (row_result (Demo.ready Demo.rows_twice) Demo.anna_again
                 Demo.key1 Demo.sheet1))
    as [Hlast Hsum].
  - reflexivity.
  - reflexivity.
  - vm_compute. reflexivity.
  - intros r' Hr'. by apply elem_of_nil in Hr'.
  - split_and!.
    + change "anna" with (student_id Demo.anna_again). rewrite Hlast.
      vm_compute. reflexivity.
    + vm_compute. reflexivity.
    + rewrite Hsum. vm_compute. reflexivity.
    + rewrite Hsum. vm_compute. reflexivity.
Defined.

(** ** Psychometric analysis *)

Section AnalysisProps.
Context `{SciLib}.

Lemma same_graded_set_map (f : result → Q) tr1 tr2 :
  (∀ r1 r2, same_grades r1 r2 → f r1 = f r2) →
  same_graded_set tr1 tr2 →
  map f (map snd tr1) = map f (map snd tr2).
Proof.
  intros Hf. induction 1 as [|e1 e2 tr1 tr2 [_ He] _ IH]; [done|].
  simpl. by rewrite (Hf _ _ He), IH.
Qed.

Lemma same_graded_set_scores tr1 tr2 :
  same_graded_set tr1 tr2 →
  map (λ e : string * result, total_score e.2) tr1
  = map (λ e : string * result, total_score e.2) tr2.
Proof.
  induction 1 as [|e1 e2 tr1 tr2 [_ He] _ IH]; [done|].
  simpl. rewrite IH. f_equal. apply He.
Qed.

Lemma results_analysis_ext self1 self2 :
  passing_threshold self1 = passing_threshold self2 →
  same_graded_set (test_results self1) (test_results self2) →
  results_analysis self1 = results_analysis self2.
Proof.
  intros Hp Hs. unfold results_analysis. rewrite Hp.
  assert (Hlen : length (test_results self1) = length (test_results self2))
    by (by eapply Forall2_length).
  rewrite !(same_graded_set_map total_score _ _ ltac:(by intros ?? (?&?&?&?&?&?&?&?&?&?&?)) Hs).
  rewrite !(same_graded_set_map percentage _ _ ltac:(by intros ?? (?&?&?&?&?&?&?&?&?&?&?)) Hs).
  rewrite !(same_graded_set_map correct_score _ _ ltac:(by intros ?? (?&?&?&?&?&?&?&?&?&?&?)) Hs).
  rewrite !(same_graded_set_map wrong_score _ _ ltac:(by intros ?? (?&?&?&?&?&?&?&?&?&?&?)) Hs).
  rewrite !(same_graded_set_map blank_score _ _ ltac:(by intros ?? (?&?&?&?&?&?&?&?&?&?&?)) Hs).
  rewrite !(same_graded_set_map (λ r, inject_Z (correct_count r)) _ _
              ltac:(intros ?? (?&?&?&?&?&?&?&?&?&?&?); congruence) Hs).
  rewrite !(same_graded_set_map (λ r, inject_Z (wrong_count r)) _ _
              ltac:(intros ?? (?&?&?&?&?&?&?&?&?&?&?); congruence) Hs).
  rewrite !(same_graded_set_map (λ r, inject_Z (blank_count r)) _ _
              ltac:(intros ?? (?&?&?&?&?&?&?&?&?&?&?); congruence) Hs).
  done.
Qed.

Lemma student_metrics_same_grades scores r :
  same_grades (student_metrics scores r) r.
Proof. by repeat split. Qed.

Lemma with_student_analytics_same tr :
  same_graded_set (with_student_analytics tr) tr.
Proof.
  unfold with_student_analytics. generalize (map (λ e : string * result, total_score e.2) tr).
  intros scores. induction tr as [|e tr IH]; constructor; [|done].
  split; [done|]. apply student_metrics_same_grades.
Qed.

Lemma with_student_analytics_twice tr :
  with_student_analytics (with_student_analytics tr)
  = with_student_analytics tr.
Proof.
  unfold with_student_analytics at 1 3.
  rewrite (same_graded_set_scores _ _ (with_student_analytics_same tr)).
  unfold with_student_analytics. rewrite map_map. done.
Qed.

Lemma analyze_results_state self w :
  (analyze_results self w).1
  = match test_results self with
    | [] => self
    | _ :: _ =>
        set_test_results
          (set_analysis_results self (Some (results_analysis self)))
          (with_student_analytics (test_results self))
    end.
Proof.
  unfold analyze_results. cbn [test_results set_analysis_results].
  by destruct (test_results self).
Qed.

Lemma with_student_analytics_nil tr :
  with_student_analytics tr = [] ↔ tr = [].
Proof. unfold with_student_analytics. destruct tr; simpl; split; intros; congruence. Qed.

Lemma analyze_results_state_ne self w :
  test_results self ≠ [] →
  (analyze_results self w).1
  = set_test_results
      (set_analysis_results self (Some (results_analysis self)))
      (with_student_analytics (test_results self)).
Proof. rewrite analyze_results_state. by destruct (test_results self). Qed.

(** The state after a second [analyze_results] *)
Lemma analyze_results_twice self w w' :
  (analyze_results (analyze_results self w).1 w').1
  = (analyze_results self w).1.
Proof.
  destruct (decide (test_results self = [])) as [Et|Hne].
  { rewrite !analyze_results_state. rewrite Et. by rewrite Et. }
  rewrite (analyze_results_state_ne self) by done.
  set (s1 := set_test_results _ _).
  assert (Htr : test_results s1 = with_student_analytics (test_results self))
    by done.
  assert (Hne1 : test_results s1 ≠ []).
  { rewrite Htr. intros Hn. apply Hne. by apply with_student_analytics_nil. }
  rewrite (analyze_results_state_ne s1) by done.
  rewrite Htr, with_student_analytics_twice.
  rewrite (results_analysis_ext s1 self); [reflexivity|reflexivity|].
  rewrite Htr. apply with_student_analytics_same.
Qed.
End AnalysisProps.

Lemma question_metrics_twice tr sheet st :
  question_metrics tr sheet (question_metrics tr sheet st)
  = question_metrics tr sheet st.
Proof.
  unfold question_metrics.
  destruct (st_correct st + st_wrong st + st_blank st =? 0)%Z eqn:E.
  - by rewrite E.
  - cbn. by rewrite E.
Qed.

Lemma analyze_questions_state self w :
  (analyze_questions self w).1
  = if bool_decide (question_analytics self = ∅) then self
    else set_question_analytics self
           (map_imap (λ sheet st, Some (question_metrics (test_results self) sheet st))
              (question_analytics self)).
Proof. unfold analyze_questions. by case_bool_decide. Qed.

Lemma question_metrics_imap_empty tr (qa : gmap string qstats) :
  map_imap (λ sheet st, Some (question_metrics tr sheet st)) qa = ∅ ↔ qa = ∅.
Proof.
  split; [|by intros ->].
  intros He. apply map_empty. intros i.
  assert (Hi : map_imap (λ sheet st, Some (question_metrics tr sheet st)) qa !! i = None)
    by (by rewrite He).
  rewrite map_lookup_imap in Hi. by destruct (qa !! i).
Qed.

Lemma analyze_questions_twice self w w' :
  (analyze_questions (analyze_questions self w).1 w').1
  = (analyze_questions self w).1.
Proof.
  rewrite (analyze_questions_state self).
  case_bool_decide as He.
  { rewrite analyze_questions_state. by rewrite bool_decide_eq_true_2. }
  rewrite analyze_questions_state. cbn [question_analytics set_question_analytics test_results].
  rewrite bool_decide_eq_false_2 by (by rewrite question_metrics_imap_empty).
  unfold set_question_analytics. cbn. f_equal.
  apply map_eq. intros i. rewrite !map_lookup_imap.
  destruct (question_analytics self !! i); [|done]. cbn.
  by rewrite question_metrics_twice.
Qed.

Section Both.
Context `{SciLib}.

Lemma analyze_results_set_question_analytics self qa w :
  (analyze_results (set_question_analytics self qa) w).1
  = set_question_analytics (analyze_results self w).1 qa.
Proof.
  rewrite !analyze_results_state. cbn [test_results set_question_analytics].
  by destruct (test_results self).
Qed.

Lemma analyze_questions_test_results self w :
  test_results (analyze_questions self w).1 = test_results self.
Proof. rewrite analyze_questions_state. by case_bool_decide. Qed.

(** C9. Running [analyze_results] and then [analyze_questions] a second
    time, on the state the first run left, changes nothing: the state of
    the instance after the second run is the state after the first, hence
    so are [analysis_results], the z-score, percentile and stanine of
    every student and the metrics of every question. *)
Theorem analysis_idempotent self w0 w1 w2 w3 :
  let once := (analyze_questions (analyze_results self w0).1 w1).1 in
  let twice := (analyze_questions (analyze_results once w2).1 w3).1 in
  twice = once.
Proof.
  intros once twice. unfold twice, once.
  set (s0 := (analyze_results self w0).1).
  assert (Hs0 : ∀ w, (analyze_results s0 w).1 = s0)
    by (intros w; apply analyze_results_twice).
  assert (Hs1 : (analyze_results (analyze_questions s0 w1).1 w2).1
                = (analyze_questions s0 w1).1).
  { rewrite (analyze_questions_state s0). case_bool_decide; [done|].
    by rewrite analyze_results_set_question_analytics, Hs0. }
  rewrite Hs1. apply analyze_questions_twice.
Qed.
End Both.





Lemma percentage_of_ok total max :
  ∃ p, percentage_of total max = Ok p ∧ ((max <= 0)%Q → p = 0%Q).
Proof.
  unfold percentage_of, Qlt_bool. destruct (Qle_bool max 0) eqn:E; cbn.
  - by exists 0%Q.
  - assert (Hpos : (0 < max)%Q).
    { apply Qnot_le_lt. intros Hle. apply Qle_bool_iff in Hle. congruence. }
    unfold truediv.
    destruct (Qeq_bool max 0) eqn:E0; [apply Qeq_bool_iff in E0; lra|].
    cbn. eexists. split; [done|]. intros Hle. lra.
Qed.

Lemma percentage_of_pos total max :
  (0 < max)%Q → percentage_of total max = Ok (round2 (total / max * 100)).
Proof.
  intros Hpos. unfold percentage_of, Qlt_bool.
  destruct (Qle_bool max 0) eqn:E; [apply Qle_bool_iff in E; lra|].
  unfold truediv.
  destruct (Qeq_bool max 0) eqn:E0; [apply Qeq_bool_iff in E0; lra|].
  done.
Qed.


Lemma row_entry_percentage self r res :
  row_entry self r = Some res →
  percentage_of (total_score res) (max_possible_score res)
  = Ok (percentage res).
Proof.
  unfold row_entry. destruct (row_maps self r) as [[km qm]|]; [|done].
  intros [= <-]. cbn [fst snd].
  unfold row_result, result_of_tally.
  cbn [total_score max_possible_score percentage].
  by destruct (percentage_of_ok
                 (t_correct_score (row_tally self r km qm)
                  + t_wrong_score (row_tally self r km qm)
                  + t_blank_score (row_tally self r km qm))
                 (t_max_possible_score (row_tally self r km qm)))
    as (p & -> & _).
Qed.

Section DegenerateStatistics.
Context `{SciLib}.



End DegenerateStatistics.




(** ** The two rounded values in doubles *)

(** At a tie of the exact value the double decides.  With 1 correct
    answer out of 40 the difficulty is 0.975 exactly; the double computed
    for it lies just below, and is rounded to 0.97 where the exact value
    is rounded to 0.98.  With a total of 23 out of 160 the percentage is
    14.375 exactly; the double lies just below and is rounded to 14.37,
    the exact value to 14.38.  Both values of each pair are within 0.00501
    of the exact value and are numbers of hundredths up to [10^-12], as
    the statements of C6 and C7 say of the stored value. *)
Lemma rounded_ties_in_doubles :
  let fl := Binary64.round64 in
  let d64 := Binary64.round2 (fl (1 - fl (1 # 40))%Q) in
  let p64 := Binary64.round2 (fl (fl (23 # 160) * 100)%Q) in
  (d64 == fl (97 # 100)
   ∧ round2 (1 - (1 # 40)) == 98 # 100
   ∧ Qabs (d64 - (1 - (1 # 40))) <= 501 # 100000
   ∧ Qabs (d64 - inject_Z 97 / 100) <= 1 # 1000000000000
   ∧ p64 == fl (1437 # 100)
   ∧ round2 ((23 # 160) * 100) == 1438 # 100
   ∧ Qabs (p64 - (23 # 160) * 100) <= 501 # 100000
   ∧ Qabs (p64 - inject_Z 1437 / 100) <= 1 # 1000000000000)%Q.
Proof. vm_compute. split_and!; first [reflexivity | discriminate]. Qed.
(** ** The scores used in phase 2 *)

(** The details of a graded row are those of [detail_of]. *)
Lemma foldl_grade_column_details self r km qm qdm cols t :
  Forall (λ e : string * answer_detail,
            ∃ letter sheet, e.2 = detail_of self r qdm e.1 letter sheet)
    (t_student_answers t) →
  Forall (λ e : string * answer_detail,
            ∃ letter sheet, e.2 = detail_of self r qdm e.1 letter sheet)
    (t_student_answers (foldl (grade_column self r km qm qdm) t cols)).
Proof.
  revert t. induction cols as [|col cols IH]; intros t Ht; [done|].
  cbn [foldl]. apply IH. unfold grade_column.
  destruct (km !! col) as [letter|], (qm !! col) as [sheet|]; try done.
  cbn. apply Forall_forall. intros e [->|He]%dict_set_elem.
  - by exists letter, sheet.
  - by apply (proj1 (Forall_forall _ _) Ht).
Qed.

(** Without variants in [self.variants] no question data is found, and the
    points of every detail are the three default scores of the instance. *)
Lemma row_entry_points_default self r res col a :
  variants self = [] →
  row_entry self r = Some res →
  (col, a) ∈ res_answers res →
  ans_points a = default_correct_score self
  ∨ ans_points a = default_wrong_score self
  ∨ ans_points a = default_no_answer_score self.
Proof.
  intros Hv He Hin. unfold row_entry in He.
  destruct (row_maps self r) as [[km qm]|]; [|done].
  injection He as <-. cbn [fst snd] in Hin.
  change (res_answers (row_result self r km qm))
    with (t_student_answers (row_tally self r km qm)) in Hin.
  unfold row_tally in Hin.
  pose proof (foldl_grade_column_details self r km qm
                (question_data_map self (row_vid r)) (answer_cols r)
                (start_tally ∅) (Forall_nil_2 _)) as Hall.
  apply (proj1 (Forall_forall _ _) Hall) in Hin. cbn [fst snd] in Hin.
  destruct Hin as (letter & sheet & ->).
  unfold detail_of, question_data_map. rewrite Hv. cbn.
  rewrite lookup_empty. cbn.
  destruct (classify r col letter); auto.
Qed.

Section Phase2Props.
Context `{SciLib}.

Lemma analyze_results_answers self w id res :
  (id, res) ∈ test_results (analyze_results self w).1 →
  ∃ res0, (id, res0) ∈ test_results self
          ∧ res_answers res = res_answers res0.
Proof.
  rewrite analyze_results_state.
  destruct (test_results self) as [|e tr] eqn:Et.
  { rewrite Et. by intros ?%elem_of_nil. }
  cbn [test_results set_test_results]. rewrite <- Et.
  unfold with_student_analytics.
  intros (e0 & [= -> ->] & He0)%list_elem_of_fmap.
  exists e0.2. split; [by destruct e0|done].
Qed.

Lemma phase2_ready_fields env c keys maps :
  let gen := phase2_ready env c keys maps in
  variants gen = []
  ∧ test_results gen = []
  ∧ default_correct_score gen = 4%Q
  ∧ default_wrong_score gen = 0%Q
  ∧ default_no_answer_score gen = 1%Q.
Proof.
  unfold phase2_ready.
  pose proof (load_questions_from_excel_fields
                (set_mappings (init c) keys maps) (p2_load env))
    as (_ & Hv & _).
  pose proof (load_questions_from_excel_scores
                (set_mappings (init c) keys maps) (p2_load env))
    as (Ht & Hc & Hw & Hb).
  unfold load_student_answers_from_excel.
  destruct (p2_student_responses env); cbn;
    rewrite ?Hv, ?Ht, ?Hc, ?Hw, ?Hb; done.
Qed.

Lemma main_phase2_state env generator w :
  main_phase2 env = (Some generator, w) →
  ∃ c keys maps w1 w2 w3,
    generator
    = (analyze_questions
         (analyze_results
            (correct_tests (phase2_ready env c keys maps) w1).1 w2).1 w3).1.
Proof.
  unfold main_phase2, phase2_try, phase2_ready.
  destruct (p2_config_json env) as [c|]; [|done].
  destruct (negb (p2_student_answers_exists env)); [done|].
  destruct (p2_question_mappings_json env) as [[| keys maps | | |]|];
    try done.
  intros Hm. exists c, keys, maps. revert Hm. cbv zeta.
  destruct (load_questions_from_excel _ (p2_load env)) as [gen ms].
  cbn [fst].
  destruct (load_student_answers_from_excel gen _) as [gen1 ms1].
  cbn [fst].
  destruct (correct_tests gen1 _) as [gen2 w2] eqn:E2.
  destruct (analyze_results gen2 w2) as [gen3 w3] eqn:E3.
  destruct (analyze_questions gen3 w3) as [gen4 w4] eqn:E4.
  intros [= <- <-].
  exists (prints ms1 (prints ms {| files := ∅; stdout := [] |})), w2, w3.
  rewrite E2. cbn [fst]. rewrite E3. cbn [fst]. by rewrite E4.
Qed.

(** In phase 2 [self.variants] is never assigned and the scores of the
    instance are the literals of [__init__]: whatever the question bank
    and the configuration hold, every answer is worth 4, 0 or 1. *)
Theorem phase2_points_are_literals env generator w :
  main_phase2 env = (Some generator, w) →
  ∀ id res col a,
    (id, res) ∈ test_results generator →
    (col, a) ∈ res_answers res →
    ans_points a = 4%Q ∨ ans_points a = 0%Q ∨ ans_points a = 1%Q.
Proof.
  intros (c & keys & maps & w1 & w2 & w3 & ->)%main_phase2_state
    id res col a Hres Hans.
  destruct (phase2_ready_fields env c keys maps) as (Hv & Ht & Hc & Hw & Hb).
  set (gen := phase2_ready env c keys maps) in *.
  assert (Ht4 : ∀ x w, test_results (analyze_questions x w).1 = test_results x).
  { intros x w'. unfold analyze_questions. by case_bool_decide. }
  rewrite Ht4 in Hres.
  apply analyze_results_answers in Hres as (res0 & Hres0 & Heq).
  rewrite Heq in Hans. clear Heq res.
  assert (∃ r, row_entry gen r = Some res0) as [r Hr].
  { unfold correct_tests in Hres0.
    destruct (student_responses gen) as [rows|] eqn:Er.
    - cbn [fst test_results set_question_analytics set_test_results] in Hres0.
      apply grade_rows_origin in Hres0 as [Hold|(r & _ & _ & Hr)].
      + cbn in Hold. rewrite Ht in Hold. by apply elem_of_nil in Hold.
      + by exists r.
    - cbn [fst] in Hres0. rewrite Ht in Hres0. by apply elem_of_nil in Hres0. }
  destruct (row_entry_points_default gen r res0 col a Hv Hr Hans)
    as [->| [->| ->]]; auto.
Qed.
End Phase2Props.

(** C1. In phase 2, on a bank whose first sheet carries
    ["Punteggio corretta"] 10 and with a configured default of 5 for a
    correct answer, the correct answer of anna to question 1 (sheet S1,
    key A, answer "a") is worth 4: neither the score of the question nor
    the configured default. *)
Theorem phase2_ignores_question_scores :
  (generator ← (main_phase2 (Demo.env2 Demo.rows)).1;
   res ← dict_get "anna" (test_results generator);
   a ← dict_get "1" (res_answers res);
   Some (ans_sheet a, ans_correct a, ans_response a, ans_points a))
  = Some ("S1", "A", "a", 4%Q)
  ∧ (punteggio_corretta <$> head Demo.bank) = Some (Some 10%Q)
  ∧ cfg_default_correct_score Demo.cfg = Some 5%Q.
Proof. vm_compute. repeat split. Qed.

(** * Further properties *)

(** ** The index of the correct answer *)

Lemma index_where_Some {A} (p : A → bool) (l : list A) i :
  index_where p l = Some i →
  ∃ x, l !! i = Some x ∧ p x = true
       ∧ ∀ j y, (j < i)%nat → l !! j = Some y → p y = false.
Proof.
  revert i. induction l as [|x l IH]; intros i; [done|]. simpl.
  destruct (p x) eqn:Hx.
  - intros [= <-]. exists x. split_and!; [done|done|lia].
  - destruct (index_where p l) as [i'|]; [|done].
    intros [= <-]. destruct (IH i' eq_refl) as (y & Hy & Hpy & Hfirst).
    exists y. split_and!; [done|done|].
    intros [|j] z Hj Hz; [by injection Hz as <-|].
    apply (Hfirst j z); [lia|done].
Qed.

Lemma index_where_None {A} (p : A → bool) (l : list A) :
  index_where p l = None → Forall (λ x, p x = false) l.
Proof.
  induction l as [|x l IH]; [constructor|]. simpl.
  destruct (p x) eqn:Hx; [done|].
  destruct (index_where p l); [done|]. intros _. by constructor; [|apply IH].
Qed.

Lemma index_where_is_Some {A} (p : A → bool) (l : list A) x :
  x ∈ l → p x = true → is_Some (index_where p l).
Proof.
  intros Hin Hx. destruct (index_where p l) eqn:E; [by eexists|].
  apply index_where_None in E.
  rewrite Forall_forall in E. specialize (E x Hin). congruence.
Qed.

(** The index recorded for a question is that of its first answer marked
    correct; a question with no such answer gets index 0. *)
Theorem correct_index_first q :
  (∀ a, a ∈ answers q → is_correct a = true →
     ∃ b, answers q !! correct_index q = Some b ∧ is_correct b = true
          ∧ ∀ j c, (j < correct_index q)%nat → answers q !! j = Some c →
                   is_correct c = false)
  ∧ (Forall (λ a, is_correct a = false) (answers q) → correct_index q = 0%nat).
Proof.
  unfold correct_index. split.
  - intros a Hin Ha.
    destruct (index_where_is_Some is_correct (answers q) a Hin Ha) as [i Hi].
    rewrite Hi. by apply index_where_Some.
  - intros Hall. destruct (index_where is_correct (answers q)) as [i|] eqn:E;
      [|done].
    apply index_where_Some in E as (x & Hx & Hpx & _).
    rewrite Forall_forall in Hall.
    rewrite (Hall x) in Hpx; [done|]. by eapply list_elem_of_lookup_2.
Qed.


Lemma List_filter_perm {A} (p : A → bool) (l l' : list A) :
  l ≡ₚ l' → List.filter p l ≡ₚ List.filter p l'.
Proof.
  induction 1 as [|x l l' _ IH|x y l|l l' l'' _ IH1 _ IH2]; simpl.
  - done.
  - destruct (p x); by rewrite IH.
  - destruct (p x), (p y); try done. apply Permutation_swap.
  - by rewrite IH1.
Qed.

(** ** The candidates of [generate_test_variants] *)

Section MoreGeneration.
Context `{RandomSource}.

Lemma generate_loop_ids bank i count g :
  map variant_id (generate_loop bank i count g).1
  = map (λ k, str_int (Z.of_nat k + 1)) (seq i count).
Proof.
  revert i g. induction count as [|count IH]; intros i g; [done|].
  simpl. destruct (shuffle bank g) as [p g1].
  destruct (shuffle_answers p g1) as [qs g2].
  specialize (IH (S i) g2).
  destruct (generate_loop bank (S i) count g2) as [rest g3].
  simpl in *. by rewrite IH.
Qed.

(** The candidates carry the ids [str(1)], [str(2)], ... in the order of
    their generation, so no two candidates share an id. *)
Theorem generate_test_variants_ids self num_variants g :
  questions_data self ≠ [] →
  map variant_id (generate_test_variants self num_variants g).1.1
  = question_nums (Z.to_nat num_variants)
  ∧ NoDup (map variant_id (generate_test_variants self num_variants g).1.1).
Proof.
  intros Hne.
  assert (Hids : map variant_id (generate_test_variants self num_variants g).1.1
                 = question_nums (Z.to_nat num_variants)).
  { unfold generate_test_variants.
    destruct (questions_data self) as [|q0 bank]; [done|].
    pose proof (generate_loop_ids (q0 :: bank) 0 (Z.to_nat num_variants) g).
    by destruct (generate_loop (q0 :: bank) 0 (Z.to_nat num_variants) g). }
  split; [done|]. rewrite Hids. unfold question_nums.
  apply (NoDup_fmap_2_strong _); [|apply NoDup_seq].
  intros i j _ _ Hij. unfold str_int in Hij.
  apply (inj pretty) in Hij. lia.
Qed.

Hypothesis shuffle_perm :
  ∀ (A : Type) (l : list A) (g : Rng), (shuffle l g).1 ≡ₚ l.

(** Every question of a candidate is a question of the bank with the same
    text, sheet and scores, whose answers were rearranged: it has as many
    answers marked correct, so exactly one when the bank question has
    exactly one. *)
Theorem generate_test_variants_questions self num_variants g v q' :
  v ∈ (generate_test_variants self num_variants g).1.1 →
  q' ∈ questions v →
  ∃ q, q ∈ questions_data self
       ∧ q' = with_answers q (answers q')
       ∧ answers q' ≡ₚ answers q
       ∧ correct_answers q' = correct_answers q.
Proof.
  intros Hv Hq'.
  destruct (generate_test_variants_elem shuffle_perm self num_variants g v Hv)
    as (p & Hp & Hall).
  apply list_elem_of_lookup in Hq' as [i Hi].
  destruct (Forall2_lookup_r _ _ _ _ _ Hall Hi) as (q & Hq & a & -> & Ha).
  exists q. split_and!.
  - rewrite <- Hp. by eapply list_elem_of_lookup_2.
  - done.
  - done.
  - unfold correct_answers. cbn [answers with_answers].
    apply Permutation_length. by apply List_filter_perm.
Qed.
End MoreGeneration.


(** [generate_test_variants_ids] on the four candidates of the
    demonstration *)
Lemma generate_test_variants_ids_witness :
  map variant_id (generate_test_variants Demo.loaded 4 (0%nat : Rng)).1.1
  = ["1"; "2"; "3"; "4"]
  ∧ NoDup (map variant_id
             (generate_test_variants Demo.loaded 4 (0%nat : Rng)).1.1).
Proof.
  apply (generate_test_variants_ids (H := counter_source) Demo.loaded 4%Z
           (0%nat : @Rng counter_source)).
  vm_compute. discriminate.
Defined.

(** [generate_test_variants_questions] on the first question of the first
    candidate of the demonstration *)
Lemma generate_test_variants_questions_witness :
  let v := Demo.first_generated in
  let q' := default (Demo.mk_question "" "" [] None) (head (questions v)) in
  ∃ q, q ∈ questions_data Demo.loaded
       ∧ q' = with_answers q (answers q')
       ∧ answers q' ≡ₚ answers q
       ∧ correct_answers q' = correct_answers q.
Proof.
  intros v q'.
  apply (generate_test_variants_questions (H := counter_source)
           counter_source_perm Demo.loaded 4%Z (0%nat : @Rng counter_source)
           v q').
  - vm_compute. apply list_elem_of_here.
  - vm_compute. apply list_elem_of_here.
Defined.
(** ** Ranges *)

Lemma diff_count_range original order :
  (0 ≤ diff_count original order ≤ Z.of_nat (length original))%Z.
Proof.
  unfold diff_count.
  pose proof (filter_length_le (λ p : string * string, negb (String.eqb p.1 p.2))
                (zip original order)) as Hle.
  rewrite length_zip in Hle. lia.
Qed.




(** The mark on a scale of 10 of the summary spreadsheet is within an
    eighth of a tenth of the percentage, and between 0 and 10 for a
    percentage between 0 and 100. *)
Theorem rounded_percent_close percentage :
  (Qabs (rounded_percent percentage - percentage / 10) <= 1 # 8)%Q
  ∧ ((0 <= percentage <= 100)%Q → (0 <= rounded_percent percentage <= 10)%Q).
Proof.
  unfold rounded_percent.
  set (y := (percentage * 10 / 100 * 4)%Q).
  assert (Hy : (y == percentage * (2 # 5))%Q) by (unfold y; field).
  unfold Qdiv. change (/ 4)%Q with (1 # 4)%Q. change (/ 10)%Q with (1 # 10)%Q.
  split.
  - pose proof (round_half_even_bound y) as Hb.
    apply Qabs_Qle_condition in Hb. apply Qabs_Qle_condition.
    split; lra.
  - intros [H0 H100].
    assert (H1 : (0 ≤ round_half_even y)%Z)
      by (apply round_half_even_ge; change (inject_Z 0) with 0%Q; lra).
    assert (H2 : (round_half_even y ≤ 40)%Z)
      by (apply round_half_even_le; change (inject_Z 40) with 40%Q; lra).
    rewrite Zle_Qle in H1, H2.
    change (inject_Z 0) with 0%Q in H1. change (inject_Z 40) with 40%Q in H2.
    split; lra.
Qed.

(** ** The answer-key registry *)

Lemma str_int_inj i j :
  str_int (Z.of_nat i + 1) = str_int (Z.of_nat j + 1) → i = j.
Proof. unfold str_int. intros Hij%(inj pretty). lia. Qed.

Lemma NoDup_question_nums n : NoDup (question_nums n).
Proof.
  unfold question_nums. apply (NoDup_fmap_2_strong _); [|apply NoDup_seq].
  intros i j _ _. apply str_int_inj.
Qed.

Lemma elem_of_question_nums k n :
  k ∈ question_nums n ↔ ∃ i, (i < n)%nat ∧ k = str_int (Z.of_nat i + 1).
Proof.
  unfold question_nums. rewrite list_elem_of_fmap. split.
  - intros (i & -> & Hi%elem_of_seq). exists i. split; [lia|done].
  - intros (i & Hi & ->). exists i. split; [done|]. apply elem_of_seq. lia.
Qed.

Section Mappings.
Context (label_style : string).

Local Abbreviation step :=
  (λ (acc : gmap string string * gmap string string) (e : nat * question),
     let question_num := str_int (Z.of_nat e.1 + 1) in
     (<[question_num := key_label label_style (correct_index e.2)]> acc.1,
      <[question_num := sheet_name e.2]> acc.2)).

Lemma foldl_mappings qs n acc :
  let r := foldl step acc (imap (λ i q, ((n + i)%nat, q)) qs) in
  (∀ i q, qs !! i = Some q →
     r.1 !! str_int (Z.of_nat (n + i) + 1)
     = Some (key_label label_style (correct_index q))
     ∧ r.2 !! str_int (Z.of_nat (n + i) + 1) = Some (sheet_name q))
  ∧ (∀ k, (∀ i, (i < length qs)%nat → k ≠ str_int (Z.of_nat (n + i) + 1)) →
          r.1 !! k = acc.1 !! k ∧ r.2 !! k = acc.2 !! k).
Proof.
  revert n acc. induction qs as [|q0 qs IH]; intros n acc r.
  - split; [done|]. by intros k _.
  - set (acc1 := step acc ((n + 0)%nat, q0)).
    assert (Hr : r = foldl step acc1
                       (imap (λ i q, ((S n + i)%nat, q)) qs)).
    { unfold r. cbn [imap foldl].
      rewrite (imap_ext _ (λ i q, ((S n + i)%nat, q)))
        by (intros i q _; cbn; f_equal; lia).
      done. }
    rewrite Hr. clear Hr r.
    destruct (IH (S n) acc1) as [IH1 IH2]. split.
    + intros [|i] q Hq.
      * injection Hq as <-.
        destruct (IH2 (str_int (Z.of_nat (n + 0) + 1))) as [-> ->].
        { intros i _ Heq%str_int_inj. lia. }
        unfold acc1. cbn. by rewrite !lookup_insert_eq.
      * replace (n + S i)%nat with (S n + i)%nat by lia. by apply IH1.
    + intros k Hk. destruct (IH2 k) as [-> ->].
      { intros i Hi. replace (S n + i)%nat with (n + S i)%nat by lia.
        apply Hk. simpl. lia. }
      unfold acc1. cbn.
      rewrite !lookup_insert_ne; [done|..];
        intros Heq; apply (Hk 0%nat); simpl; (lia || done).
Qed.

Lemma variant_mappings_at v i q :
  questions v !! i = Some q →
  (variant_mappings label_style v).1 !! str_int (Z.of_nat i + 1)
  = Some (key_label label_style (correct_index q))
  ∧ (variant_mappings label_style v).2 !! str_int (Z.of_nat i + 1)
    = Some (sheet_name q).
Proof.
  intros Hq.
  destruct (foldl_mappings (questions v) 0 (∅, ∅)) as [H1 _].
  change (foldl _ _ _) with (variant_mappings label_style v) in H1.
  cbn [Nat.add] in H1. by apply H1.
Qed.

(** In the two dictionaries of a variant the question numbers are
    [str(1)], ..., [str(K)] for its [K] questions: number [i + 1] carries
    the label of the correct answer of the question at position [i], and
    its sheet; nothing else is a key, so both dictionaries have the same
    [K] keys. *)
Theorem variant_mappings_lookup v :
  let km := (variant_mappings label_style v).1 in
  let qm := (variant_mappings label_style v).2 in
  (∀ i q, questions v !! i = Some q →
     km !! str_int (Z.of_nat i + 1)
     = Some (key_label label_style (correct_index q))
     ∧ qm !! str_int (Z.of_nat i + 1) = Some (sheet_name q))
  ∧ (∀ k, is_Some (km !! k) ↔ k ∈ question_nums (length (questions v)))
  ∧ (∀ k, is_Some (qm !! k) ↔ k ∈ question_nums (length (questions v)))
  ∧ size km = length (questions v)
  ∧ size qm = length (questions v).
Proof.
  intros km qm.
  destruct (foldl_mappings (questions v) 0 (∅, ∅)) as [H1 H2].
  change (foldl _ _ _) with (variant_mappings label_style v) in H1, H2.
  fold km qm in H1, H2. cbn [fst snd Nat.add] in H1, H2.
  assert (Hk : ∀ k, is_Some (km !! k)
                    ↔ k ∈ question_nums (length (questions v))).
  { intros k. rewrite elem_of_question_nums. split.
    - intros Hs.
      destruct (decide (k ∈ question_nums (length (questions v))))
        as [Hin|Hnin]; [by apply elem_of_question_nums|].
      destruct (H2 k) as [Hnone _].
      { intros i Hi ->. apply Hnin, elem_of_question_nums. by exists i. }
      rewrite Hnone, lookup_empty in Hs. by destruct Hs.
    - intros (i & Hi & ->).
      destruct (lookup_lt_is_Some_2 (questions v) i Hi) as [q Hq].
      destruct (H1 i q Hq) as [-> _]. by eexists. }
  assert (Hq : ∀ k, is_Some (qm !! k)
                    ↔ k ∈ question_nums (length (questions v))).
  { intros k. rewrite elem_of_question_nums. split.
    - intros Hs.
      destruct (decide (k ∈ question_nums (length (questions v))))
        as [Hin|Hnin]; [by apply elem_of_question_nums|].
      destruct (H2 k) as [_ Hnone].
      { intros i Hi ->. apply Hnin, elem_of_question_nums. by exists i. }
      rewrite Hnone, lookup_empty in Hs. by destruct Hs.
    - intros (i & Hi & ->).
      destruct (lookup_lt_is_Some_2 (questions v) i Hi) as [q Hq].
      destruct (H1 i q Hq) as [_ ->]. by eexists. }
  assert (Hsize : ∀ m : gmap string string,
            (∀ k, is_Some (m !! k) ↔ k ∈ question_nums (length (questions v))) →
            size m = length (questions v)).
  { intros m Hm. rewrite <- size_dom.
    assert (dom m = list_to_set (question_nums (length (questions v)))) as ->.
    { apply set_eq. intros k.
      by rewrite elem_of_dom, Hm, elem_of_list_to_set. }
    rewrite size_list_to_set by apply NoDup_question_nums.
    unfold question_nums. by rewrite length_map, length_seq. }
  split_and!; [done|done|done|by apply Hsize|by apply Hsize].
Qed.
End Mappings.

Section Registry.
Context (self : TestGeneratorAnalyzer).

Local Abbreviation style :=
  (default "letters_upper" (cfg_choice_label_format (self_config self))).

Local Abbreviation record :=
  (λ (acc : gmap string (gmap string string)
            * gmap string (gmap string string) * list report_line)
     (v : variant),
     let '(key_mapping, question_mapping) := variant_mappings style v in
     (<[variant_id v := key_mapping]> acc.1.1,
      <[variant_id v := question_mapping]> acc.1.2,
      acc.2 ++ [variant_report_line v key_mapping question_mapping])).

Lemma foldl_record_other vs acc id :
  id ∉ map variant_id vs →
  (foldl record acc vs).1.1 !! id = acc.1.1 !! id
  ∧ (foldl record acc vs).1.2 !! id = acc.1.2 !! id.
Proof.
  revert acc. induction vs as [|v vs IH]; intros acc Hid; [done|].
  cbn [foldl]. destruct (IH (record acc v)) as [-> ->].
  { intros Hin. apply Hid. by right. }
  assert (variant_id v ≠ id) by (intros <-; apply Hid; by left).
  destruct (variant_mappings style v) as [km qm]. cbn.
  by rewrite !lookup_insert_ne.
Qed.

Lemma foldl_record_elem vs acc v :
  NoDup (map variant_id vs) → v ∈ vs →
  (foldl record acc vs).1.1 !! variant_id v
  = Some (variant_mappings style v).1
  ∧ (foldl record acc vs).1.2 !! variant_id v
    = Some (variant_mappings style v).2.
Proof.
  revert acc. induction vs as [|v0 vs IH]; intros acc Hnd Hin;
    [by apply elem_of_nil in Hin|].
  cbn [map] in Hnd. apply NoDup_cons in Hnd as [Hv0 Hnd].
  cbn [foldl]. apply elem_of_cons in Hin as [->|Hin]; [|by apply IH].
  destruct (foldl_record_other vs (record acc v0) (variant_id v0) Hv0)
    as [-> ->].
  destruct (variant_mappings style v0) as [km qm]. cbn.
  by rewrite !lookup_insert_eq.
Qed.

Lemma generate_answer_keys_report_state w :
  let out := generate_answer_keys_report self w in
  let acc := foldl record
               (variant_answer_keys self, variant_question_mappings self, [])
               (variants self) in
  variant_answer_keys out.1 = acc.1.1
  ∧ variant_question_mappings out.1 = acc.1.2
  ∧ variants out.1 = variants self
  ∧ files out.2 = <["question_mappings.json" := QuestionMappings acc.1.1 acc.1.2]>
                    (<["answer_keys_report.txt" := AnswerKeysReport acc.2]>
                       (files w))
  ∧ stdout out.2 = stdout w ++ [MsgAnswerKeysReportDone; MsgMappingsSaved].
Proof.
  unfold generate_answer_keys_report.
  destruct (foldl _ _ (variants self)) as [[keys maps] report_lines].
  done.
Qed.

(** [generate_answer_keys_report] writes to [question_mappings.json] the
    two registries it leaves in the instance; when no two variants share
    an id, the registries hold, under the id of every variant, the two
    dictionaries of that variant, and their entries under other ids are
    as before. *)
Theorem generate_answer_keys_report_registry w :
  NoDup (map variant_id (variants self)) →
  let out := generate_answer_keys_report self w in
  files out.2 !! "question_mappings.json"
  = Some (QuestionMappings (variant_answer_keys out.1)
            (variant_question_mappings out.1))
  ∧ (∀ v, v ∈ variants self →
          variant_answer_keys out.1 !! variant_id v
          = Some (variant_mappings style v).1
          ∧ variant_question_mappings out.1 !! variant_id v
            = Some (variant_mappings style v).2)
  ∧ (∀ id, id ∉ map variant_id (variants self) →
           variant_answer_keys out.1 !! id = variant_answer_keys self !! id
           ∧ variant_question_mappings out.1 !! id
             = variant_question_mappings self !! id).
Proof.
  intros Hnd out.
  destruct (generate_answer_keys_report_state w) as (Hk & Hm & _ & Hf & _).
  fold out in Hk, Hm, Hf. rewrite Hk, Hm, Hf. split_and!.
  - by rewrite lookup_insert_eq.
  - intros v Hv. by apply foldl_record_elem.
  - intros id Hid. by apply (foldl_record_other (variants self)).
Qed.
End Registry.

(** [generate_answer_keys_report_registry] on the two variants kept by the
    demonstration *)
Lemma generate_answer_keys_report_registry_witness :
  let self :=
    set_variants Demo.loaded
      (take 2 (sort_desc (score_of (original_questions_order Demo.loaded))
                 Demo.generated)) in
  let out := generate_answer_keys_report self Demo.nowhere in
  files out.2 !! "question_mappings.json"
  = Some (QuestionMappings (variant_answer_keys out.1)
            (variant_question_mappings out.1)).
Proof.
  intros self out.
  apply (generate_answer_keys_report_registry self Demo.nowhere).
  vm_compute. repeat constructor; intros Hin;
    repeat (apply elem_of_cons in Hin as [Hin|Hin]; [discriminate Hin|]);
    by apply elem_of_nil in Hin.
Defined.

(** ** The outcome of phase 1 *)




Section Phase1Outcome.
Context `{RandomSource} `{SciLib} `{Float64}.

Lemma generate_test_variants_nonempty self n g :
  questions_data self ≠ [] → (0 < n)%Z →
  (generate_test_variants self n g).1.1 ≠ [].
Proof.
  intros Hq Hn Hnil.
  pose proof (generate_test_variants_count self n g Hq) as Hlen.
  rewrite Hnil in Hlen. simpl in Hlen. lia.
Qed.

(** Phase 1 stops before it writes any file, and ends on the line of the
    error, when the configuration cannot be read, when [questions.xlsx]
    or the compiler is missing, and when the load of the questions failed
    after some question was read (the candidates cannot be scored: the
    division by the length of the original order raises). *)
Theorem phase1_stops_clean env g e :
  phase1_stops env = Some e →
  files (main_phase1 env g) = ∅
  ∧ last (stdout (main_phase1 env g)) = Some (MsgPhase1Error e).
Proof.
  unfold phase1_stops, main_phase1, phase1_try.
  destruct (p1_config_json env) as [c|e0]; [|by intros [= ->]].
  destruct (negb (p1_questions_xlsx_exists env)); [by intros [= <-]|].
  destruct (negb (p1_pdflatex_found env)); [by intros [= <-]|].
  destruct (p1_load env) as [qs|[|q partial]] eqn:El; try done.
  set (n := default 10%Z _).
  destruct (0 <? n)%Z eqn:En; [|done]. intros [= <-].
  apply Z.ltb_lt in En.
  cbn [load_questions_from_excel].
  set (gen := set_questions_data (init c) (q :: partial)).
  change (self_config gen) with c. fold n.
  pose proof (generate_test_variants_nonempty gen n g
                ltac:(done) En) as Hne.
  destruct (generate_test_variants gen n g) as [[pot g'] ms].
  cbn [fst] in Hne.
  destruct (evaluate_randomness_of_variants gen pot) as [metrics ms'].
  destruct pot as [|v pot]; [done|].
  cbn. split; [done|].
  change (MsgLoadError :: ?l ++ ?k) with ((MsgLoadError :: l) ++ k).
  by rewrite last_snoc.
Qed.

Hypothesis shuffle_perm :
  ∀ (A : Type) (l : list A) (g : Rng), (shuffle l g).1 ≡ₚ l.

End Phase1Outcome.

(** [phase1_stops_clean] on a run without [questions.xlsx] *)
Lemma phase1_stops_clean_witness :
  let env :=
    {| p1_config_json := Ok Demo.cfg;
       p1_questions_xlsx_exists := false;
       p1_pdflatex_found := true;
       p1_load := Loaded Demo.bank;
       p1_generate_latex := λ _, Ok ();
       p1_pdflatex := λ _, true |} in
  files (main_phase1 env (0%nat : Rng)) = ∅
  ∧ last (stdout (main_phase1 env (0%nat : Rng)))
    = Some (MsgPhase1Error FileNotFoundError).
Proof.
  intros env.
  apply (phase1_stops_clean (H := counter_source) (H0 := scilib) env
           (0%nat : @Rng counter_source) FileNotFoundError).
  reflexivity.
Defined.



(** When the document of a variant cannot be built the exception reaches
    [main]: phase 1 ends on the line of the error and writes neither the
    registry nor the template. *)
Lemma phase1_latex_failure :
  let env :=
    {| p1_config_json := Ok Demo.cfg;
       p1_questions_xlsx_exists := true;
       p1_pdflatex_found := true;
       p1_load := Loaded Demo.bank_two_columns;
       p1_generate_latex := Demo.multicols_raises;
       p1_pdflatex := λ _, true |} in
  let w := main_phase1 env (0%nat : Rng) in
  files w !! "question_mappings.json" = None
  ∧ files w !! "student_answers.xlsx" = None
  ∧ last (stdout w) = Some (MsgPhase1Error TypeError).
Proof. vm_compute. split_and!; reflexivity. Qed.
(** ** Scores of a graded row *)

Lemma grade_column_weighted self r km qm t col :
  tally_weighted (default_correct_score self) (default_wrong_score self)
    (default_no_answer_score self) t →
  tally_weighted (default_correct_score self) (default_wrong_score self)
    (default_no_answer_score self) (grade_column self r km qm ∅ t col).
Proof.
  intros (Hc & Hw & Hb & Hm). unfold grade_column.
  destruct (km !! col) as [letter|], (qm !! col) as [sheet|]; try done.
  rewrite lookup_empty. unfold tally_weighted, punto_corretta, punto_errata,
    punto_non_data. cbn.
  destruct (classify r col letter); cbn;
    rewrite ?inject_Z_plus, ?Hc, ?Hw, ?Hb, ?Hm, ?inject_Z_plus;
    change (inject_Z 1) with 1%Q; split_and!; ring.
Qed.

Lemma foldl_grade_column_weighted self r km qm cols t :
  tally_weighted (default_correct_score self) (default_wrong_score self)
    (default_no_answer_score self) t →
  tally_weighted (default_correct_score self) (default_wrong_score self)
    (default_no_answer_score self)
    (foldl (grade_column self r km qm ∅) t cols).
Proof.
  revert t. induction cols as [|col cols IH]; intros t Ht; [done|].
  cbn [foldl]. by apply IH, grade_column_weighted.
Qed.

Lemma question_data_map_no_variants self vid :
  variants self = [] → question_data_map self vid = ∅.
Proof. intros Hv. unfold question_data_map. by rewrite Hv. Qed.

Lemma row_tally_counts self r km qm o :
  (0 ≤ tally_count o (row_tally self r km qm))%Z.
Proof.
  unfold row_tally. rewrite foldl_grade_column_count.
  unfold count_cols. destruct o; cbn; lia.
Qed.

Lemma row_entry_weighted self r res :
  variants self = [] →
  row_entry self r = Some res →
  weighted_by (default_correct_score self) (default_wrong_score self)
    (default_no_answer_score self) res
  ∧ (0 ≤ correct_count res ∧ 0 ≤ wrong_count res ∧ 0 ≤ blank_count res)%Z.
Proof.
  intros Hv He. unfold row_entry in He.
  destruct (row_maps self r) as [[km qm]|]; [|done].
  injection He as <-. cbn [fst snd]. split.
  - pose proof (foldl_grade_column_weighted self r km qm (answer_cols r)
                  (start_tally ∅)) as Hw.
    destruct Hw as (Hc & Hw & Hb & Hm).
    { unfold tally_weighted, start_tally.
      cbn [t_correct_score t_wrong_score t_blank_score t_max_possible_score
           t_correct_count t_wrong_count t_blank_count].
      change (0 + 0 + 0)%Z with 0%Z. change (inject_Z 0) with 0%Q.
      split_and!; ring. }
    unfold row_result, row_tally.
    rewrite (question_data_map_no_variants self _ Hv).
    unfold weighted_by. cbn. split_and!; try done.
    by rewrite Hc, Hw, Hb.
  - pose proof (row_tally_counts self r km qm Correct).
    pose proof (row_tally_counts self r km qm Wrong).
    pose proof (row_tally_counts self r km qm Blank).
    done.
Qed.

(** When [self.variants] is empty (as in phase 2) every student graded by
    [correct_tests] has scores that are the counts weighted by the three
    default scores of the instance: the score of the correct answers is the
    default times their number, and likewise for wrong and blank answers;
    the maximum is the default for a correct answer times the number of
    answers graded; the total is the sum of the three scores. *)
Theorem correct_tests_weighted self w id res :
  variants self = [] →
  (id, res) ∈ test_results (correct_tests self w).1 →
  (id, res) ∈ test_results self
  ∨ weighted_by (default_correct_score self) (default_wrong_score self)
      (default_no_answer_score self) res.
Proof.
  intros Hv Hin. unfold correct_tests in Hin.
  destruct (student_responses self) as [rows|]; [|by left].
  cbn [fst test_results set_question_analytics set_test_results] in Hin.
  apply grade_rows_origin in Hin as [Hold|(r & _ & _ & Hr)]; [by left|].
  right. by apply (row_entry_weighted self r).
Qed.

(** [correct_tests_weighted] on carl in the demonstration: 2 correct
    answers at 4 points, out of 3 answers *)
Lemma correct_tests_weighted_witness :
  ∃ res,
    dict_get "carl"
      (test_results (correct_tests (Demo.ready Demo.rows) Demo.nowhere).1)
    = Some res
    ∧ weighted_by 4 0 1 res.
Proof.
  assert (is_Some (dict_get "carl"
            (test_results
               (correct_tests (Demo.ready Demo.rows) Demo.nowhere).1)))
    as [res Hres] by (vm_compute; eexists; reflexivity).
  exists res. split; [exact Hres|].
  destruct (correct_tests_weighted (Demo.ready Demo.rows) Demo.nowhere
              "carl" res) as [Hold|Hw].
  - reflexivity.
  - by apply dict_get_elem.
  - vm_compute in Hold. by apply elem_of_nil in Hold.
  - exact Hw.
Defined.

(** ** The scores of a question, with the variants in memory *)

Lemma foldl_question_data_other qs (m : gmap string question) s :
  s ∉ map sheet_name qs →
  foldl (λ m q, <[sheet_name q := q]> m) m qs !! s = m !! s.
Proof.
  revert m. induction qs as [|q qs IH]; intros m Hs; [done|].
  cbn [foldl]. rewrite IH by (intros Hin; apply Hs; by right).
  apply lookup_insert_ne. intros <-. apply Hs. by left.
Qed.

Lemma foldl_question_data_elem qs (m : gmap string question) q :
  NoDup (map sheet_name qs) → q ∈ qs →
  foldl (λ m q, <[sheet_name q := q]> m) m qs !! sheet_name q = Some q.
Proof.
  revert m. induction qs as [|q0 qs IH]; intros m Hnd Hin;
    [by apply elem_of_nil in Hin|].
  cbn [map] in Hnd. apply NoDup_cons in Hnd as [Hq0 Hnd].
  cbn [foldl]. apply elem_of_cons in Hin as [->|Hin]; [|by apply IH].
  rewrite foldl_question_data_other by done. apply lookup_insert_eq.
Qed.

Lemma filter_first_variant vid l1 v l2 :
  variant_id v = vid →
  (∀ v', v' ∈ l1 → variant_id v' ≠ vid) →
  List.filter (λ v, String.eqb (variant_id v) vid) (l1 ++ v :: l2)
  = v :: List.filter (λ v, String.eqb (variant_id v) vid) l2.
Proof.
  intros Hv Hl1. induction l1 as [|v0 l1 IH]; simpl.
  - by rewrite (proj2 (String.eqb_eq _ _) Hv).
  - rewrite (proj2 (String.eqb_neq _ _)) by (apply Hl1; by left).
    apply IH. intros v' Hv'. apply Hl1. by right.
Qed.

(** When [self.variants] holds the variant of a submission (the two phases
    run on one instance), the scores of a question are its own where the
    bank gives them, and the defaults of the instance where it does not. *)
Theorem question_scores_used self vid l1 v l2 q :
  variants self = l1 ++ v :: l2 →
  variant_id v = vid →
  (∀ v', v' ∈ l1 → variant_id v' ≠ vid) →
  NoDup (map sheet_name (questions v)) →
  q ∈ questions v →
  let question_data := question_data_map self vid !! sheet_name q in
  punto_corretta self question_data
  = default (default_correct_score self) (punteggio_corretta q)
  ∧ punto_errata self question_data
    = default (default_wrong_score self) (punteggio_errata q)
  ∧ punto_non_data self question_data
    = default (default_no_answer_score self) (punteggio_non_data q).
Proof.
  intros Hvs Hv Hl1 Hnd Hq question_data.
  assert (question_data = Some q) as ->; [|done].
  unfold question_data, question_data_map.
  rewrite Hvs, (filter_first_variant vid l1 v l2 Hv Hl1).
  by apply foldl_question_data_elem.
Qed.

(** [question_scores_used] on the first question of the demonstration bank
    (10 points for a correct answer), with the variant in memory *)
Lemma question_scores_used_witness :
  let self := set_variants (Demo.ready Demo.rows) [Demo.plain_variant] in
  let q := Demo.mk_question "Q1" "S1" ["u"; "v"] (Some 10%Q) in
  punto_corretta self (question_data_map self "1" !! sheet_name q) = 10%Q.
Proof.
  intros self q.
  destruct (question_scores_used self "1" [] Demo.plain_variant [] q)
    as (Hc & _ & _).
  - reflexivity.
  - reflexivity.
  - intros v' Hv'. by apply elem_of_nil in Hv'.
  - vm_compute. repeat constructor; intros Hin;
      repeat (apply elem_of_cons in Hin as [Hin|Hin]; [discriminate Hin|]);
      by apply elem_of_nil in Hin.
  - apply list_elem_of_here.
  - exact Hc.
Defined.

(** ** How the reports read an answer back *)

Lemma row_result_answer self r km qm col letter sheet :
  col ∈ answer_cols r → km !! col = Some letter → qm !! col = Some sheet →
  dict_get col (res_answers (row_result self r km qm))
  = Some (detail_of self r (question_data_map self (row_vid r)) col letter sheet).
Proof.
  intros Hin Hk Hq.
  change (res_answers (row_result self r km qm))
    with (t_student_answers (row_tally self r km qm)).
  unfold row_tally. rewrite foldl_grade_column_answers, Hk, Hq.
  by rewrite bool_decide_eq_true_2.
Qed.

(** The detailed report and the item analysis read the outcome of an answer
    back from the recorded response. They agree with the grader on every
    answer except the word "blank" itself: graded as an answer (it is not
    empty), it is reported as not given and never counts as correct in the
    item analysis. *)
Theorem recorded_answer_read_back self r km qm col letter sheet :
  col ∈ answer_cols r → km !! col = Some letter → qm !! col = Some sheet →
  ∃ a,
    dict_get col (res_answers (row_result self r km qm)) = Some a
    ∧ (student_ans r col ≠ "blank" →
       report_status a = classify r col letter
       ∧ (answered_correctly sheet a = true ↔ classify r col letter = Correct))
    ∧ (student_ans r col = "blank" →
       classify r col letter ≠ Blank
       ∧ report_status a = Blank
       ∧ answered_correctly sheet a = false).
Proof.
  intros Hin Hk Hq. eexists. split; [by apply row_result_answer|].
  assert (student_ans r col = "blank" → is_blank r col = false) as Hword.
  { unfold is_blank, student_ans.
    destruct (row_get r col) as [[|s]|]; cbn [str_cell]; try done.
    intros Hs. by rewrite <- strip_blank, Hs. }
  unfold report_status, answered_correctly, detail_of.
  cbn [ans_sheet ans_response ans_correct].
  rewrite classify_cases. unfold matches_key. rewrite String.eqb_refl.
  destruct (is_blank r col) eqn:Hbl.
  - split; [by split|]. intros Hb. by specialize (Hword Hb).
  - destruct (String.eqb (upper (student_ans r col)) (upper letter)) eqn:Hup;
      cbn [andb negb]; rewrite ?Hup.
    + split.
      * intros Hnb. apply String.eqb_neq in Hnb. rewrite Hnb.
        by rewrite ?Hup.
      * intros Hb. rewrite Hb. by split_and!.
    + split.
      * intros Hnb. apply String.eqb_neq in Hnb. rewrite Hnb.
        rewrite ?Hup. split; [done|]. by rewrite ?andb_false_r.
      * intros Hb. rewrite Hb. by split_and!.
Qed.

(** [recorded_answer_read_back] on the first answer of anna *)
Lemma recorded_answer_read_back_witness :
  ∃ a,
    dict_get "1"
      (res_answers (row_result (Demo.ready Demo.rows) Demo.anna
                      Demo.key1 Demo.sheet1))
    = Some a
    ∧ report_status a = Correct
    ∧ answered_correctly "S1" a = true.
Proof.
  destruct (recorded_answer_read_back (Demo.ready Demo.rows) Demo.anna
              Demo.key1 Demo.sheet1 "1" "A" "S1")
    as (a & Ha & Hread & _).
  - vm_compute. apply list_elem_of_here.
  - vm_compute. reflexivity.
  - vm_compute. reflexivity.
  - exists a. split; [exact Ha|].
    destruct Hread as [Hs Hc]; [vm_compute; discriminate|].
    split; [rewrite Hs; vm_compute; reflexivity|].
    apply Hc. vm_compute. reflexivity.
Defined.

(** ** The summary of [analyze_results] *)





Section Summary.
Context `{SciLib}.


(** [analyze_results] adds the three metrics and touches nothing else:
    the same students in the same order with the same grades and answer
    details, the same tallies of the questions, the same registry. *)
Theorem analyze_results_keeps_grades self w :
  let self' := (analyze_results self w).1 in
  same_graded_set (test_results self') (test_results self)
  ∧ map fst (test_results self') = map fst (test_results self)
  ∧ question_analytics self' = question_analytics self
  ∧ variant_answer_keys self' = variant_answer_keys self
  ∧ variant_question_mappings self' = variant_question_mappings self
  ∧ (test_results self ≠ [] →
     Forall (λ e : string * result,
               is_Some (z_score e.2) ∧ is_Some (percentile e.2)
               ∧ is_Some (stanine e.2))
       (test_results self')).
Proof.
  intros self'. unfold self'. rewrite analyze_results_state.
  destruct (test_results self) as [|e tr] eqn:Et.
  { rewrite Et. split_and!; try done. constructor. }
  cbn [test_results set_test_results question_analytics variant_answer_keys
       variant_question_mappings set_analysis_results].
  rewrite <- Et. split_and!; try done.
  - apply with_student_analytics_same.
  - unfold with_student_analytics. rewrite map_map. done.
  - intros _. unfold with_student_analytics. apply Forall_forall.
    intros e0 (e1 & -> & _)%list_elem_of_fmap. cbn. by split_and!.
Qed.
End Summary.


(** ** The bands *)

Lemma Qlt_bool_mono t1 t2 b :
  (t1 <= t2)%Q → Qlt_bool t2 b = true → Qlt_bool t1 b = true.
Proof.
  unfold Qlt_bool. intros Hle Hb.
  apply negb_true_iff in Hb. apply negb_true_iff.
  destruct (Qle_bool b t1) eqn:E; [|done].
  apply Qle_bool_iff in E.
  assert (b <= t2)%Q as Hbt by lra.
  apply Qle_bool_iff in Hbt. congruence.
Qed.

(** The band of a student is one of the nine of [stanine_bands], and a
    higher total never gets a lower band, whatever the boundaries. *)
Theorem stanine_of_mono t1 t2 boundaries :
  (t1 <= t2)%Q →
  stanine_of t1 boundaries ∈ stanine_bands
  ∧ (stanine_rank (stanine_of t1 boundaries)
     ≤ stanine_rank (stanine_of t2 boundaries))%nat.
Proof.
  intros Hle. unfold stanine_of.
  pose proof (λ i, Qlt_bool_mono t1 t2 (default 0%Q (boundaries !! i)) Hle)
    as Hm.
  split.
  - unfold stanine_bands.
    repeat (match goal with
            | |- context [if ?b then _ else _] => destruct b
            end; [repeat constructor|]).
    repeat constructor.
  - repeat
      (match goal with
       | |- context [if Qlt_bool t1 ?b then _ else _] =>
           destruct (Qlt_bool t1 b) eqn:?;
           destruct (Qlt_bool t2 b) eqn:?;
           [ try (vm_compute; lia)
           | repeat (match goal with
                     | |- context [if ?c then _ else _] => destruct c
                     end); vm_compute; lia
           | exfalso;
             match goal with
             | H1 : Qlt_bool t1 b = false, H2 : Qlt_bool t2 b = true |- _ =>
                 rewrite (Hm _ H2) in H1; discriminate H1
             end
           | ]
       end).
    vm_compute. lia.
Qed.

(** [stanine_of_mono] on two totals and unsorted boundaries *)
Lemma stanine_of_mono_witness :
  (stanine_rank (stanine_of 3 [5; 2; 9; 4; 6; 7; 8; 1]%Q)
   ≤ stanine_rank (stanine_of 6 [5; 2; 9; 4; 6; 7; 8; 1]%Q))%nat.
Proof.
  apply (stanine_of_mono 3 6 [5; 2; 9; 4; 6; 7; 8; 1]%Q).
  vm_compute. discriminate.
Defined.

(** ** The tallies and the indices of the questions *)

Lemma count_outcome_sound o st :
  (0 ≤ st_correct st ∧ 0 ≤ st_wrong st ∧ 0 ≤ st_blank st)%Z →
  sound_stats (count_outcome o st).
Proof. intros (?&?&?). unfold sound_stats. destruct o; cbn; lia. Qed.

Lemma grade_column_sound self r km qm qdm t col :
  map_Forall (λ _, sound_stats) (t_question_stats t) →
  map_Forall (λ _, sound_stats)
    (t_question_stats (grade_column self r km qm qdm t col)).
Proof.
  intros Hs. unfold grade_column.
  destruct (km !! col) as [letter|], (qm !! col) as [sheet|]; try done.
  cbn [t_question_stats]. unfold tally_outcome.
  apply map_Forall_insert_2; [|done].
  apply count_outcome_sound.
  destruct (t_question_stats t !! sheet) as [st|] eqn:E; cbn [default].
  - destruct (Hs sheet st E) as (?&?&?&?). done.
  - cbn. lia.
Qed.

Lemma foldl_grade_column_sound self r km qm qdm cols t :
  map_Forall (λ _, sound_stats) (t_question_stats t) →
  map_Forall (λ _, sound_stats)
    (t_question_stats (foldl (grade_column self r km qm qdm) t cols)).
Proof.
  revert t. induction cols as [|col cols IH]; intros t Ht; [done|].
  cbn [foldl]. by apply IH, grade_column_sound.
Qed.

Lemma grade_rows_sound self rows acc :
  map_Forall (λ _, sound_stats) (g_question_stats acc) →
  map_Forall (λ _, sound_stats)
    (g_question_stats (foldl (grade_row self) acc rows)).
Proof.
  revert acc. induction rows as [|r rows IH]; intros acc Hacc; [done|].
  cbn [foldl]. apply IH. unfold grade_row.
  destruct (variant_answer_keys self !! row_vid r) as [km|]; [|done].
  destruct (variant_question_mappings self !! row_vid r) as [qm|]; [|done].
  cbn [g_question_stats]. by apply foldl_grade_column_sound.
Qed.

(** The tallies that [correct_tests] leaves for the questions start from
    nothing and count answers: in the entry of a sheet no count is
    negative and at least one answer is counted. *)
Theorem correct_tests_sound_stats self w sheet st :
  student_responses self ≠ None →
  question_analytics (correct_tests self w).1 !! sheet = Some st →
  sound_stats st.
Proof.
  intros Hr Hst. unfold correct_tests in Hst.
  destruct (student_responses self) as [rows|]; [|done].
  cbn [fst question_analytics set_question_analytics] in Hst.
  refine (grade_rows_sound self rows _ _ sheet st Hst).
  cbn [g_question_stats]. apply map_Forall_empty.
Qed.

(** [correct_tests_sound_stats] on sheet S1 of the demonstration *)
Lemma correct_tests_sound_stats_witness :
  sound_stats Demo.s1_stats.
Proof.
  apply (correct_tests_sound_stats (Demo.ready Demo.rows) Demo.nowhere "S1").
  - vm_compute. discriminate.
  - vm_compute. reflexivity.
Defined.

Lemma group_size_pos n : (1 ≤ group_size n)%Z.
Proof. unfold group_size. lia. Qed.

Lemma group_correct_range sheet group :
  (0 ≤ group_correct sheet group ≤ Z.of_nat (length group))%Z.
Proof.
  unfold group_correct.
  pose proof (filter_length_le
                (λ e : string * result,
                   existsb (λ a : string * answer_detail,
                              answered_correctly sheet a.2)
                     (res_answers e.2)) group).
  lia.
Qed.

Lemma slice_last_length {A} (k : Z) (l : list A) :
  (1 ≤ k)%Z → (Z.of_nat (length (slice_last k l)) ≤ k)%Z.
Proof. intros Hk. unfold slice_last. rewrite length_drop. lia. Qed.

Lemma slice_to_length_le {A} (k : Z) (l : list A) :
  (1 ≤ k)%Z → (Z.of_nat (length (slice_to k l)) ≤ k)%Z.
Proof.
  intros Hk. rewrite slice_to_length. unfold slice_len.
  rewrite (proj2 (Z.leb_le 0 k)) by lia. lia.
Qed.

Lemma discrimination_index_range tr sheet :
  (-1 <= discrimination_index tr sheet <= 1)%Q.
Proof.
  unfold discrimination_index.
  set (scores := sort_desc _ tr). set (k := group_size (length scores)).
  pose proof (group_size_pos (length scores)) as Hk. fold k in Hk.
  pose proof (group_correct_range sheet (slice_to k scores)).
  pose proof (group_correct_range sheet (slice_last k scores)).
  pose proof (slice_to_length_le k scores Hk).
  pose proof (slice_last_length k scores Hk).
  destruct (unit_fraction (group_correct sheet (slice_to k scores)) k);
    [lia|lia|].
  destruct (unit_fraction (group_correct sheet (slice_last k scores)) k);
    [lia|lia|].
  split; lra.
Qed.

Lemma question_metrics_ranges tr sheet st :
  sound_stats st →
  let st' := question_metrics tr sheet st in
  st_correct st' = st_correct st
  ∧ st_wrong st' = st_wrong st
  ∧ st_blank st' = st_blank st
  ∧ st_total_answers st'
    = Some (st_correct st + st_wrong st + st_blank st)%Z
  ∧ ∃ d k, st_difficulty st' = Some d ∧ (0 <= d <= 1)%Q
           ∧ st_discrimination st' = Some k ∧ (-1 <= k <= 1)%Q.
Proof.
  intros (Hc & Hw & Hb & Htot) st'. unfold st', question_metrics.
  rewrite (proj2 (Z.eqb_neq _ 0)) by lia. cbn.
  split_and!; try done. do 2 eexists.
  split; [reflexivity|]. split; [|split; [reflexivity|]].
  - destruct (unit_fraction (st_correct st)
                (st_correct st + st_wrong st + st_blank st)) as [H0 H1];
      [lia|lia|].
    change 0%Q with (inject_Z 0). change 1%Q with (inject_Z 1).
    apply round2_range. change (inject_Z 0) with 0%Q.
    change (inject_Z 1) with 1%Q. unfold difficulty_index. split; lra.
  - change (-1)%Q with (inject_Z (-1)). change 1%Q with (inject_Z 1).
    apply round2_range. apply (discrimination_index_range tr sheet).
Qed.

(** On counted tallies [analyze_questions] keeps the sheets and, for each,
    the three counts as they are; it records as the number of answers the
    sum of the three counts, a difficulty between 0 and 1 and a
    discrimination between -1 and 1.  A sheet without a tally gets none. *)
Theorem analyze_questions_indices self w sheet :
  map_Forall (λ _, sound_stats) (question_analytics self) →
  match question_analytics self !! sheet with
  | None => question_analytics (analyze_questions self w).1 !! sheet = None
  | Some st0 =>
      ∃ st d k,
        question_analytics (analyze_questions self w).1 !! sheet = Some st
        ∧ st_correct st = st_correct st0
        ∧ st_wrong st = st_wrong st0
        ∧ st_blank st = st_blank st0
        ∧ st_total_answers st
          = Some (st_correct st0 + st_wrong st0 + st_blank st0)%Z
        ∧ st_difficulty st = Some d ∧ (0 <= d <= 1)%Q
        ∧ st_discrimination st = Some k ∧ (-1 <= k <= 1)%Q
  end.
Proof.
  intros Hs. rewrite analyze_questions_state. case_bool_decide as He.
  { rewrite He, lookup_empty. done. }
  cbn [question_analytics set_question_analytics].
  rewrite map_lookup_imap.
  destruct (question_analytics self !! sheet) as [st0|] eqn:E; [|done].
  cbn.
  destruct (question_metrics_ranges (test_results self) sheet st0
              (Hs sheet st0 E))
    as (Hc & Hw & Hb & Ht & d & k & Hd & Hdr & Hk & Hkr).
  exists (question_metrics (test_results self) sheet st0), d, k.
  split_and!; try done; [apply Hdr|apply Hdr|apply Hkr|apply Hkr].
Qed.

(** [analyze_questions_indices] on one sheet with 1 correct answer out of
    3 *)
Lemma analyze_questions_indices_witness :
  let self :=
    set_question_analytics (Demo.ready Demo.rows)
      {[ "S1" := Demo.s1_stats ]} in
  ∃ st d k,
    question_analytics (analyze_questions self Demo.nowhere).1 !! "S1"
    = Some st
    ∧ st_correct st = 1%Z ∧ st_wrong st = 2%Z ∧ st_blank st = 0%Z
    ∧ st_total_answers st = Some 3%Z
    ∧ st_difficulty st = Some d ∧ (0 <= d <= 1)%Q
    ∧ st_discrimination st = Some k ∧ (-1 <= k <= 1)%Q.
Proof.
  intros self.
  pose proof (analyze_questions_indices self Demo.nowhere "S1") as Hi.
  assert (Hl : question_analytics self !! "S1" = Some Demo.s1_stats)
    by (vm_compute; reflexivity).
  rewrite Hl in Hi. apply Hi.
  apply map_Forall_singleton. vm_compute. repeat split; discriminate.
Defined.

(** ** The students of [correct_tests] *)

Lemma dict_set_keys {V} k (v : V) d :
  map fst (dict_set k v d)
  = if bool_decide (k ∈ map fst d) then map fst d else map fst d ++ [k].
Proof.
  induction d as [|[k0 v0] d IH]; [done|]. cbn [dict_set map fst].
  destruct (String.eqb_spec k0 k) as [->|Hne].
  - rewrite bool_decide_eq_true_2 by apply list_elem_of_here. done.
  - cbn [map fst]. rewrite IH.
    destruct (decide (k ∈ map fst d)) as [Hin|Hnin].
    + rewrite !bool_decide_eq_true_2; [done| by right |done].
    + rewrite !bool_decide_eq_false_2; [done| |done].
      intros [?|?]%elem_of_cons; congruence.
Qed.

Lemma grade_row_keys self acc r :
  let K := map fst (g_test_results acc) in
  let K1 := map fst (g_test_results (grade_row self acc r)) in
  K `prefix_of` K1
  ∧ (NoDup K → NoDup K1)
  ∧ ∀ id, id ∈ K1 ↔ id ∈ K ∨ (known_variant self r = true ∧ student_id r = id).
Proof.
  intros K K1. unfold K1. rewrite grade_row_results.
  destruct (row_entry self r) as [res|] eqn:E.
  - assert (known_variant self r = true) as Hk
        by (apply row_entry_known; by rewrite E).
    rewrite dict_set_keys. fold K. case_bool_decide as Hin.
    + split_and!; [done|done|]. intros id. split; [by left|].
      intros [?|[_ <-]]; done.
    + split_and!.
      * by apply prefix_app_r.
      * intros Hnd. apply NoDup_app. split_and!; [done| |apply NoDup_singleton].
        intros x Hx ->%list_elem_of_singleton. done.
      * intros id. rewrite elem_of_app, list_elem_of_singleton.
        split; [intros [? | ->]; auto|intros [?|[_ <-]]; auto].
  - apply row_entry_unknown in E. fold K. split_and!; [done|done|].
    intros id. split; [by left|]. intros [?|[? _]]; [done|congruence].
Qed.

Lemma grade_rows_keys self rows acc :
  let K := map fst (g_test_results acc) in
  let K' := map fst (g_test_results (foldl (grade_row self) acc rows)) in
  K `prefix_of` K'
  ∧ (NoDup K → NoDup K')
  ∧ ∀ id, id ∈ K'
          ↔ id ∈ K ∨ ∃ r, r ∈ rows ∧ known_variant self r = true
                          ∧ student_id r = id.
Proof.
  revert acc. induction rows as [|r rows IH]; intros acc K K'.
  { unfold K'. cbn [foldl]. fold K. split_and!; [done|done|].
    intros id. split; [by left|].
    intros [?|(r & Hr & _)]; [done|by apply elem_of_nil in Hr]. }
  unfold K'. cbn [foldl].
  destruct (IH (grade_row self acc r)) as (Hp & Hnd & Hin).
  destruct (grade_row_keys self acc r) as (Hp1 & Hnd1 & Hin1).
  fold K in Hp1, Hnd1, Hin1. split_and!.
  - by etrans.
  - auto.
  - intros id. rewrite Hin, Hin1. split.
    + intros [[?|[Hk <-]]|(r' & Hr' & Hk & <-)]; [by left|right..].
      * exists r. split_and!; [by left|done|done].
      * exists r'. split_and!; [by right|done|done].
    + intros [?|(r' & [->|Hr']%elem_of_cons & Hk & <-)].
      * by left; left.
      * by left; right.
      * right. by exists r'.
Qed.

(** [correct_tests] keeps the students already graded, in their order, and
    appends the others in the order of their first row with a variant of
    the registry; the students afterwards are those graded before and
    those with such a row, and no student is listed twice. *)
Theorem correct_tests_students self w rows :
  student_responses self = Some rows →
  let K := map fst (test_results self) in
  let K' := map fst (test_results (correct_tests self w).1) in
  K `prefix_of` K'
  ∧ (NoDup K → NoDup K')
  ∧ ∀ id, id ∈ K'
          ↔ id ∈ K ∨ ∃ r, r ∈ rows ∧ known_variant self r = true
                          ∧ student_id r = id.
Proof.
  intros Hr K K'. unfold K', correct_tests. rewrite Hr.
  cbn [fst test_results set_question_analytics set_test_results].
  apply (grade_rows_keys self rows
           {| g_test_results := test_results self;
              g_question_stats := ∅;
              g_stdout := [] |}).
Qed.

(** [correct_tests_students] on the rows of the demonstration: anna, bob
    and carl are graded, dora (unknown variant) is not *)
Lemma correct_tests_students_witness :
  let K' :=
    map fst (test_results
               (correct_tests (Demo.ready Demo.rows) Demo.nowhere).1) in
  NoDup K' ∧ "dora" ∉ K'.
Proof.
  intros K'.
  destruct (correct_tests_students (Demo.ready Demo.rows) Demo.nowhere
              Demo.rows) as (_ & Hnd & Hin).
  - reflexivity.
  - split.
    + apply Hnd. vm_compute. constructor.
    + intros Hd. vm_compute in Hd.
      repeat (apply elem_of_cons in Hd as [Hd|Hd]; [discriminate Hd|]).
      by apply elem_of_nil in Hd.
Defined.

(** ** The ranges of phase 2 *)

Lemma percentage_of_range total max_possible p :
  percentage_of total max_possible = Ok p →
  (0 <= total <= max_possible)%Q →
  (0 <= p <= 100)%Q.
Proof.
  intros Hp [H0 H1].
  destruct (Qlt_le_dec 0 max_possible) as [Hm|Hle].
  - rewrite percentage_of_pos in Hp by done. injection Hp as <-.
    change 0%Q with (inject_Z 0). change 100%Q with (inject_Z 100).
    apply round2_range. change (inject_Z 0) with 0%Q.
    change (inject_Z 100) with 100%Q.
    assert (0 <= total / max_possible)%Q
      by (apply Qle_shift_div_l; [done|lra]).
    assert (total / max_possible <= 1)%Q
      by (apply Qle_shift_div_r; [done|lra]).
    split; lra.
  - destruct (percentage_of_ok total max_possible) as (p' & Hp' & Hz).
    rewrite Hp in Hp'. injection Hp' as <-. rewrite (Hz Hle). lra.
Qed.

Section Phase2More.
Context `{SciLib}.

Lemma analyze_results_same_grades self w id res :
  (id, res) ∈ test_results (analyze_results self w).1 →
  ∃ res0, (id, res0) ∈ test_results self ∧ same_grades res res0.
Proof.
  rewrite analyze_results_state.
  destruct (test_results self) as [|e tr] eqn:Et.
  { rewrite Et. by intros ?%elem_of_nil. }
  cbn [test_results set_test_results]. rewrite <- Et.
  unfold with_student_analytics.
  intros (e0 & [= -> ->] & He0)%list_elem_of_fmap.
  exists e0.2. split; [by destruct e0|apply student_metrics_same_grades].
Qed.

Lemma analyze_results_question_analytics self w :
  question_analytics (analyze_results self w).1 = question_analytics self.
Proof. rewrite analyze_results_state. by destruct (test_results self). Qed.

Lemma phase2_ready_question_analytics env c keys maps :
  question_analytics (phase2_ready env c keys maps) = ∅.
Proof.
  unfold phase2_ready, load_student_answers_from_excel.
  by destruct (p2_student_responses env), (p2_load env).
Qed.

(** Phase 2 as [main] runs it gives every student scores that are the
    counts weighted by 4, 0 and 1 and a percentage between 0 and 100, and
    every question a difficulty between 0 and 1 and a discrimination
    between -1 and 1. *)
Theorem phase2_ranges env generator w :
  main_phase2 env = (Some generator, w) →
  (∀ id res, (id, res) ∈ test_results generator →
     weighted_by 4 0 1 res ∧ (0 <= percentage res <= 100)%Q)
  ∧ (∀ sheet st, question_analytics generator !! sheet = Some st →
       ∃ d k, st_difficulty st = Some d ∧ (0 <= d <= 1)%Q
              ∧ st_discrimination st = Some k ∧ (-1 <= k <= 1)%Q).
Proof.
  intros (c & keys & maps & w1 & w2 & w3 & ->)%main_phase2_state.
  destruct (phase2_ready_fields env c keys maps) as (Hv & Ht & Hc & Hw & Hb).
  pose proof (phase2_ready_question_analytics env c keys maps) as Hqa.
  set (gen := phase2_ready env c keys maps) in *.
  split.
  - intros id res Hres.
    assert (Ht4 : ∀ x w, test_results (analyze_questions x w).1
                         = test_results x).
    { intros x w'. unfold analyze_questions. by case_bool_decide. }
    rewrite Ht4 in Hres.
    apply analyze_results_same_grades in Hres as (res0 & Hres0 & Hsame).
    assert (∃ r, row_entry gen r = Some res0) as [r Hr].
    { unfold correct_tests in Hres0.
      destruct (student_responses gen) as [rows|] eqn:Er.
      - cbn [fst test_results set_question_analytics set_test_results]
          in Hres0.
        apply grade_rows_origin in Hres0 as [Hold|(r & _ & _ & Hr)].
        + cbn in Hold. rewrite Ht in Hold. by apply elem_of_nil in Hold.
        + by exists r.
      - cbn [fst] in Hres0. rewrite Ht in Hres0.
        by apply elem_of_nil in Hres0. }
    destruct (row_entry_weighted gen r res0 Hv Hr)
      as ((H1 & H2 & H3 & H4 & H5) & Hc0 & Hw0 & Hb0).
    pose proof (row_entry_percentage gen r res0 Hr) as Hp.
    destruct Hsame as (E1 & E2 & E3 & E4 & E5 & E6 & E7 & E8 & E9 & _).
    rewrite Hc, Hw, Hb in *.
    unfold weighted_by. rewrite E1, E2, E3, E4, E5, E6, E7, E8, E9.
    split; [done|].
    apply (percentage_of_range (total_score res0) (max_possible_score res0));
      [exact Hp|].
    rewrite H5, H4, !inject_Z_plus.
    change 0%Q with (inject_Z 0) in *.
    rewrite Zle_Qle in Hc0, Hw0, Hb0.
    change (inject_Z 0) with 0%Q in *. split; lra.
  - intros sheet st. rewrite analyze_questions_state.
    rewrite analyze_results_question_analytics.
    case_bool_decide as He.
    { rewrite analyze_results_question_analytics, He, lookup_empty. done. }
    cbn [question_analytics set_question_analytics].
    rewrite map_lookup_imap.
    destruct (question_analytics (correct_tests gen w1).1 !! sheet)
      as [st0|] eqn:E; [|done].
    cbn. intros [= <-].
    assert (sound_stats st0) as Hs.
    { unfold correct_tests in E.
      destruct (student_responses gen) as [rows|].
      - cbn [fst question_analytics set_question_analytics] in E.
        refine (grade_rows_sound gen rows _ _ sheet st0 E).
        cbn [g_question_stats]. apply map_Forall_empty.
      - cbn [fst] in E. by rewrite Hqa, lookup_empty in E. }
    match goal with
    | |- context [question_metrics ?tr _ _] =>
        destruct (question_metrics_ranges tr sheet st0 Hs)
          as (_ & _ & _ & _ & Hr)
    end.
    exact Hr.
Qed.
End Phase2More.

(** [phase2_ranges] on the demonstration: the percentage of anna *)
Lemma phase2_ranges_witness :
  ∃ generator res,
    (main_phase2 (Demo.env2 Demo.rows)).1 = Some generator
    ∧ dict_get "anna" (test_results generator) = Some res
    ∧ (0 <= percentage res <= 100)%Q.
Proof.
  destruct (main_phase2 (Demo.env2 Demo.rows)) as [[generator|] w] eqn:E;
    [|vm_compute in E; discriminate E].
  assert (is_Some (dict_get "anna" (test_results generator))) as [res Hres].
  { assert (Some generator = (main_phase2 (Demo.env2 Demo.rows)).1) as Hg
      by (by rewrite E).
    vm_compute in Hg. injection Hg as ->. vm_compute. eexists; reflexivity. }
  exists generator, res. split; [done|]. split; [done|].
  apply (proj1 (phase2_ranges (H := scilib) (Demo.env2 Demo.rows) generator w E)
           "anna" res).
  by apply dict_get_elem.
Defined.

(** [phase2_points_are_literals] on the demonstration: the first answer of
    anna *)
Lemma phase2_points_are_literals_witness :
  ∃ generator res a,
    (main_phase2 (Demo.env2 Demo.rows)).1 = Some generator
    ∧ dict_get "anna" (test_results generator) = Some res
    ∧ dict_get "1" (res_answers res) = Some a
    ∧ (ans_points a = 4%Q ∨ ans_points a = 0%Q ∨ ans_points a = 1%Q).
Proof.
  destruct (main_phase2 (Demo.env2 Demo.rows)) as [[generator|] w] eqn:E;
    [|vm_compute in E; discriminate E].
  assert (∃ res a, dict_get "anna" (test_results generator) = Some res
                   ∧ dict_get "1" (res_answers res) = Some a)
    as (res & a & Hres & Ha).
  { assert (Some generator = (main_phase2 (Demo.env2 Demo.rows)).1) as Hg
      by (by rewrite E).
    vm_compute in Hg. injection Hg as ->. vm_compute.
    do 2 eexists. split; reflexivity. }
  exists generator, res, a. split_and!; [done|done|done|].
  apply (phase2_points_are_literals (H := scilib) (Demo.env2 Demo.rows)
           generator w E "anna" res "1" a); by apply dict_get_elem.
Defined.


(** A submission sheet without its required columns is reported and graded
    all the same: the rows were assigned before the check. *)
Lemma load_student_answers_columns_missing self rs :
  (load_student_answers_from_excel self (ColumnsMissing rs)).1
  = (load_student_answers_from_excel self (Responses rs)).1
  ∧ (load_student_answers_from_excel self (ColumnsMissing rs)).2
    = [MsgResponsesError]
  ∧ (load_student_answers_from_excel self ReadFailed).1 = self.
Proof. done. Qed.
(** ** From the answer key to the grades *)

Lemma is_digit_not_space c : is_digit c = true → negb (isspace c) = true.
Proof.
  unfold is_digit, isspace. generalize (nat_of_ascii c). intros n.
  intros [H1 H2]%andb_true_iff.
  apply Nat.leb_le in H1. apply Nat.leb_le in H2.
  apply negb_true_iff, orb_false_iff. split; apply andb_false_iff.
  - right. apply Nat.leb_gt. lia.
  - right. apply Nat.leb_gt. lia.
Qed.

Lemma pretty_N_char_digit x : is_digit (pretty_N_char x) = true.
Proof. unfold pretty_N_char. by repeat case_match. Qed.

Lemma pretty_N_go_digits x s :
  all_chars is_digit s = true → all_chars is_digit (pretty_N_go x s) = true.
Proof.
  revert s. induction (N.lt_wf_0 x) as [x _ IH]; intros s Hs.
  assert (x = 0 ∨ 0 < x)%N as [->|?] by lia.
  - by rewrite pretty_N_go_0.
  - rewrite pretty_N_go_step by done. apply IH.
    { by apply N.div_lt. }
    cbn. by rewrite pretty_N_char_digit.
Qed.

Lemma pretty_N_go_nonempty x s : s ≠ "" → pretty_N_go x s ≠ "".
Proof.
  revert s. induction (N.lt_wf_0 x) as [x _ IH]; intros s Hs.
  assert (x = 0 ∨ 0 < x)%N as [->|?] by lia.
  - by rewrite pretty_N_go_0.
  - rewrite pretty_N_go_step by done. apply IH; [by apply N.div_lt|done].
Qed.

(** [str(i + 1)] is a non-empty string of digits. *)
Lemma str_int_digits i :
  all_chars is_digit (str_int (Z.of_nat i + 1)) = true
  ∧ str_int (Z.of_nat i + 1) ≠ "".
Proof.
  unfold str_int.
  destruct (Z.of_nat i + 1)%Z as [|p|p] eqn:E; [lia| |lia].
  change (pretty (Z.pos p)) with (pretty (N.pos p)).
  unfold pretty, pretty_N. rewrite decide_False by done.
  split; [by apply pretty_N_go_digits|].
  rewrite pretty_N_go_step by done. by apply pretty_N_go_nonempty.
Qed.

Lemma chr_from_letter base i :
  (base = 65 ∨ base = 97)%nat → (i < 26)%nat →
  all_chars (λ c, negb (isspace c)) (chr_from base i) = true.
Proof.
  intros Hb Hi. unfold chr_from. cbn [all_chars]. rewrite andb_true_r.
  unfold isspace. rewrite nat_ascii_embedding by lia.
  apply negb_true_iff, orb_false_iff. split; apply andb_false_iff.
  - right. apply Nat.leb_gt. lia.
  - right. apply Nat.leb_gt. lia.
Qed.

(** The label of a key is not changed by [strip] and is not empty. *)
Lemma key_label_plain label_style i :
  (label_style = "letters_upper" ∨ label_style = "letters_lower" →
   (i < 26)%nat) →
  strip (key_label label_style i) = key_label label_style i
  ∧ key_label label_style i ≠ "".
Proof.
  intros Hi. unfold key_label.
  destruct (String.eqb_spec label_style "letters_upper") as [Hu|_].
  { split; [|done]. apply strip_plain, chr_from_letter; auto. }
  destruct (String.eqb_spec label_style "letters_lower") as [Hl|_].
  { split; [|done]. apply strip_plain, chr_from_letter; auto. }
  destruct (str_int_digits i) as [Hd Hne]. split; [|done].
  apply strip_plain. revert Hd. apply all_chars_impl, is_digit_not_space.
Qed.

Lemma dict_get_numbered {A V} (f : A → V) (l : list A) n i x :
  l !! i = Some x →
  dict_get (str_int (Z.of_nat (n + i) + 1))
    (imap (λ j y, (str_int (Z.of_nat (n + j) + 1), f y)) l)
  = Some (f x).
Proof.
  revert n i. induction l as [|y l IH]; intros n i; [done|].
  cbn [imap dict_get]. destruct i as [|i].
  - intros [= ->]. by rewrite String.eqb_refl.
  - intros Hi. cbn in Hi.
    rewrite (proj2 (String.eqb_neq _ _))
      by (intros Heq%str_int_inj; lia).
    rewrite (imap_ext _ (λ j y, (str_int (Z.of_nat (S n + j) + 1), f y)))
      by (intros j z _; cbn; do 3 f_equal; lia).
    replace (n + S i)%nat with (S n + i)%nat by lia. by apply IH.
Qed.

Lemma keys_numbered {A V} (f : A → V) (l : list A) n :
  map fst (imap (λ j y, (str_int (Z.of_nat (n + j) + 1), f y)) l)
  = map (λ j, str_int (Z.of_nat j + 1)) (seq n (length l)).
Proof.
  revert n. induction l as [|y l IH]; intros n; [done|].
  cbn [imap map fst length seq]. rewrite Nat.add_0_r. f_equal.
  rewrite (imap_ext _ (λ j y, (str_int (Z.of_nat (S n + j) + 1), f y)))
    by (intros j z _; cbn; do 3 f_equal; lia).
  apply IH.
Qed.

Lemma List_filter_all {A} (p : A → bool) (l : list A) :
  (∀ x, x ∈ l → p x = true) → List.filter p l = l.
Proof.
  induction l as [|x l IH]; intros Hall; [done|]. cbn [List.filter].
  rewrite (Hall x) by (by left). f_equal. apply IH.
  intros y Hy. apply Hall. by right.
Qed.

Lemma answer_sheet_cols label_style sid v :
  answer_cols (answer_sheet label_style sid v)
  = question_nums (length (questions v)).
Proof.
  unfold answer_cols, answer_sheet. cbn [cells].
  rewrite (keys_numbered _ (questions v) 0). fold (question_nums (length (questions v))).
  apply List_filter_all.
  intros col (i & _ & ->)%elem_of_question_nums.
  destruct (str_int_digits i) as [Hd _].
  apply negb_true_iff, orb_false_iff.
  split; apply String.eqb_neq; intros Heq; by rewrite Heq in Hd.
Qed.

Lemma answer_sheet_classify label_style sid v i q :
  (label_style = "letters_upper" ∨ label_style = "letters_lower" →
   (correct_index q < 26)%nat) →
  questions v !! i = Some q →
  classify (answer_sheet label_style sid v) (str_int (Z.of_nat i + 1))
    (key_label label_style (correct_index q))
  = Correct.
Proof.
  intros Hidx Hq. destruct (key_label_plain label_style _ Hidx) as [Hs Hne].
  unfold classify, student_ans, row_get, answer_sheet. cbn [cells].
  pose proof (dict_get_numbered
                (λ q, Text (key_label label_style (correct_index q)))
                (questions v) 0 i q Hq) as Hg.
  cbn [Nat.add] in Hg. rewrite Hg.
  cbn [isna str_cell orb]. rewrite Hs.
  rewrite (proj2 (String.eqb_neq _ _) Hne). by rewrite String.eqb_refl.
Qed.

Lemma count_cols_all (p : string → outcome → bool) km qm r cols (b : bool) :
  (∀ col, col ∈ cols →
     ∃ sheet o, col_outcome km qm r col = Some (sheet, o) ∧ p sheet o = b) →
  count_cols p km qm r cols = if b then Z.of_nat (length cols) else 0%Z.
Proof.
  intros Hall. unfold count_cols. induction cols as [|col cols IH].
  { by destruct b. }
  destruct (Hall col) as (sheet & o & Hc & Hp); [by left|].
  cbn [List.filter]. rewrite Hc, Hp.
  assert (IH' := IH (λ c Hc', Hall c (list_elem_of_further _ _ _ Hc'))).
  destruct b; cbn [length] in *; lia.
Qed.

(** A row whose answer cells hold, as text, exactly the labels that
    [generate_answer_keys_report] recorded as the keys of its variant
    (with the correct answer among the first 26 when the labels are
    letters) is graded with every answer correct: as many correct answers
    as questions, none wrong, none blank; this is the result of the
    student when no later row of the same student is graded.  What the
    cell holds is what [str] gives for it: a key typed as a number into a
    column that pandas reads as floats comes back as [1.0], which is not
    the label. *)
Theorem keyed_sheet_all_correct self w label_style sid v rows1 rows2 :
  let sheet := answer_sheet label_style sid v in
  student_responses self = Some (rows1 ++ sheet :: rows2) →
  (∀ r, r ∈ rows2 → student_id r = sid → known_variant self r = false) →
  variant_answer_keys self !! strip (variant_id v)
  = Some (variant_mappings label_style v).1 →
  variant_question_mappings self !! strip (variant_id v)
  = Some (variant_mappings label_style v).2 →
  (label_style = "letters_upper" ∨ label_style = "letters_lower" →
   ∀ q, q ∈ questions v → (correct_index q < 26)%nat) →
  ∃ res,
    dict_get sid (test_results (correct_tests self w).1) = Some res
    ∧ correct_count res = Z.of_nat (length (questions v))
    ∧ wrong_count res = 0%Z
    ∧ blank_count res = 0%Z.
Proof.
  intros sheet Hrows Hlast Hkm Hqm Hidx.
  set (km := (variant_mappings label_style v).1) in *.
  set (qm := (variant_mappings label_style v).2) in *.
  assert (Hmaps : row_maps self sheet = Some (km, qm)).
  { unfold row_maps, row_vid, sheet, answer_sheet. cbn [row_variant_id].
    by rewrite Hkm, Hqm. }
  assert (Hentry : row_entry self sheet = Some (row_result self sheet km qm)).
  { unfold row_entry. by rewrite Hmaps. }
  exists (row_result self sheet km qm). split.
  - destruct (correct_tests_fields self w _ Hrows) as (-> & _).
    unfold grade_rows.
    apply (grade_rows_last self rows1 sheet rows2 _ _ Hentry Hlast).
  - assert (Hall : ∀ o col, col ∈ answer_cols sheet →
               ∃ s o', col_outcome km qm sheet col = Some (s, o')
                       ∧ outcome_eqb o' o = outcome_eqb Correct o).
    { intros o col Hcol. unfold sheet in Hcol.
      rewrite answer_sheet_cols in Hcol.
      apply elem_of_question_nums in Hcol as (i & Hi & ->).
      destruct (lookup_lt_is_Some_2 (questions v) i Hi) as [q Hq].
      destruct (variant_mappings_at label_style v i q Hq) as [Hk Hs].
      fold km in Hk. fold qm in Hs.
      exists (sheet_name q), Correct. split; [|done].
      unfold col_outcome. rewrite Hk, Hs. do 2 f_equal.
      apply answer_sheet_classify; [|done].
      intros Hl. apply Hidx; [done|]. by eapply list_elem_of_lookup_2. }
    assert (Hcount : ∀ o, tally_count o (row_tally self sheet km qm)
                          = if outcome_eqb Correct o
                            then Z.of_nat (length (questions v)) else 0%Z).
    { intros o. unfold row_tally. rewrite foldl_grade_column_count.
      rewrite (count_cols_all _ km qm sheet (answer_cols sheet)
                 (outcome_eqb Correct o) (Hall o)).
      unfold sheet. rewrite answer_sheet_cols.
      unfold question_nums. rewrite length_map, length_seq.
      by destruct o. }
    split_and!.
    + apply (Hcount Correct).
    + apply (Hcount Wrong).
    + apply (Hcount Blank).
Qed.

(** [keyed_sheet_all_correct] on the plain variant of the demonstration,
    with the registry of its own keys: eve hands in the keys, after anna
    and before bob *)
Lemma keyed_sheet_all_correct_witness :
  let sheet := answer_sheet "letters_upper" "eve" Demo.plain_variant in
  let self :=
    set_mappings (Demo.ready [Demo.anna; sheet; Demo.bob])
      {[ "1" := (variant_mappings "letters_upper" Demo.plain_variant).1 ]}
      {[ "1" := (variant_mappings "letters_upper" Demo.plain_variant).2 ]} in
  ∃ res,
    dict_get "eve" (test_results (correct_tests self Demo.nowhere).1)
    = Some res
    ∧ correct_count res = 3%Z
    ∧ wrong_count res = 0%Z
    ∧ blank_count res = 0%Z.
Proof.
  intros sheet self.
  apply (keyed_sheet_all_correct self Demo.nowhere "letters_upper" "eve"
           Demo.plain_variant [Demo.anna] [Demo.bob]).
  - reflexivity.
  - intros r Hr Hid. apply list_elem_of_singleton in Hr as ->.
    discriminate Hid.
  - vm_compute. reflexivity.
  - vm_compute. reflexivity.
  - intros _ q Hq. vm_compute in Hq.
    repeat (apply elem_of_cons in Hq as [->|Hq]; [vm_compute; lia|]).
    by apply elem_of_nil in Hq.
Defined.

(** ** The randomness metrics *)

Lemma diff_count_same original : diff_count original original = 0%Z.
Proof.
  unfold diff_count.
  assert (List.filter (λ p : string * string, negb (String.eqb p.1 p.2))
            (zip original original) = []) as ->; [|done].
  induction original as [|x l IH]; [done|].
  cbn [zip zip_with List.filter fst snd]. by rewrite String.eqb_refl.
Qed.

Section RandomnessProps.
Context `{SciLib}.

(** The question-order metric that [evaluate_randomness_of_variants]
    reports lies between 0 and 1, and it is 0 when every candidate lists
    the questions in the original order. *)
Theorem evaluate_randomness_question_order self vs :
  let m := (evaluate_randomness_of_variants self vs).1 in
  (0 <= m.1.1 <= 1)%Q
  ∧ (Forall (λ v, variant_order v = original_questions_order self) vs →
     m.1.1 == 0)%Q.
Proof.
  intros m. unfold m, evaluate_randomness_of_variants.
  destruct vs as [|v vs].
  { cbn. split; [lra|]. intros _. reflexivity. }
  destruct (original_questions_order self) as [|o original] eqn:Eo.
  { cbn. split; [lra|]. intros _. reflexivity. }
  cbn [fst snd]. rewrite <- Eo.
  set (scores := map _ (v :: vs)).
  assert (Hne : scores ≠ []) by done.
  split.
  - change 0%Q with (inject_Z 0). change 1%Q with (inject_Z 1).
    apply round2_range. change (inject_Z 0) with 0%Q.
    change (inject_Z 1) with 1%Q.
    apply np_mean_unit; [done|]. unfold scores.
    apply Forall_forall. intros x (v' & -> & _)%list_elem_of_fmap.
    pose proof (diff_count_range (original_questions_order self)
                  (variant_order v')).
    unfold Qlen. apply unit_fraction; [lia|]. rewrite Eo. simpl. lia.
  - intros Hall.
    assert (np_mean scores == 0)%Q as Hm.
    { apply np_mean_const; [done|]. unfold scores.
      apply Forall_forall. intros x (v' & -> & Hv')%list_elem_of_fmap.
      rewrite Forall_forall in Hall. rewrite (Hall v' Hv').
      rewrite diff_count_same. unfold Qdiv. change (inject_Z 0) with 0%Q.
      ring. }
    destruct (round2_range (np_mean scores) 0 0) as [H0 H1].
    { change (inject_Z 0) with 0%Q. split; lra. }
    change (inject_Z 0) with 0%Q in H0, H1. lra.
Qed.
End RandomnessProps.

